(** * Snippet repository of supabase-studio-go: a shallow embedding

    The development follows [internal/api/snippets.go]: the identity
    generator ([deterministicUUID], [simpleHash]), the tree scanner
    ([getFilesystemEntries]), the name sanitizer ([sanitizeName]) and the
    repository operations built on them.

    - Go strings are byte strings and are embedded as [string] (one [ascii]
      per byte); Go's [int], [int32], [uint32], [byte] and [rune] are
      embedded as [Z] with the wrap-around of each operation written out.
    - A method of [*API] is a function of the monad [M]: it runs in a
      [World] (the directory tree below the snippets root, the clock, the
      random source of [uuid.NewString]) and returns a value or an error
      together with the world it leaves.
    - The tree is a finite map from names to files and directories; every
      node can be read, so the branches of the code that skip an entry on an
      I/O error ([err != nil] in the callback, after [os.ReadFile] and after
      [d.Info()]) are not part of the model.
    - [strings.ToLower] and [time.Time.Format] are parameters of the
      repository.
    - The handlers of the snippet routes ([handleSnippets] and the others)
      are functions from a [Request] to a [Handler], which answers with a
      status and a payload, or panics, and leaves a world.
      [strings.TrimSpace], [strconv.Atoi] and the text of an error of the
      operating system are parameters of the handlers. *)

From Stdlib Require Import ZArith String Ascii List Lia Permutation.
From Stdlib Require OrderedTypeEx.
From stdpp Require Import base decidable option list gmap strings sorting.

#[local] Set Warnings "-register-all".
#[local] Open Scope string_scope.
#[local] Open Scope Z_scope.

(** ** Machine integers *)

Module GoInt.

(** Conversion to [int32]: wrap into [-2^31, 2^31). *)
Definition int32 (z : Z) : Z := (z + 2147483648) mod 4294967296 - 2147483648.

(** Conversion to [uint32]: wrap into [0, 2^32). *)
Definition uint32 (z : Z) : Z := z mod 4294967296.

(** Conversion to [byte]: wrap into [0, 256). *)
Definition byte (z : Z) : Z := z mod 256.

End GoInt.

Import GoInt.

(** ** Strings (package [strings], [unicode/utf8]) *)

Module GoString.

(** The value of a byte of a string. *)
Definition byteOf (c : ascii) : Z := Z.of_N (N_of_ascii c).

(** The byte with a given value (taken modulo 256). *)
Definition charOf (z : Z) : ascii := ascii_of_N (Z.to_N (z mod 256)).

(** [strings.Join(elems, sep)]. *)
Fixpoint Join (elems : list string) (sep : string) : string :=
  match elems with
  | [] => ""
  | [x] => x
  | x :: rest => x +:+ sep +:+ Join rest sep
  end.

(** [s[n:]] for [n <= len(s)]. *)
Fixpoint dropS (n : nat) (s : string) : string :=
  match n, s with
  | O, _ => s
  | S n', String _ s' => dropS n' s'
  | S _, EmptyString => EmptyString
  end.

(** [s[:n]] for [n <= len(s)]. *)
Fixpoint takeS (n : nat) (s : string) : string :=
  match n, s with
  | O, _ => EmptyString
  | S n', String c s' => String c (takeS n' s')
  | S _, EmptyString => EmptyString
  end.

(** [strings.HasSuffix(s, suffix)]:
    [len(s) >= len(suffix) && s[len(s)-len(suffix):] == suffix]. *)
Definition HasSuffix (s suffix : string) : bool :=
  (String.length suffix <=? String.length s)%nat
  && bool_decide (dropS (String.length s - String.length suffix) s = suffix).

(** [strings.TrimSuffix(s, suffix)]. *)
Definition TrimSuffix (s suffix : string) : string :=
  if HasSuffix s suffix
  then takeS (String.length s - String.length suffix) s
  else s.

(** [strings.HasPrefix(s, prefix)]. *)
Fixpoint HasPrefix (s pre : string) : bool :=
  match pre, s with
  | EmptyString, _ => true
  | String c p', String d s' => bool_decide (c = d) && HasPrefix s' p'
  | String _ _, EmptyString => false
  end.

(** [strings.Contains(s, substr)]: [substr] occurs at some offset of [s]. *)
Fixpoint Contains (s substr : string) : bool :=
  HasPrefix s substr
  || match s with
     | EmptyString => false
     | String _ s' => Contains s' substr
     end.

(** The byte-wise order [<] of Go strings. *)
Definition ltS (a b : string) : bool := String.ltb a b.

(** [utf8.RuneError]. *)
Definition RuneError : Z := 65533.

(** The second byte a leading byte accepts ([acceptRanges] of
    [unicode/utf8]). *)
Definition acceptRange (b0 : Z) : Z * Z :=
  if b0 =? 224 then (160, 191)
  else if b0 =? 237 then (128, 159)
  else if b0 =? 240 then (144, 191)
  else if b0 =? 244 then (128, 143)
  else (128, 191).

Definition inRange (b : Z) (r : Z * Z) : bool := (fst r <=? b) && (b <=? snd r).

(** A continuation byte, [0x80 .. 0xBF]. *)
Definition isCont (b : Z) : bool := inRange b (128, 191).

(** The runes a [for _, r := range s] loop yields: the UTF-8 decoding of
    [s] in which every byte that starts no valid sequence yields
    [RuneError] and is skipped alone. *)
Fixpoint runes (s : string) : list Z :=
  match s with
  | EmptyString => []
  | String c0 t0 =>
    let b0 := byteOf c0 in
    if b0 <? 128 then b0 :: runes t0
    else if (b0 <? 194) || (244 <? b0) then RuneError :: runes t0
    else
      match t0 with
      | EmptyString => RuneError :: runes t0
      | String c1 t1 =>
        let b1 := byteOf c1 in
        if negb (inRange b1 (acceptRange b0)) then RuneError :: runes t0
        else if b0 <? 224 then
          Z.lor (Z.shiftl (Z.land b0 31) 6) (Z.land b1 63) :: runes t1
        else
          match t1 with
          | EmptyString => RuneError :: runes t0
          | String c2 t2 =>
            let b2 := byteOf c2 in
            if negb (isCont b2) then RuneError :: runes t0
            else if b0 <? 240 then
              Z.lor (Z.lor (Z.shiftl (Z.land b0 15) 12)
                           (Z.shiftl (Z.land b1 63) 6))
                    (Z.land b2 63) :: runes t2
            else
              match t2 with
              | EmptyString => RuneError :: runes t0
              | String c3 t3 =>
                let b3 := byteOf c3 in
                if negb (isCont b3) then RuneError :: runes t0
                else
                  Z.lor (Z.lor (Z.lor (Z.shiftl (Z.land b0 7) 18)
                                      (Z.shiftl (Z.land b1 63) 12))
                               (Z.shiftl (Z.land b2 63) 6))
                        (Z.land b3 63) :: runes t3
              end
          end
      end
  end.

End GoString.

Import GoString.


(** ** Paths (package [path/filepath], Unix) *)

Definition isSep (c : ascii) : bool := bool_decide (c = "/"%char).

(** Strip the separators at the end of a path (given reversed). *)
Fixpoint dropSeps (l : list ascii) : list ascii :=
  match l with
  | [] => []
  | c :: l' => if isSep c then dropSeps l' else l
  end.

(** The bytes after the last separator of a path (given reversed). *)
Fixpoint lastElem (l : list ascii) : list ascii :=
  match l with
  | [] => []
  | c :: l' => if isSep c then [] else c :: lastElem l'
  end.

(** [filepath.Base(path)]: ["."] for the empty path, ["/"] for a path of
    separators only, otherwise the last element of the path once the
    trailing separators are stripped. *)
Definition filepath_Base (path : string) : string :=
  if decide (path = "") then "."
  else
    match dropSeps (List.rev (list_ascii_of_string path)) with
    | [] => "/"
    | stripped => string_of_list_ascii (List.rev (lastElem stripped))
    end.

(** [strings.Split(s, "/")]. *)
Fixpoint splitSep (s : string) : list string :=
  match s with
  | EmptyString => [""]
  | String c s' =>
    if isSep c then "" :: splitSep s'
    else
      match splitSep s' with
      | x :: r => String c x :: r
      | [] => [String c ""]
      end
  end.

(** Lexical clean-up of the elements joined under the root: empty and ["."]
    elements vanish and [".."] removes the element before it.  [acc] holds
    the elements kept so far, last first.  [None]: the path leaves the
    root. *)
Fixpoint cleanUnder (acc : list string) (elems : list string) : option (list string) :=
  match elems with
  | [] => Some (List.rev acc)
  | c :: rest =>
    if decide (c = "") then cleanUnder acc rest
    else if decide (c = ".") then cleanUnder acc rest
    else if decide (c = "..") then
      match acc with
      | [] => None
      | _ :: acc' => cleanUnder acc' rest
      end
    else cleanUnder (c :: acc) rest
  end.

(** [filepath.Join(root, elems...)].  The snippets root is the only directory
    the repository works in, so a path is represented by its elements below
    the root: [Some []] is the root itself and [None] a path outside it. *)
Definition filepath_Join (elems : list string) : option (list string) :=
  cleanUnder [] (flat_map splitSep elems).

(** ** Identifiers (package [github.com/google/uuid]) *)

Definition hextable : list ascii := list_ascii_of_string "0123456789abcdef".

Definition hexDigit (n : Z) : ascii := nth (Z.to_nat n) hextable "0"%char.

(** [hex.Encode]: two lower-case digits per byte. *)
Fixpoint hex_Encode (src : list Z) : string :=
  match src with
  | [] => ""
  | v :: rest =>
    String (hexDigit (Z.shiftr v 4)) (String (hexDigit (Z.land v 15)) (hex_Encode rest))
  end.

(** [uuid.FromBytes]: the 16 bytes, or the zero UUID (with an error the
    caller drops) for another length. *)
Definition uuid_FromBytes (b : list Z) : list Z :=
  if decide (length b = 16%nat) then b else replicate 16 0.

(** [UUID.String]: the dashed form xxxxxxxx-xxxx-xxxx-xxxx-xxxxxxxxxxxx. *)
Definition uuid_String (u : list Z) : string :=
  hex_Encode (take 4 u) +:+ "-"
  +:+ hex_Encode (take 2 (drop 4 u)) +:+ "-"
  +:+ hex_Encode (take 2 (drop 6 u)) +:+ "-"
  +:+ hex_Encode (take 2 (drop 8 u)) +:+ "-"
  +:+ hex_Encode (drop 10 u).

(** [b[i] = f(b[i])] on a byte slice. *)
Definition setByte (i : nat) (f : Z -> Z) (b : list Z) : list Z :=
  <[i := f (nth i b 0)]> b.

(** The 16 bytes of one reading of the random source. *)
Definition randomBytes (r : Z) : list Z :=
  map (fun i => byte (Z.shiftr r (8 * Z.of_nat i))) (seq 0 16).

(** ** The world a call runs in *)

(** A node of the directory tree below the snippets root.  A directory maps
    the names of its entries to their nodes. *)
Inductive node :=
| File (content : string) (mtime : Z)
| Dir (mtime : Z) (children : gmap string node).

(** The state around the repository: the content of the snippets root, the
    clock that stamps modifications, and the random source of
    [uuid.NewString], of which [drawn] readings were consumed. *)
Record World := mkWorld {
  fs : gmap string node;
  now : Z;
  entropy : nat -> Z;
  drawn : nat
}.

Inductive oserror := ENOENT | ENOTDIR | EISDIR | ENOTEMPTY | EBUSY.

Inductive error :=
| errSnippetNotFound
| errSnippetAlreadyExists
| errSnippetExistsInTargetFolder
| errFolderNotFound
| errFolderNameRequired
| errFolderAlreadyExists
| errLimitExceedsMax
| errSnippetsFolderEnvNotSet
| errOS (e : oserror).

#[global] Instance oserror_eq_dec : EqDecision oserror.
Proof. solve_decision. Defined.

#[global] Instance error_eq_dec : EqDecision error.
Proof. solve_decision. Defined.

(** [errors.Is(err, os.ErrNotExist)]. *)
Definition isNotExist (e : error) : bool := bool_decide (e = errOS ENOENT).

Inductive Result (A : Type) :=
| Ok (a : A)
| Err (e : error).

Arguments Ok {A} a.
Arguments Err {A} e.

(** A call: it reads and changes the world and returns a value or an error.
    An error does not undo the changes made before it. *)
Definition M (A : Type) : Type := World -> Result A * World.

Definition ret {A} (a : A) : M A := fun w => (Ok a, w).

Definition fail {A} (e : error) : M A := fun w => (Err e, w).

Definition bind {A B} (m : M A) (k : A -> M B) : M B :=
  fun w =>
    match m w with
    | (Ok a, w') => k a w'
    | (Err e, w') => (Err e, w')
    end.

#[global] Instance M_ret : MRet M := @ret.

#[global] Instance M_bind : MBind M := fun A B k m => bind m k.

(** A [for] loop that threads a value through the elements of a slice. *)
Fixpoint loopFold {A B} (f : B -> A -> M B) (acc : B) (l : list A) : M B :=
  match l with
  | [] => ret acc
  | x :: l' => acc' ← f acc x; loopFold f acc' l'
  end.

(** A [for] loop that appends one result per element. *)
Fixpoint loopMap {A B} (f : A -> M B) (l : list A) : M (list B) :=
  match l with
  | [] => ret []
  | x :: l' => y ← f x; ys ← loopMap f l'; ret (y :: ys)
  end.

Definition getWorld : M World := fun w => (Ok w, w).

(** [uuid.NewString()]: a version-4 UUID from 16 fresh random bytes. *)
Definition uuid_NewString : M string :=
  fun w =>
    let b := randomBytes (entropy w (drawn w)) in
    let b := setByte 6 (fun x => Z.lor (Z.land x 15) 64) b in
    let b := setByte 8 (fun x => Z.lor (Z.land x 63) 128) b in
    (Ok (uuid_String b), mkWorld (fs w) (now w) (entropy w) (S (drawn w))).

(** ** Identity generator *)

(** [simpleHash]: [hash = (hash << 5) - hash + int32(r)] over the runes of
    the input in [int32], then [hash = -hash] when negative. *)
Definition simpleHash (input : string) : Z :=
  let hash :=
    fold_left (fun hash r => int32 (int32 (int32 (Z.shiftl hash 5) - hash) + int32 r))
              (runes input) 0 in
  if hash <? 0 then int32 (- hash) else hash.

(** The loop of [deterministicUUID]: [n] steps of
    [seed = (seed*1103515245 + 12345) & 0x7fffffff] in [uint32], each
    storing [byte(seed >> 16)]. *)
Fixpoint seedBytes (n : nat) (seed : Z) : list Z :=
  match n with
  | O => []
  | S n' =>
    let seed' := Z.land (uint32 (uint32 (seed * 1103515245) + 12345)) 2147483647 in
    byte (Z.shiftr seed' 16) :: seedBytes n' seed'
  end.

(** The deterministic branch of [deterministicUUID] (from [simpleHash] to
    [id.String()]). *)
Definition hashedUUID (input : string) : string :=
  let hash := simpleHash input in
  let seed := uint32 hash in
  let bytes := seedBytes 16 seed in
  let bytes := setByte 6 (fun x => Z.lor (Z.land x 15) 64) bytes in
  let bytes := setByte 8 (fun x => Z.lor (Z.land x 63) 128) bytes in
  uuid_String (uuid_FromBytes bytes).

(** The non-empty inputs, in order. *)
Definition cleaned (inputs : list string) : list string :=
  List.filter (fun input => negb (bool_decide (input = ""))) inputs.

Definition deterministicUUID (inputs : list string) : M string :=
  let input := Join (cleaned inputs) "_" in
  if decide (input = "") then uuid_NewString
  else ret (hashedUUID input).

(** ** The directory tree (package [os]) *)

(** Directory modification times are not observable through the repository
    (nothing reads the [CreatedAt] of a folder entry), so the operations
    below leave the [mtime] of an existing directory as it is. *)

Definition nameLe (a b : string * node) : Prop := String.leb (fst a) (fst b) = true.

#[global] Instance nameLe_dec a b : Decision (nameLe a b).
Proof. unfold nameLe. apply _. Defined.

(** [os.ReadDir]: the entries of a directory, sorted by file name. *)
Definition os_ReadDir (m : gmap string node) : list (string * node) :=
  merge_sort nameLe (map_to_list m).

(** [os.WriteFile] below a directory: create or truncate the file at [p]
    and stamp it with [t]. *)
Fixpoint writeAt (t : Z) (content : string) (m : gmap string node) (p : list string)
  : oserror + gmap string node :=
  match p with
  | [] => inl EISDIR
  | c :: rest =>
    match rest with
    | [] =>
      match m !! c with
      | Some (Dir _ _) => inl EISDIR
      | _ => inr (<[c := File content t]> m)
      end
    | _ :: _ =>
      match m !! c with
      | None => inl ENOENT
      | Some (File _ _) => inl ENOTDIR
      | Some (Dir mt ch) =>
        match writeAt t content ch rest with
        | inl e => inl e
        | inr ch' => inr (<[c := Dir mt ch']> m)
        end
      end
    end
  end.

(** [os.Remove] below a directory: a file or an empty directory. *)
Fixpoint removeAt (m : gmap string node) (p : list string) : oserror + gmap string node :=
  match p with
  | [] => inl EBUSY
  | c :: rest =>
    match rest with
    | [] =>
      match m !! c with
      | None => inl ENOENT
      | Some (File _ _) => inr (delete c m)
      | Some (Dir _ ch) => if decide (ch = ∅) then inr (delete c m) else inl ENOTEMPTY
      end
    | _ :: _ =>
      match m !! c with
      | None => inl ENOENT
      | Some (File _ _) => inl ENOTDIR
      | Some (Dir mt ch) =>
        match removeAt ch rest with
        | inl e => inl e
        | inr ch' => inr (<[c := Dir mt ch']> m)
        end
      end
    end
  end.

(** [os.RemoveAll] below a directory: the node at [p] with all it holds;
    a missing path is no error. *)
Fixpoint removeAllAt (m : gmap string node) (p : list string) : oserror + gmap string node :=
  match p with
  | [] => inr ∅
  | c :: rest =>
    match rest with
    | [] => inr (delete c m)
    | _ :: _ =>
      match m !! c with
      | None => inr m
      | Some (File _ _) => inl ENOTDIR
      | Some (Dir mt ch) =>
        match removeAllAt ch rest with
        | inl e => inl e
        | inr ch' => inr (<[c := Dir mt ch']> m)
        end
      end
    end
  end.

(** [os.MkdirAll] below a directory: create the missing directories of [p],
    stamped with [t]. *)
Fixpoint mkdirAllAt (t : Z) (m : gmap string node) (p : list string)
  : oserror + gmap string node :=
  match p with
  | [] => inr m
  | c :: rest =>
    match m !! c with
    | Some (File _ _) => inl ENOTDIR
    | Some (Dir mt ch) =>
      match mkdirAllAt t ch rest with
      | inl e => inl e
      | inr ch' => inr (<[c := Dir mt ch']> m)
      end
    | None =>
      match mkdirAllAt t ∅ rest with
      | inl e => inl e
      | inr ch' => inr (<[c := Dir t ch']> m)
      end
    end
  end.

(** [os.Stat(p).ModTime()] below a directory. *)
Fixpoint statAt (m : gmap string node) (p : list string) : oserror + Z :=
  match p with
  | [] => inl EBUSY
  | c :: rest =>
    match rest with
    | [] =>
      match m !! c with
      | None => inl ENOENT
      | Some (File _ mt) => inr mt
      | Some (Dir mt _) => inr mt
      end
    | _ :: _ =>
      match m !! c with
      | None => inl ENOENT
      | Some (File _ _) => inl ENOTDIR
      | Some (Dir _ ch) => statAt ch rest
      end
    end
  end.

(** Run a tree operation on the world.  A path outside the root ([None]) is
    outside the modelled tree; no path built from directory-entry names and
    a name ending in [.sql] is one. *)
Definition onTree (path : option (list string))
    (op : gmap string node -> list string -> oserror + gmap string node) : M unit :=
  fun w =>
    match path with
    | None => (Err (errOS EBUSY), w)
    | Some p =>
      match op (fs w) p with
      | inl e => (Err (errOS e), w)
      | inr m => (Ok tt, mkWorld m (now w) (entropy w) (drawn w))
      end
    end.

Definition os_WriteFile (path : option (list string)) (content : string) : M unit :=
  fun w => onTree path (writeAt (now w) content) w.

Definition os_Remove (path : option (list string)) : M unit :=
  onTree path removeAt.

Definition os_RemoveAll (path : option (list string)) : M unit :=
  onTree path removeAllAt.

(** [os.MkdirAll].  Of the paths outside the root only the parent of the
    root can be asked for (the sanitizer lets [".."] pass); it exists. *)
Definition os_MkdirAll (path : option (list string)) : M unit :=
  fun w =>
    match path with
    | None => (Ok tt, w)
    | Some _ => onTree path (mkdirAllAt (now w)) w
    end.

Definition os_Stat (path : option (list string)) : M Z :=
  fun w =>
    match path with
    | None => (Err (errOS EBUSY), w)
    | Some p =>
      match statAt (fs w) p with
      | inl e => (Err (errOS e), w)
      | inr mt => (Ok mt, w)
      end
    end.

(** ** Data model *)

Record snippetContent := mkSnippetContent {
  SQL : string;
  ContentID : string;
  SchemaVersion : string
}.

Record snippetUser := mkSnippetUser {
  user_ID : Z;
  Username : string
}.

Record snippet := mkSnippet {
  snippet_ID : string;
  InsertedAt : string;
  UpdatedAt : string;
  snippet_Type : string;
  snippet_Name : string;
  Description : string;
  Favorite : bool;
  snippet_Content : snippetContent;
  Visibility : string;
  snippet_ProjectID : Z;
  snippet_FolderID : option string;
  snippet_OwnerID : Z;
  Owner : snippetUser;
  UpdatedBy : snippetUser
}.

Record folder := mkFolder {
  folder_ID : string;
  folder_Name : string;
  folder_OwnerID : Z;
  ParentID : option string;
  folder_ProjectID : Z
}.

Record filesystemEntry := mkEntry {
  ID : string;
  Name : string;
  Type_ : string;
  FolderID : option string;
  Content : string;
  CreatedAt : Z
}.

#[global] Instance filesystemEntry_eq_dec : EqDecision filesystemEntry.
Proof. solve_decision. Defined.

Record Config := mkConfig { SnippetsFolder : string }.

Record API := mkAPI { cfg : Config }.

(** A value of Go's [any] as [encoding/json] decodes it: [nil], a string,
    an object, or something else (a number, a boolean, an array). *)
Inductive any :=
| anyNil
| anyString (s : string)
| anyMap (m : gmap string any)
| anyOther.

(** ** Tree scanner *)

(** [snippetsDir]: the configured root; [os.MkdirAll] makes sure it exists,
    and the world holds what is below it. *)
Definition snippetsDir (api : API) : M string :=
  if decide (SnippetsFolder (cfg api) = "") then fail errSnippetsFolderEnvNotSet
  else ret (SnippetsFolder (cfg api)).

(** What the callback of [filepath.WalkDir] answers. *)
Inductive walkAnswer := walkNil | walkSkipDir.

(** The inputs of the identity of a snippet. *)
Definition idInputs (folderID : option string) (name : string) : list string :=
  match folderID with
  | Some f => [f; name +:+ ".sql"]
  | None => [name +:+ ".sql"]
  end.

(** The callback [walk] of [getFilesystemEntries], called on the entry [d]
    named [name] whose path below the root splits into [parts]; [entries] is
    the slice the callback appends to. *)
Definition walk (parts : list string) (name : string) (d : node)
    (entries : list filesystemEntry) : M (list filesystemEntry * walkAnswer) :=
  match d with
  | Dir mtime _ =>
    if decide (1 < length parts)%nat then ret (entries, walkSkipDir)
    else
      folderID ← deterministicUUID [name];
      ret ((entries ++ [mkEntry folderID name "folder" None "" mtime])%list, walkNil)
  | File content mtime =>
    if bool_decide (name = ".DS_Store") || negb (HasSuffix name ".sql")
    then ret (entries, walkNil)
    else
      '(folderID, nm) ←
        (if decide (length parts = 1%nat)
         then ret (None, TrimSuffix name ".sql")
         else
           id ← deterministicUUID [hd "" parts];
           ret (Some id, TrimSuffix (List.last parts "") ".sql"));
      id ← deterministicUUID (idInputs folderID nm);
      ret ((entries ++ [mkEntry id nm "file" folderID content mtime])%list, walkNil)
  end.

(** [filepath.WalkDir] inside a directory at depth one.  It would descend
    into a directory for which the callback answers [nil]; [walk] answers
    [SkipDir] for every directory met here ([len(parts) > 1]), so the
    traversal ends at this depth. *)
Definition walkDirIn (parent : string) (ch : gmap string node)
    (entries : list filesystemEntry) : M (list filesystemEntry) :=
  loopFold (fun entries '(name, d) =>
              '(entries, _) ← walk [parent; name] name d entries;
              ret entries)
           entries (os_ReadDir ch).

(** [filepath.WalkDir(root, walk)]: the entries in lexical order, a
    directory before what it holds.  The call on the root itself returns at
    [path == root]. *)
Definition filepath_WalkDir (root : gmap string node) : M (list filesystemEntry) :=
  loopFold (fun entries '(name, d) =>
              '(entries, answer) ← walk [name] name d entries;
              match d, answer with
              | Dir _ ch, walkNil => walkDirIn name ch entries
              | _, _ => ret entries
              end)
           [] (os_ReadDir root).

Definition getFilesystemEntries (api : API) : M (list filesystemEntry) :=
  _ ← snippetsDir api;
  w ← getWorld;
  filepath_WalkDir (fs w).

(** ** Name sanitizer *)

Definition NUL : string := String Ascii.zero "".

Definition sanitizeName (name : string) : string :=
  let base := filepath_Base name in
  if negb (bool_decide (base = name)) || Contains name NUL then ""
  else base.

Definition matchesFolder (fileFolder targetFolder : option string) : bool :=
  match fileFolder, targetFolder with
  | None, None => true
  | Some f, Some t => bool_decide (f = t)
  | _, _ => false
  end.

(** ** Snippet and folder repository *)

Section Repository.

(** [strings.ToLower], the lower-casing of the Unicode tables, and
    [time.Time.Format(time.RFC3339)] are library functions the repository
    only calls. *)
Variable ToLower : string -> string.
Variable formatRFC3339 : Z -> string.

Definition buildSnippet (name content : string) (folderID : option string)
    (createdAt : Z) : M snippet :=
  id ← deterministicUUID (idInputs folderID name);
  contentID ← uuid_NewString;
  ret (mkSnippet id (formatRFC3339 createdAt) (formatRFC3339 createdAt) "sql" name ""
         false (mkSnippetContent content contentID "1.0") "user" 1 folderID 1
         (mkSnippetUser 1 "johndoe") (mkSnippetUser 1 "johndoe")).

Definition isFile (entry : filesystemEntry) : bool := bool_decide (Type_ entry = "file").

Definition isFolder (entry : filesystemEntry) : bool := bool_decide (Type_ entry = "folder").

(** The two filter loops of [getSnippets]: by search term when there is one,
    by folder otherwise. *)
Definition filterFiles (searchTerm : string) (folderID : option string)
    (files : list filesystemEntry) : list filesystemEntry :=
  if negb (bool_decide (searchTerm = "")) then
    let lower := ToLower searchTerm in
    List.filter (fun file => Contains (ToLower (Name file)) lower) files
  else
    List.filter (fun file => matchesFolder (FolderID file) folderID) files.

(** The [less] function handed to [sort.SliceStable]. *)
Definition lessBy (sortField : string) (a b : filesystemEntry) : bool :=
  if bool_decide (sortField = "name")
  then ltS (ToLower (Name a)) (ToLower (Name b))
  else CreatedAt a <? CreatedAt b.

(** Insert [x], which stood before all of [l], into the sorted [l]: after
    the elements that are less than it, before the first that is not. *)
Fixpoint insertStable {A} (less : A -> A -> bool) (x : A) (l : list A) : list A :=
  match l with
  | [] => [x]
  | y :: l' => if less y x then y :: insertStable less x l' else x :: l
  end.

(** [sort.SliceStable]: the sorted order in which equal elements keep their
    original order. *)
Definition sort_SliceStable {A} (less : A -> A -> bool) (l : list A) : list A :=
  foldr (insertStable less) [] l.

Definition sortEntries (sortField sortOrder : string) (filtered : list filesystemEntry)
  : list filesystemEntry :=
  let sorted := sort_SliceStable (lessBy sortField) filtered in
  if bool_decide (sortOrder = "desc") then List.rev sorted else sorted.

(** The cursor loop: one past the index of the first entry whose id is the
    cursor, [0] when there is none. *)
Fixpoint cursorStart (cursor : string) (idx : nat) (l : list filesystemEntry) : nat :=
  match l with
  | [] => 0
  | entry :: l' =>
    if bool_decide (ID entry = cursor) then idx + 1
    else cursorStart cursor (idx + 1) l'
  end.

(** The rest of [getSnippets] on the sorted list: cursor, limit and next
    cursor. *)
Definition pageOf (cursor : string) (limit : Z) (filtered : list filesystemEntry)
  : Result (string * list filesystemEntry) :=
  let start := if negb (bool_decide (cursor = "")) then cursorStart cursor 0 filtered else 0%nat in
  let filtered := drop start filtered in
  let limit := if limit <=? 0 then 100 else limit in
  if 1000 <? limit then Err errLimitExceedsMax
  else if limit <? Z.of_nat (length filtered) then
    Ok (from_option ID "" (filtered !! Z.to_nat (limit - 1)), take (Z.to_nat limit) filtered)
  else Ok ("", filtered).

Definition getSnippets (api : API) (searchTerm : string) (limit : Z) (cursor : string)
    (sortField sortOrder : string) (folderID : option string) : M (string * list snippet) :=
  entries ← getFilesystemEntries api;
  let files := List.filter isFile entries in
  let filtered := filterFiles searchTerm folderID files in
  let filtered := sortEntries sortField sortOrder filtered in
  match pageOf cursor limit filtered with
  | Err e => fail e
  | Ok (nextCursor, filtered) =>
    snippets ← loopMap (fun entry => buildSnippet (Name entry) (Content entry)
                                                  (FolderID entry) (CreatedAt entry))
                       filtered;
    ret (nextCursor, snippets)
  end.

Definition saveSnippet (api : API) (newSnippet : snippet) : M snippet :=
  entries ← getFilesystemEntries api;
  if existsb (fun entry => bool_decide (ID entry = snippet_ID newSnippet) && isFile entry) entries
  then fail errSnippetAlreadyExists
  else
    _ ← match snippet_FolderID newSnippet with
        | Some f =>
          if existsb (fun entry => bool_decide (ID entry = f) && isFolder entry) entries
          then ret tt else fail errFolderNotFound
        | None => ret tt
        end;
    let name := sanitizeName (snippet_Name newSnippet) in
    let content := SQL (snippet_Content newSnippet) in
    _ ← snippetsDir api;
    let folderPath :=
      match snippet_FolderID newSnippet with
      | Some f =>
        match List.find (fun entry => bool_decide (ID entry = f) && isFolder entry) entries with
        | Some entry => [Name entry]
        | None => []
        end
      | None => []
      end in
    let filePath := filepath_Join (folderPath ++ [name +:+ ".sql"])%list in
    _ ← os_WriteFile filePath content;
    modTime ← os_Stat filePath;
    buildSnippet name content (snippet_FolderID newSnippet) modTime.

(** [err != nil && !errors.Is(err, os.ErrNotExist)]: a missing file is no
    error of the removal. *)
Definition exceptNotExist (m : M unit) : M unit :=
  fun w =>
    match m w with
    | (Err e, w') => if isNotExist e then (Ok tt, w') else (Err e, w')
    | r => r
    end.

(** The path [deleteSnippet] removes for [target]. *)
Definition deletePath (entries : list filesystemEntry) (target : filesystemEntry)
  : option (list string) :=
  let filename := Name target +:+ ".sql" in
  let paths :=
    match FolderID target with
    | Some f =>
      map Name (List.filter (fun entry => bool_decide (ID entry = f) && isFolder entry) entries)
    | None => []
    end in
  filepath_Join (paths ++ [filename])%list.

Definition deleteSnippet (api : API) (id : string) : M unit :=
  entries ← getFilesystemEntries api;
  match List.find (fun entry => bool_decide (ID entry = id) && isFile entry) entries with
  | None => fail errSnippetNotFound
  | Some target =>
    _ ← snippetsDir api;
    exceptNotExist (os_Remove (deletePath entries target))
  end.

Definition updateSnippet (api : API) (id : string) (updates : gmap string any) : M snippet :=
  entries ← getFilesystemEntries api;
  match List.find (fun entry => bool_decide (ID entry = id) && isFile entry) entries with
  | None => fail errSnippetNotFound
  | Some found =>
    let name :=
      match updates !! "name" with
      | Some (anyString updatesName) =>
        if negb (bool_decide (updatesName = "")) then updatesName else Name found
      | _ => Name found
      end in
    let folderID :=
      match updates !! "folder_id" with
      | Some anyNil => None
      | Some (anyString idString) => Some idString
      | _ => FolderID found
      end in
    newID ← deterministicUUID (idInputs folderID name);
    if existsb (fun entry => bool_decide (ID entry = newID) && isFile entry
                             && negb (bool_decide (ID entry = ID found))) entries
    then fail errSnippetExistsInTargetFolder
    else
      let content :=
        match updates !! "content" with
        | Some (anyMap updatesContent) =>
          match updatesContent !! "sql" with
          | Some (anyString sql) => sql
          | _ => Content found
          end
        | _ => Content found
        end in
      _ ← deleteSnippet api (ID found);
      contentID ← uuid_NewString;
      saveSnippet api
        (mkSnippet newID "" "" "" name "" false (mkSnippetContent content contentID "1.0")
           "" 0 folderID 0 (mkSnippetUser 0 "") (mkSnippetUser 0 ""))
  end.

Definition getFolders (api : API) (folderID : option string) : M (list folder) :=
  entries ← getFilesystemEntries api;
  ret (map (fun entry => mkFolder (ID entry) (Name entry) 1 None 1)
           (List.filter (fun entry => isFolder entry
                                      && bool_decide (FolderID entry = None)
                                      && bool_decide (folderID = None)) entries)).

(** [entries, _ := api.getFilesystemEntries()]: no entries on an error. *)
Definition entriesOrNone (api : API) : M (list filesystemEntry) :=
  fun w =>
    match getFilesystemEntries api w with
    | (Ok entries, w') => (Ok entries, w')
    | (Err _, w') => (Ok [], w')
    end.

Definition createFolder (api : API) (name : string) : M folder :=
  _ ← snippetsDir api;
  let name := sanitizeName name in
  if bool_decide (name = "") then fail errFolderNameRequired
  else
    entries ← entriesOrNone api;
    if existsb (fun entry => isFolder entry && bool_decide (Name entry = name)) entries
    then fail errFolderAlreadyExists
    else
      _ ← os_MkdirAll (filepath_Join [name]);
      id ← deterministicUUID [name];
      ret (mkFolder id name 1 None 1).

Definition deleteFolder (api : API) (id : string) : M unit :=
  entries ← getFilesystemEntries api;
  match List.find (fun entry => isFolder entry && bool_decide (ID entry = id)) entries with
  | None => fail errFolderNotFound
  | Some target =>
    _ ← snippetsDir api;
    os_RemoveAll (filepath_Join [Name target])
  end.

Definition getSnippet (api : API) (id : string) : M snippet :=
  entries ← getFilesystemEntries api;
  match List.find (fun entry => isFile entry && bool_decide (ID entry = id)) entries with
  | Some entry =>
    buildSnippet (Name entry) (Content entry) (FolderID entry) (CreatedAt entry)
  | None => fail errSnippetNotFound
  end.

End Repository.

(** The ASCII case of [strings.ToLower]: the letters [A] to [Z] become
    [a] to [z]; it is [strings.ToLower] on the strings made of ASCII bytes. *)
Fixpoint asciiToLower (s : string) : string :=
  match s with
  | EmptyString => EmptyString
  | String c s' =>
    let b := byteOf c in
    String (if (65 <=? b) && (b <=? 90) then charOf (b + 32) else c) (asciiToLower s')
  end.

(** A stand-in for the RFC 3339 form of a time stamp where one is needed to
    run the repository: the time stamp is left out. *)
Definition noFormat (t : Z) : string := "".

(** ** The identity algorithm in the words of the specification *)

Module Spec.

(** Step 1: drop the empty parts and join the others with [_]. *)
Definition joined (parts : list string) : string :=
  Join (List.filter (fun s => negb (String.eqb s "")) parts) "_".

(** Step 2: [h = h*31 + codepoint(c)] for each character, with signed
    32-bit wrap-around, then the absolute value. *)
Definition rollingHash (s : string) : Z :=
  Z.abs (fold_left (fun h c => int32 (h * 31 + c)) (runes s) 0).

(** Step 3: [seed = (seed*1103515245 + 12345) mod 2^31], iterated; each
    iteration gives the byte [(seed >> 16) & 0xFF]. *)
Fixpoint lcgBytes (n : nat) (seed : Z) : list Z :=
  match n with
  | O => []
  | S n' =>
    let seed' := (seed * 1103515245 + 12345) mod 2 ^ 31 in
    Z.land (Z.shiftr seed' 16) 255 :: lcgBytes n' seed'
  end.

(** Step 4: the high nibble of byte 6 becomes [0100], the high two bits of
    byte 8 become [10]; the other bits stay. *)
Definition patchByte (i : nat) (keep high : Z) (bytes : list Z) : list Z :=
  match bytes !! i with
  | Some b => <[i := high + b mod keep]> bytes
  | None => bytes
  end.

Definition patched (bytes : list Z) : list Z :=
  patchByte 8 64 128 (patchByte 6 16 64 bytes).

(** Step 5: the 32 lower-case hexadecimal digits of the 16 bytes, grouped
    8-4-4-4-12 with dashes. *)
Definition hexOf (b : Z) : string :=
  String (hexDigit (b / 16)) (String (hexDigit (b mod 16)) "").

Definition dashed (bytes : list Z) : string :=
  let digits := String.concat "" (map hexOf bytes) in
  String.substring 0 8 digits +:+ "-"
  +:+ String.substring 8 4 digits +:+ "-"
  +:+ String.substring 12 4 digits +:+ "-"
  +:+ String.substring 16 4 digits +:+ "-"
  +:+ String.substring 20 12 digits.

Definition identify (parts : list string) : string :=
  dashed (patched (lcgBytes 16 (rollingHash (joined parts)))).

End Spec.

(** ** The entries of a tree *)

(** The identifier of the deterministic branch of [deterministicUUID]. *)
Definition identify (p : list string) : string := hashedUUID (Join (cleaned p) "_").

(** The file names the scanner keeps. *)
Definition isSnippetFile (name : string) : bool :=
  negb (bool_decide (name = ".DS_Store") || negb (HasSuffix name ".sql")).

Definition folderEntry (name : string) (mtime : Z) : filesystemEntry :=
  mkEntry (identify [name]) name "folder" None "" mtime.

Definition fileEntry (folderID : option string) (name content : string) (mtime : Z)
  : filesystemEntry :=
  let nm := TrimSuffix name ".sql" in
  mkEntry (identify (idInputs folderID nm)) nm "file" folderID content mtime.

(** What the scanner appends for an entry of a top-level folder. *)
Definition entriesIn (parent : string) (x : string * node) : list filesystemEntry :=
  match snd x with
  | Dir _ _ => []
  | File content mtime =>
    if isSnippetFile (fst x)
    then [fileEntry (Some (identify [parent])) (fst x) content mtime]
    else []
  end.

(** What the scanner appends for an entry of the root. *)
Definition entriesAt (x : string * node) : list filesystemEntry :=
  match snd x with
  | Dir mtime ch => folderEntry (fst x) mtime :: flat_map (entriesIn (fst x)) (os_ReadDir ch)
  | File content mtime =>
    if isSnippetFile (fst x) then [fileEntry None (fst x) content mtime] else []
  end.

(** The entries of a tree whose names are not empty, in the order of the
    scanner. *)
Definition entriesOf (root : gmap string node) : list filesystemEntry :=
  flat_map entriesAt (os_ReadDir root).

(** The repository is configured. *)
Definition configured (api : API) : Prop := SnippetsFolder (cfg api) <> "".

(** No entry of the root has the empty name (no file system has one). *)
Definition named (root : gmap string node) : Prop := root !! "" = None.

(** ** What a call may do *)

(** The call leaves the tree as it was, whatever it returns. *)
Definition keeps {A} (m : M A) : Prop := forall w, fs (snd (m w)) = fs w.

(** The call returns no other errors than those of [P]. *)
Definition errs {A} (P : error -> Prop) (m : M A) : Prop :=
  forall w e, fst (m w) = Err e -> P e.

(** When the call returns an error, the tree is as it was. *)
Definition errKeeps {A} (m : M A) : Prop :=
  forall w e, fst (m w) = Err e -> fs (snd (m w)) = fs w.

(** When the call returns an error of [P], the tree is as it was. *)
Definition errKeepsOn {A} (P : error -> Prop) (m : M A) : Prop :=
  forall w e, fst (m w) = Err e -> P e -> fs (snd (m w)) = fs w.

(** The errors that come from the operating system. *)
Definition fromOS (e : error) : Prop := exists o, e = errOS o.

(** The snippet the PUT handler hands to [saveSnippet]. *)
Definition requestSnippet (id name sql : string) (folderID : option string) : snippet :=
  mkSnippet id "" "" "" name "" false (mkSnippetContent sql "" "1.0") "" 0 folderID 0
    (mkSnippetUser 0 "") (mkSnippetUser 0 "").

(** What identifies a snippet to the caller: id, name, content and folder. *)
Definition snippetKey (s : snippet) : string * string * string * option string :=
  (snippet_ID s, snippet_Name s, SQL (snippet_Content s), snippet_FolderID s).

Definition entryKey (e : filesystemEntry) : string * string * string * option string :=
  (ID e, Name e, Content e, FolderID e).

(** The list [getSnippets] pages through: the file entries of the tree,
    filtered and sorted. *)
Definition listed (ToLower : string -> string) (searchTerm sortField sortOrder : string)
    (folderID : option string) (root : gmap string node) : list filesystemEntry :=
  sortEntries ToLower sortField sortOrder
    (filterFiles ToLower searchTerm folderID (List.filter isFile (entriesOf root))).

(** ** Well-formed trees *)

(** A name a directory can hold: not empty, not [.] or [..], without
    separator. *)
Definition plainName (name : string) : bool :=
  negb (bool_decide (name = "")) && negb (bool_decide (name = "."))
  && negb (bool_decide (name = ".."))
  && forallb (fun c => negb (isSep c)) (list_ascii_of_string name).

(** The names of the root and of its directories are plain. *)
Definition plainTree (root : gmap string node) : Prop :=
  map_Forall (fun name d =>
                plainName name = true
                /\ match d with
                   | Dir _ ch => map_Forall (fun n _ => plainName n = true) ch
                   | File _ _ => True
                   end) root.

#[global] Instance plainTree_dec root : Decision (plainTree root).
Proof.
  unfold plainTree. apply map_Forall_dec. intros name d.
  apply and_dec; [apply _|]. destruct d; apply _.
Defined.

(** Two folders whose names hash alike, one of them holding a snippet. *)
Definition tree_colliding_folders : gmap string node :=
  <["Aa" := Dir 1 (<["x.sql" := File "select 1" 2]> ∅)]> (<["BB" := Dir 3 ∅]> ∅).

(** ** Ties of a sort *)

(** Neither of two elements is less than the other. *)
Definition tied {A} (less : A -> A -> bool) (x y : A) : bool :=
  negb (less x y) && negb (less y x).

(** ** HTTP handlers of the snippet routes *)

(** What a handler reads of a request: the method, the query of the URL
    (the values of each key, in order), the parameters of the route, and the
    body as [decodeJSON] reads it into a [map[string]any] ([None] when that
    fails). *)
Record Request := mkRequest {
  Method : string;
  Query : gmap string (list string);
  URLParams : gmap string string;
  Body : option (gmap string any)
}.

(** [r.URL.Query().Get(key)]: the first value of the key, the empty string
    when there is none. *)
Definition Query_Get (r : Request) (key : string) : string :=
  match Query r !! key with
  | Some (v :: _) => v
  | _ => ""
  end.

(** [chi.URLParam(r, key)]. *)
Definition chiURLParam (r : Request) (key : string) : string :=
  default "" (URLParams r !! key).

(** The value a handler hands to [writeJSON]: [nil], a string, a number,
    a slice, a [map[string]any], or one of the structures of the
    repository. *)
Inductive payload :=
| pNil
| pString (s : string)
| pInt (n : Z)
| pSlice (l : list payload)
| pMap (m : gmap string payload)
| pSnippet (s : snippet)
| pSnippets (l : list snippet)
| pFolder (f : folder)
| pFolders (l : list folder).

(** What is written to the [http.ResponseWriter]: the status, the [Allow]
    header (empty when not set) and the payload; the content type is always
    [application/json]. *)
Record Response := mkResponse {
  Status : Z;
  Allow : string;
  Payload : payload
}.

(** A handler answers, or panics before it has written anything. *)
Inductive outcome :=
| Responded (resp : Response)
| Panicked.

Definition Handler : Type := World -> outcome * World.

Definition writeJSON (status : Z) (p : payload) : Handler :=
  fun w => (Responded (mkResponse status "" p), w).

Definition writeMethodNotAllowed (r : Request) (allow : string) : Handler :=
  fun w =>
    (Responded
       (mkResponse 405 allow
          (pMap {[ "data" := pNil;
                   "error" := pMap {[ "message" :=
                                        pString ("Method " +:+ Method r +:+ " Not Allowed") ]} ]})),
     w).

(** [strings.Split(s, sep)] for a separator of one byte. *)
Fixpoint Split (s : string) (sep : ascii) : list string :=
  match s with
  | EmptyString => [""]
  | String c s' =>
    if bool_decide (c = sep) then "" :: Split s' sep
    else
      match Split s' sep with
      | x :: r => String c x :: r
      | [] => [String c ""]
      end
  end.

(** [v, _ := x.(string)]: the string, or the empty string for anything
    else (also for a missing key). *)
Definition stringOr (x : option any) : string :=
  match x with
  | Some (anyString s) => s
  | _ => ""
  end.

(** [m, _ := x.(map[string]any)]: the map, or the nil map, whose every key
    reads as [nil]. *)
Definition mapOr (x : option any) : gmap string any :=
  match x with
  | Some (anyMap m) => m
  | _ => ∅
  end.

(** A slice declared by [var] and only appended to is [nil] as long as it is
    empty, and [nil] is what [writeJSON] is then given. *)
Definition sliceOrNil (l : list payload) : payload :=
  match l with
  | [] => pNil
  | _ => pSlice l
  end.

Section Handlers.

(** Library functions the handlers only call: [strings.ToLower],
    [time.Time.Format(time.RFC3339)], [strings.TrimSpace] and [strconv.Atoi]
    ([None] for its error); and the message of an error of the operating
    system. *)
Variable ToLower : string -> string.
Variable formatRFC3339 : Z -> string.
Variable TrimSpace : string -> string.
Variable Atoi : string -> option Z.
Variable osErrorText : oserror -> string.

(** [err.Error()]. *)
Definition Error (err : error) : string :=
  match err with
  | errSnippetNotFound => "snippet not found"
  | errSnippetAlreadyExists => "snippet already exists"
  | errSnippetExistsInTargetFolder => "snippet already exists in target folder"
  | errFolderNotFound => "folder not found"
  | errFolderNameRequired => "folder name is required"
  | errFolderAlreadyExists => "folder already exists"
  | errLimitExceedsMax => "limit cannot exceed 1000"
  | errSnippetsFolderEnvNotSet =>
    "snippets management folder env var (SNIPPETS_MANAGEMENT_FOLDER) is not set; set it to use snippets properly"
  | errOS e => osErrorText e
  end.

Definition parseLimit (r : Request) : Z :=
  let limitStr := Query_Get r "limit" in
  if bool_decide (limitStr = "") then 0
  else
    match Atoi limitStr with
    | None => -1
    | Some parsed => parsed
    end.

Definition handleSnippetsGet (api : API) (r : Request) : Handler :=
  let visibility := Query_Get r "visibility" in
  if bool_decide (visibility = "project")
  then writeJSON 200 (pMap {[ "data" := pSlice [] ]})
  else
    let limit := parseLimit r in
    if limit <? 0 then writeJSON 400 (pMap {[ "data" := pSlice [] ]})
    else
      let cursor := Query_Get r "cursor" in
      let sortBy := Query_Get r "sort_by" in
      let sortOrder := Query_Get r "sort_order" in
      let sortOrder := if bool_decide (sortOrder = "") then "desc" else sortOrder in
      fun w =>
        match getSnippets ToLower formatRFC3339 api (Query_Get r "name") limit cursor
                sortBy sortOrder None w with
        | (Err _, w') => writeJSON 500 (pMap {[ "data" := pSlice [] ]}) w'
        | (Ok (nextCursor, snippets), w') =>
          let resp : gmap string payload := {[ "data" := pSnippets snippets ]} in
          let resp :=
            if negb (bool_decide (nextCursor = ""))
            then <["cursor" := pString nextCursor]> resp else resp in
          writeJSON 200 (pMap resp) w'
        end.

Definition handleSnippetsPut (api : API) (r : Request) : Handler :=
  fun w =>
    match Body r with
    | None => writeJSON 400 (pMap {[ "error" := pString "Invalid request body" ]}) w
    | Some payload =>
      let id := stringOr (payload !! "id") in
      match updateSnippet formatRFC3339 api id payload w with
      | (Ok updated, w') => writeJSON 200 (pSnippet updated) w'
      | (Err err, w') =>
        if negb (Contains (ToLower (Error err)) "not found")
        then writeJSON 500 (pMap {[ "error" := pString (Error err) ]}) w'
        else
          let name := stringOr (payload !! "name") in
          let contentPayload := mapOr (payload !! "content") in
          let sql := stringOr (contentPayload !! "sql") in
          let folderID :=
            match payload !! "folder_id" with
            | Some (anyString folderRaw) => Some folderRaw
            | _ => None
            end in
          match payload !! "id" with
          | Some (anyString id') =>
            match saveSnippet formatRFC3339 api (requestSnippet id' name sql folderID) w' with
            | (Err _, w'') =>
              writeJSON 500 (pMap {[ "error" := pString "Failed to create snippet" ]}) w''
            | (Ok saved, w'') => writeJSON 200 (pSnippet saved) w''
            end
          | _ => (Panicked, w')
          end
      end
    end.

(** The loop of [handleSnippetsDelete] over the ids that are left. *)
Fixpoint deleteSnippets (api : API) (idsList : list string) (deleted : list payload)
  : Handler :=
  match idsList with
  | [] => writeJSON 200 (sliceOrNil deleted)
  | id :: rest =>
    let id := TrimSpace id in
    if bool_decide (id = "") then deleteSnippets api rest deleted
    else
      fun w =>
        match deleteSnippet api id w with
        | (Err _, w') =>
          writeJSON 500 (pMap {[ "error" := pString "Failed to delete snippets" ]}) w'
        | (Ok _, w') =>
          deleteSnippets api rest (deleted ++ [pMap {[ "id" := pString id ]}])%list w'
        end
  end.

Definition handleSnippetsDelete (api : API) (r : Request) : Handler :=
  let ids := Query_Get r "ids" in
  if bool_decide (ids = "")
  then writeJSON 400 (pMap {[ "error" := pString "Snippet IDs are required" ]})
  else deleteSnippets api (Split ids ","%char) [].

Definition handleSnippets (api : API) (r : Request) : Handler :=
  if bool_decide (Method r = "GET") then handleSnippetsGet api r
  else if bool_decide (Method r = "PUT") then handleSnippetsPut api r
  else if bool_decide (Method r = "DELETE") then handleSnippetsDelete api r
  else writeMethodNotAllowed r "GET, PUT, DELETE".

(** The three counters of [handleSnippetCount] after one more snippet. *)
Definition countSnippet (counts : Z * Z * Z) (s : snippet) : Z * Z * Z :=
  let '(shared, favorites, private) := counts in
  let shared := if bool_decide (Visibility s = "project") then shared + 1 else shared in
  let favorites := if Favorite s then favorites + 1 else favorites in
  let private := if bool_decide (Visibility s = "user") then private + 1 else private in
  (shared, favorites, private).

Definition handleSnippetCount (api : API) (r : Request) : Handler :=
  let name := Query_Get r "name" in
  fun w =>
    match getSnippets ToLower formatRFC3339 api name 0 "" "" "desc" None w with
    | (Err _, w') => writeJSON 500 (pMap {[ "message" := pString "Failed to get count" ]}) w'
    | (Ok (_, snippets), w') =>
      if negb (bool_decide (name = ""))
      then writeJSON 200 (pMap {[ "count" := pInt (Z.of_nat (length snippets)) ]}) w'
      else
        let '(shared, favorites, private) := fold_left countSnippet snippets (0, 0, 0) in
        writeJSON 200 (pMap {[ "shared" := pInt shared;
                               "favorites" := pInt favorites;
                               "private" := pInt private ]}) w'
    end.

(** The listing both folder routes answer a GET with. *)
Definition folderListing (api : API) (r : Request) (folderID : option string) : Handler :=
  fun w =>
    match getFolders api folderID w with
    | (Err err, w') => writeJSON 500 (pMap {[ "message" := pString (Error err) ]}) w'
    | (Ok folders, w') =>
      match getSnippets ToLower formatRFC3339 api (Query_Get r "name") (parseLimit r)
              (Query_Get r "cursor") (Query_Get r "sort_by") (Query_Get r "sort_order")
              folderID w' with
      | (Err err, w'') => writeJSON 500 (pMap {[ "message" := pString (Error err) ]}) w''
      | (Ok (cursor, snippets), w'') =>
        let resp : gmap string payload :=
          {[ "data" := pMap {[ "folders" := pFolders folders;
                               "contents" := pSnippets snippets ]} ]} in
        let resp :=
          if negb (bool_decide (cursor = ""))
          then <["cursor" := pString cursor]> resp else resp in
        writeJSON 200 (pMap resp) w''
      end
    end.

(** The loop of the DELETE branch of [handleSnippetFolders]. *)
Fixpoint deleteFolders (api : API) (idsList : list string) : Handler :=
  match idsList with
  | [] => writeJSON 200 (pMap ∅)
  | id :: rest =>
    let id := TrimSpace id in
    if bool_decide (id = "") then deleteFolders api rest
    else
      fun w =>
        match deleteFolder api id w with
        | (Err err, w') => writeJSON 500 (pMap {[ "error" := pString (Error err) ]}) w'
        | (Ok _, w') => deleteFolders api rest w'
        end
  end.

Definition handleSnippetFolders (api : API) (r : Request) : Handler :=
  if bool_decide (Method r = "GET") then folderListing api r None
  else if bool_decide (Method r = "POST") then
    fun w =>
      match Body r with
      | None => writeJSON 400 (pMap {[ "error" := pString "Invalid request body" ]}) w
      | Some payload =>
        let name := stringOr (payload !! "name") in
        match createFolder api name w with
        | (Err err, w') => writeJSON 500 (pMap {[ "error" := pString (Error err) ]}) w'
        | (Ok folder, w') => writeJSON 201 (pFolder folder) w'
        end
      end
  else if bool_decide (Method r = "DELETE") then
    let ids := Query_Get r "ids" in
    if bool_decide (ids = "")
    then writeJSON 400 (pMap {[ "error" := pString "Folder IDs are required" ]})
    else deleteFolders api (Split ids ","%char)
  else writeMethodNotAllowed r "GET, POST, DELETE".

Definition handleSnippetFolderByID (api : API) (r : Request) : Handler :=
  if bool_decide (Method r = "PATCH") then writeJSON 200 (pMap ∅)
  else if negb (bool_decide (Method r = "GET")) then writeMethodNotAllowed r "GET, PATCH"
  else
    let folderID := chiURLParam r "id" in
    folderListing api r (Some folderID).

Definition handleSnippetItem (api : API) (r : Request) : Handler :=
  if negb (bool_decide (Method r = "GET")) then writeMethodNotAllowed r "GET"
  else
    let id := chiURLParam r "id" in
    fun w =>
      match getSnippet formatRFC3339 api id w with
      | (Err err, w') =>
        if Contains (ToLower (Error err)) "not found"
        then writeJSON 404 (pMap {[ "message" := pString "Content not found." ]}) w'
        else writeJSON 500
               (pMap {[ "data" := pNil;
                        "error" := pMap {[ "message" := pString "Internal Server Error" ]} ]}) w'
      | (Ok snippet, w') => writeJSON 200 (pSnippet snippet) w'
      end.

End Handlers.

(** A stand-in for [strings.TrimSpace] where one is needed to run a
    handler: it strips the blanks at both ends. *)
Fixpoint trimLeft (s : string) : string :=
  match s with
  | String " " s' => trimLeft s'
  | _ => s
  end.

Definition trimBlanks (s : string) : string :=
  string_of_list_ascii
    (List.rev (list_ascii_of_string
                 (trimLeft (string_of_list_ascii (List.rev (list_ascii_of_string (trimLeft s))))))).

(** A stand-in for [strconv.Atoi]: the value of a string of decimal
    digits. *)
Fixpoint digitsValue (acc : Z) (s : string) : option Z :=
  match s with
  | EmptyString => Some acc
  | String c s' =>
    let b := byteOf c in
    if (48 <=? b) && (b <=? 57) then digitsValue (acc * 10 + (b - 48)) s' else None
  end.

Definition atoiDigits (s : string) : option Z :=
  if bool_decide (s = "") then None else digitsValue 0 s.

Definition noText (e : oserror) : string := "".

(** The strings of ASCII bytes. *)
Definition isASCII (s : string) : bool :=
  forallb (fun c => byteOf c <? 128) (list_ascii_of_string s).

(** On the strings of ASCII bytes [ToLower] lowers the letters [A] to [Z]
    and leaves the other bytes, as [strings.ToLower] does. *)
Definition lowersASCII (ToLower : string -> string) : Prop :=
  forall s, isASCII s = true -> ToLower s = asciiToLower s.

(** The handler leaves the tree as it was, whatever it answers. *)
Definition handlerKeeps (h : Handler) : Prop := forall w, fs (snd (h w)) = fs w.

(** ** Worlds to run the repository in *)

Definition api_snippets : API := mkAPI (mkConfig "/srv/snippets").

Definition api_unconfigured : API := mkAPI (mkConfig "").

(** A random source whose readings differ from one to the next. *)
Definition counting (n : nat) : Z := Z.of_nat n.

Definition world_of (root : gmap string node) : World := mkWorld root 1000 counting 0.

Definition world_empty : World := world_of ∅.

(** A folder [f] holding [a.sql], next to [b.sql] and a text file. *)
Definition tree_folder : gmap string node :=
  <["f" := Dir 1 (<["a.sql" := File "select 1" 3]> ∅)]>
    (<["b.sql" := File "select 2" 5]> (<["notes.txt" := File "" 7]> ∅)).

(** Five snippets at the root; [Aa.sql] and [BB.sql] have the same hash. *)
Definition tree_five_colliding : gmap string node :=
  <["Aa.sql" := File "1" 1]> (<["BB.sql" := File "2" 2]> (<["c.sql" := File "3" 3]>
    (<["d.sql" := File "4" 4]> (<["e.sql" := File "5" 5]> ∅)))).

(** Five snippets at the root with five different ids. *)
Definition tree_five : gmap string node :=
  <["a.sql" := File "1" 1]> (<["b.sql" := File "2" 2]> (<["c.sql" := File "3" 3]>
    (<["d.sql" := File "4" 4]> (<["e.sql" := File "5" 5]> ∅)))).

(* ================================================================== *)
(** * Properties *)

(** ** Machine integers *)

Lemma int32_range z : -2147483648 <= int32 z < 2147483648.
Proof. unfold int32. pose proof (Z.mod_pos_bound (z + 2147483648) 4294967296). lia. Qed.

Lemma int32_cong a b :
  a mod 4294967296 = b mod 4294967296 -> int32 a = int32 b.
Proof.
  intros H. unfold int32. f_equal.
  rewrite (Z.add_mod a), (Z.add_mod b), H by lia. reflexivity.
Qed.

Lemma int32_mod z : (int32 z) mod 4294967296 = z mod 4294967296.
Proof. unfold int32. rewrite Zminus_mod_idemp_l. f_equal. lia. Qed.

Lemma int32_id z : -2147483648 <= z < 2147483648 -> int32 z = z.
Proof. intros H. unfold int32. rewrite Z.mod_small; lia. Qed.

(** A property checked on every number below a bound holds below it. *)
Lemma below_forallb (P : Z -> bool) (n : nat) :
  forallb P (map Z.of_nat (seq 0 n)) = true ->
  forall z, 0 <= z < Z.of_nat n -> P z = true.
Proof.
  intros H z Hz. rewrite forallb_forall in H. apply H.
  apply in_map_iff. exists (Z.to_nat z). split; [lia|].
  apply in_seq. lia.
Qed.

(** ** Identity generator *)

Lemma int32_add_l a b : int32 (int32 a + b) = int32 (a + b).
Proof. apply int32_cong. rewrite Zplus_mod_idemp_l || (rewrite Z.add_mod, int32_mod, <- Z.add_mod by lia); reflexivity. Qed.

Lemma int32_add_r a b : int32 (a + int32 b) = int32 (a + b).
Proof. rewrite Z.add_comm, int32_add_l. f_equal. lia. Qed.

Lemma int32_sub_l a b : int32 (int32 a - b) = int32 (a - b).
Proof. replace (int32 a - b) with (int32 a + - b) by lia. rewrite int32_add_l. f_equal. Qed.

(** One step of the hash: the shift form of the code is [h*31 + r]. *)
Lemma hash_step h r :
  int32 (int32 (int32 (Z.shiftl h 5) - h) + int32 r) = int32 (h * 31 + r).
Proof.
  rewrite Z.shiftl_mul_pow2 by lia.
  rewrite int32_add_r, int32_add_l.
  replace (int32 (h * 2 ^ 5) - h + r) with (int32 (h * 2 ^ 5) + (r - h)) by lia.
  rewrite int32_add_l. f_equal. lia.
Qed.

Lemma hash_fold (l : list Z) (h : Z) :
  fold_left (fun hash r => int32 (int32 (int32 (Z.shiftl hash 5) - hash) + int32 r)) l h
  = fold_left (fun h c => int32 (h * 31 + c)) l h.
Proof.
  revert h. induction l as [|r l IH]; intros h; simpl; [reflexivity|].
  rewrite hash_step. apply IH.
Qed.

Lemma hash_fold_range (l : list Z) (h : Z) :
  -2147483648 <= h < 2147483648 ->
  -2147483648 <= fold_left (fun h c => int32 (h * 31 + c)) l h < 2147483648.
Proof.
  revert h. induction l as [|r l IH]; intros h Hh; simpl; [exact Hh|].
  apply IH, int32_range.
Qed.

(** The seed of the generator is the absolute value of the rolling hash,
    also at the one value whose negation wraps. *)
Lemma uint32_simpleHash (s : string) : uint32 (simpleHash s) = Spec.rollingHash s.
Proof.
  unfold simpleHash, Spec.rollingHash. rewrite hash_fold.
  pose proof (hash_fold_range (runes s) 0 ltac:(lia)) as Hr.
  set (h := fold_left _ _ _) in *.
  unfold uint32. destruct (Z.ltb_spec h 0).
  - destruct (Z.eq_dec h (-2147483648)) as [->|Hne]; [reflexivity|].
    rewrite int32_id by lia. rewrite Z.mod_small by lia. lia.
  - rewrite Z.mod_small by lia. lia.
Qed.

Lemma seedBytes_lcg (n : nat) (seed : Z) : seedBytes n seed = Spec.lcgBytes n seed.
Proof.
  revert seed. induction n as [|n IH]; intros seed; simpl; [reflexivity|].
  assert (Hs : Z.land (uint32 (uint32 (seed * 1103515245) + 12345)) 2147483647
               = (seed * 1103515245 + 12345) mod 2 ^ 31).
  { unfold uint32. rewrite Zplus_mod_idemp_l.
    change 2147483647 with (Z.ones 31). rewrite Z.land_ones by lia.
    apply Z.mod_mod_divide. exists 2. reflexivity. }
  rewrite Hs, IH. f_equal.
  unfold byte. change 255 with (Z.ones 8). rewrite Z.land_ones by lia. reflexivity.
Qed.

Lemma seedBytes_length (n : nat) (seed : Z) : length (seedBytes n seed) = n.
Proof. revert seed. induction n; intros; simpl; [reflexivity|]. f_equal. auto. Qed.

Lemma lor_high_nibble r : 0 <= r < 16 -> Z.lor r 64 = 64 + r.
Proof.
  intros H. apply Z.eqb_eq.
  apply (below_forallb (fun r => Z.lor r 64 =? 64 + r) 16); [reflexivity | lia].
Qed.

Lemma lor_high_bits r : 0 <= r < 64 -> Z.lor r 128 = 128 + r.
Proof.
  intros H. apply Z.eqb_eq.
  apply (below_forallb (fun r => Z.lor r 128 =? 128 + r) 64); [reflexivity | lia].
Qed.

Lemma setByte_length i f (b : list Z) : length (setByte i f b) = length b.
Proof. unfold setByte. apply length_insert. Qed.

Lemma setByte_patch6 (b : list Z) :
  (6 < length b)%nat ->
  setByte 6 (fun x => Z.lor (Z.land x 15) 64) b = Spec.patchByte 6 16 64 b.
Proof.
  intros Hl. unfold setByte, Spec.patchByte.
  destruct (lookup_lt_is_Some_2 b 6 Hl) as [x Hx]. rewrite Hx.
  rewrite (nth_lookup_Some _ _ _ _ Hx).
  change 15 with (Z.ones 4). rewrite Z.land_ones by lia.
  rewrite lor_high_nibble; [reflexivity|]. apply Z.mod_pos_bound. lia.
Qed.

Lemma setByte_patch8 (b : list Z) :
  (8 < length b)%nat ->
  setByte 8 (fun x => Z.lor (Z.land x 63) 128) b = Spec.patchByte 8 64 128 b.
Proof.
  intros Hl. unfold setByte, Spec.patchByte.
  destruct (lookup_lt_is_Some_2 b 8 Hl) as [x Hx]. rewrite Hx.
  rewrite (nth_lookup_Some _ _ _ _ Hx).
  change 63 with (Z.ones 6). rewrite Z.land_ones by lia.
  rewrite lor_high_bits; [reflexivity|]. apply Z.mod_pos_bound. lia.
Qed.

Lemma hexDigit_hi v : hexDigit (Z.shiftr v 4) = hexDigit (v / 16).
Proof. rewrite Z.shiftr_div_pow2 by lia. reflexivity. Qed.

Lemma hexDigit_lo v : hexDigit (Z.land v 15) = hexDigit (v mod 16).
Proof. change 15 with (Z.ones 4). rewrite Z.land_ones by lia. reflexivity. Qed.

(** The formatting of [uuid.String] is the dashed 8-4-4-4-12 form. *)
Lemma uuid_String_dashed (b : list Z) :
  length b = 16%nat -> uuid_String (uuid_FromBytes b) = Spec.dashed b.
Proof.
  intros Hl. unfold uuid_FromBytes. rewrite decide_True by exact Hl.
  do 16 (destruct b as [|? b]; [discriminate Hl|]).
  destruct b; [|discriminate Hl].
  unfold uuid_String, Spec.dashed, Spec.hexOf.
  cbn -[hexDigit Z.shiftr Z.land Z.div Z.modulo].
  rewrite !hexDigit_hi, !hexDigit_lo. reflexivity.
Qed.

Lemma cleaned_joined (p : list string) : Join (cleaned p) "_" = Spec.joined p.
Proof.
  unfold cleaned, Spec.joined. f_equal. apply filter_ext. intros s.
  f_equal. destruct (String.eqb_spec s ""); [apply bool_decide_eq_true_2 | apply bool_decide_eq_false_2]; assumption.
Qed.

Lemma hashedUUID_spec (input : string) :
  hashedUUID input
  = Spec.dashed (Spec.patched (Spec.lcgBytes 16 (Spec.rollingHash input))).
Proof.
  unfold hashedUUID, Spec.patched.
  rewrite uint32_simpleHash, seedBytes_lcg.
  pose proof (seedBytes_length 16 (Spec.rollingHash input)) as Hl.
  rewrite seedBytes_lcg in Hl.
  rewrite setByte_patch6 by lia.
  assert (Hl6 : length (Spec.patchByte 6 16 64 (Spec.lcgBytes 16 (Spec.rollingHash input))) = 16%nat).
  { rewrite <- setByte_patch6 by lia. rewrite setByte_length. exact Hl. }
  rewrite setByte_patch8 by lia.
  apply uuid_String_dashed.
  rewrite <- setByte_patch8 by lia. rewrite setByte_length. exact Hl6.
Qed.

(** The hash of this input is [math.MinInt32], which its negation leaves
    negative. *)
Example simpleHash_min_int32 : simpleHash "polygenelubricants" = -2147483648.
Proof. reflexivity. Qed.

Example uint32_simpleHash_min_int32 : uint32 (simpleHash "polygenelubricants") = 2147483648.
Proof. reflexivity. Qed.

Example hashedUUID_a_sql : hashedUUID "a.sql" = "6acd8c03-4c0e-4e34-8202-00dca1e2ccd6".
Proof. vm_compute. reflexivity. Qed.

(** Two names with the same hash have the same identifier. *)
Example hashedUUID_collision : hashedUUID "Aa.sql" = hashedUUID "BB.sql".
Proof. vm_compute. reflexivity. Qed.

(** A two-byte sequence is one rune; a byte that starts no sequence is
    [RuneError]. *)
Example runes_two_bytes : runes (String (charOf 195) (String (charOf 169) "")) = [233].
Proof. reflexivity. Qed.

Example runes_invalid : runes (String (charOf 255) "a") = [RuneError; 97].
Proof. reflexivity. Qed.

Lemma cleaned_nonempty (p : list string) : Forall (fun s => s <> "") (cleaned p).
Proof.
  unfold cleaned. apply List.Forall_forall. intros s Hs.
  apply filter_In in Hs as [_ Hs]. apply negb_true_iff, bool_decide_eq_false in Hs. exact Hs.
Qed.

Lemma Join_head_nonempty (x : string) (rest : list string) (sep : string) :
  x <> "" -> Join (x :: rest) sep <> "".
Proof.
  intros Hx. destruct x as [|c x]; [congruence|].
  destruct rest; simpl; discriminate.
Qed.

(** The joined input is non-empty exactly when some part is. *)
Lemma joined_nonempty_iff (p : list string) :
  Join (cleaned p) "_" <> "" <-> exists s, In s p /\ s <> "".
Proof.
  split.
  - intros H. destruct (cleaned p) as [|x rest] eqn:E; [simpl in H; congruence|].
    exists x. assert (Hin : In x (cleaned p)) by (rewrite E; left; reflexivity).
    unfold cleaned in Hin. apply filter_In in Hin as [Hin Hx].
    split; [exact Hin|]. apply negb_true_iff, bool_decide_eq_false in Hx. exact Hx.
  - intros (s & Hin & Hs).
    assert (Hc : In s (cleaned p)).
    { unfold cleaned. apply filter_In. split; [exact Hin|].
      apply negb_true_iff, bool_decide_eq_false. exact Hs. }
    pose proof (cleaned_nonempty p) as Hall.
    destruct (cleaned p) as [|x rest]; [destruct Hc|].
    apply Join_head_nonempty. inversion Hall; assumption.
Qed.

Lemma deterministicUUID_hashed (p : list string) (w : World) :
  Join (cleaned p) "_" <> "" ->
  deterministicUUID p w = (Ok (hashedUUID (Join (cleaned p) "_")), w).
Proof. intros H. unfold deterministicUUID. rewrite decide_False by exact H. reflexivity. Qed.

(** C1, as amended.  For every list of strings with at least one non-empty
    part, [deterministicUUID] returns one identifier that depends on the
    list alone: every call returns it, whatever the state of the process
    (another call before it, a fresh process, another random source), and
    leaves that state as it was. *)
Theorem deterministicUUID_same_identifier (p : list string) :
  (exists s, In s p /\ s <> "") ->
  exists id, forall w : World, deterministicUUID p w = (Ok id, w).
Proof.
  intros H. apply joined_nonempty_iff in H.
  exists (hashedUUID (Join (cleaned p) "_")). intros w.
  apply deterministicUUID_hashed, H.
Qed.

Lemma deterministicUUID_same_identifier_witness :
  exists id, forall w : World, deterministicUUID ["f"; "a.sql"] w = (Ok id, w).
Proof.
  apply (deterministicUUID_same_identifier ["f"; "a.sql"]).
  exists "f". split; [simpl; auto | discriminate].
Defined.

(** C1 as stated fails: the list [[""]] is not empty, and two calls in a
    row on it return two different identifiers. *)
Lemma deterministicUUID_empty_part_differs :
  [""] <> [] /\
  fst (deterministicUUID [""] world_empty)
  <> fst (deterministicUUID [""] (snd (deterministicUUID [""] world_empty))).
Proof. split; [discriminate|]. vm_compute. discriminate. Qed.

(** C2.  When the non-empty parts joined with [_] are non-empty,
    [deterministicUUID] returns what the algorithm of the specification
    computes: the rolling hash [h*31 + codepoint] in signed 32 bits and its
    absolute value, 16 steps of [seed = (seed*1103515245 + 12345) mod 2^31]
    each giving the byte [(seed >> 16) & 0xFF], byte 6 with high nibble
    [0100], byte 8 with high bits [10], in the dashed form. *)
Theorem deterministicUUID_refines_spec (p : list string) (w : World) :
  Spec.joined p <> "" ->
  deterministicUUID p w = (Ok (Spec.identify p), w).
Proof.
  intros H. rewrite <- cleaned_joined in H.
  rewrite deterministicUUID_hashed by exact H.
  unfold Spec.identify. rewrite hashedUUID_spec, cleaned_joined. reflexivity.
Qed.

Lemma deterministicUUID_refines_spec_witness :
  deterministicUUID ["f"; ""; "a.sql"] world_empty
  = (Ok (Spec.identify ["f"; ""; "a.sql"]), world_empty).
Proof.
  apply (deterministicUUID_refines_spec ["f"; ""; "a.sql"] world_empty).
  vm_compute. discriminate.
Defined.

(** ** The monad *)

Lemma run_bind {A B} (m : M A) (k : A -> M B) (w : World) :
  (x ← m; k x) w
  = match m w with
    | (Ok a, w') => k a w'
    | (Err e, w') => (Err e, w')
    end.
Proof. reflexivity. Qed.

Lemma run_bind_ok {A B} (m : M A) (k : A -> M B) (w w' : World) (a : A) :
  m w = (Ok a, w') -> (x ← m; k x) w = k a w'.
Proof. intros H. rewrite run_bind, H. reflexivity. Qed.

Lemma run_bind_err {A B} (m : M A) (k : A -> M B) (w w' : World) (e : error) :
  m w = (Err e, w') -> (x ← m; k x) w = (Err e, w').
Proof. intros H. rewrite run_bind, H. reflexivity. Qed.

(** A loop whose every step appends to the slice and leaves the world. *)
Lemma loopFold_append {A B} (f : list B -> A -> M (list B)) (g : A -> list B)
    (l : list A) (w : World) :
  (forall acc x, In x l -> f acc x w = (Ok (acc ++ g x)%list, w)) ->
  forall acc, loopFold f acc l w = (Ok (acc ++ flat_map g l)%list, w).
Proof.
  induction l as [|x l IH]; intros Hf acc; simpl.
  - rewrite app_nil_r. reflexivity.
  - rewrite (run_bind_ok _ _ w w (acc ++ g x)%list) by (apply Hf; left; reflexivity).
    rewrite IH by (intros; apply Hf; right; assumption).
    rewrite app_assoc. reflexivity.
Qed.

(** ** Identity of the scanned entries *)

Lemma deterministicUUID_identify (p : list string) (w : World) :
  (exists s, In s p /\ s <> "") ->
  deterministicUUID p w = (Ok (identify p), w).
Proof. intros H. apply deterministicUUID_hashed, joined_nonempty_iff, H. Qed.

Lemma append_nonempty_r (a b : string) : b <> "" -> a +:+ b <> "".
Proof. intros Hb. destruct a; simpl; [exact Hb | discriminate]. Qed.

Lemma deterministicUUID_idInputs (folderID : option string) (nm : string) (w : World) :
  deterministicUUID (idInputs folderID nm) w = (Ok (identify (idInputs folderID nm)), w).
Proof.
  apply deterministicUUID_identify. exists (nm +:+ ".sql"). split.
  - destruct folderID; simpl; auto.
  - apply append_nonempty_r. discriminate.
Qed.

Lemma deterministicUUID_single (s : string) (w : World) :
  s <> "" -> deterministicUUID [s] w = (Ok (identify [s]), w).
Proof. intros H. apply deterministicUUID_identify. exists s. split; [left; reflexivity | exact H]. Qed.

(** ** The scanner *)

Lemma walk_in_folder (parent name : string) (d : node) (entries : list filesystemEntry)
    (w : World) :
  parent <> "" ->
  exists answer,
    walk [parent; name] name d entries w
    = (Ok ((entries ++ entriesIn parent (name, d))%list, answer), w)
    /\ (forall mt ch, d = Dir mt ch -> answer = walkSkipDir).
Proof.
  intros Hp. destruct d as [content mtime | mtime ch]; unfold walk, entriesIn; simpl.
  - unfold isSnippetFile.
    destruct (bool_decide (name = ".DS_Store") || negb (HasSuffix name ".sql")); simpl.
    + exists walkNil. rewrite app_nil_r. split; [reflexivity | discriminate].
    + exists walkNil. split; [|discriminate].
      rewrite (run_bind_ok _ _ w w (Some (identify [parent]), TrimSuffix name ".sql")).
      2:{ rewrite (run_bind_ok _ _ w w (identify [parent])) by (apply deterministicUUID_single, Hp).
          reflexivity. }
      rewrite (run_bind_ok _ _ w w _ (deterministicUUID_idInputs _ _ w)).
      reflexivity.
  - exists walkSkipDir. rewrite app_nil_r. split; [reflexivity | reflexivity].
Qed.

Lemma walkDirIn_entries (parent : string) (ch : gmap string node)
    (entries : list filesystemEntry) (w : World) :
  parent <> "" ->
  walkDirIn parent ch entries w
  = (Ok (entries ++ flat_map (entriesIn parent) (os_ReadDir ch))%list, w).
Proof.
  intros Hp. unfold walkDirIn. apply loopFold_append.
  intros acc [name d] _.
  destruct (walk_in_folder parent name d acc w Hp) as (answer & Hw & _).
  rewrite (run_bind_ok _ _ w w _ Hw). reflexivity.
Qed.

Lemma walk_at_root (name : string) (d : node) (entries : list filesystemEntry) (w : World) :
  name <> "" ->
  ('(entries, answer) ← walk [name] name d entries;
   match d, answer with
   | Dir _ ch, walkNil => walkDirIn name ch entries
   | _, _ => ret entries
   end) w
  = (Ok (entries ++ entriesAt (name, d))%list, w).
Proof.
  intros Hn. destruct d as [content mtime | mtime ch]; unfold entriesAt; simpl.
  - unfold walk, isSnippetFile.
    destruct (bool_decide (name = ".DS_Store") || negb (HasSuffix name ".sql")); simpl.
    + rewrite app_nil_r. reflexivity.
    + rewrite (run_bind_ok _ _ w w (entries ++ [fileEntry None name content mtime], walkNil)%list);
        [reflexivity|].
      rewrite (run_bind_ok _ _ w w (None, TrimSuffix name ".sql")) by reflexivity.
      rewrite (run_bind_ok _ _ w w _ (deterministicUUID_idInputs _ _ w)).
      reflexivity.
  - rewrite (run_bind_ok _ _ w w (entries ++ [folderEntry name mtime], walkNil)%list).
    + rewrite walkDirIn_entries by exact Hn. rewrite <- app_assoc. reflexivity.
    + unfold walk. simpl.
      rewrite (run_bind_ok _ _ w w _ (deterministicUUID_single name w Hn)). reflexivity.
Qed.

Lemma ReadDir_lookup (m : gmap string node) (name : string) (d : node) :
  In (name, d) (os_ReadDir m) <-> m !! name = Some d.
Proof.
  unfold os_ReadDir. rewrite <- list_elem_of_In.
  rewrite merge_sort_Permutation. apply elem_of_map_to_list.
Qed.

Lemma WalkDir_entries (root : gmap string node) (w : World) :
  named root -> filepath_WalkDir root w = (Ok (entriesOf root), w).
Proof.
  intros Hroot. unfold filepath_WalkDir, entriesOf.
  change (entriesOf root) with ([] ++ entriesOf root)%list.
  apply (loopFold_append _ entriesAt).
  intros acc [name d] Hin. apply walk_at_root.
  intros ->. apply ReadDir_lookup in Hin. unfold named in Hroot. congruence.
Qed.

(** The scan of a configured repository returns the entries of the tree and
    changes nothing. *)
Lemma getFilesystemEntries_entriesOf (api : API) (w : World) :
  configured api -> named (fs w) ->
  getFilesystemEntries api w = (Ok (entriesOf (fs w)), w).
Proof.
  intros Hc Hn. unfold getFilesystemEntries, snippetsDir.
  rewrite decide_False by exact Hc.
  rewrite (run_bind_ok _ _ w w (SnippetsFolder (cfg api))) by reflexivity.
  rewrite (run_bind_ok _ _ w w w) by reflexivity.
  apply WalkDir_entries, Hn.
Qed.

(** ** What the calls may do *)

Lemma keeps_ret {A} (a : A) : keeps (ret a).
Proof. intros w. reflexivity. Qed.

Lemma keeps_fail {A} (e : error) : keeps (@fail A e).
Proof. intros w. reflexivity. Qed.

Lemma keeps_bind {A B} (m : M A) (k : A -> M B) :
  keeps m -> (forall a, keeps (k a)) -> keeps (x ← m; k x).
Proof.
  intros Hm Hk w. rewrite run_bind. specialize (Hm w).
  destruct (m w) as [[a|e] w1]; simpl in *.
  - rewrite Hk. exact Hm.
  - exact Hm.
Qed.

Lemma errs_ret {A} P (a : A) : errs P (ret a).
Proof. intros w e H. discriminate H. Qed.

Lemma errs_fail {A} (P : error -> Prop) (e : error) : P e -> errs P (@fail A e).
Proof. intros HP w e' H. injection H as <-. exact HP. Qed.

Lemma errs_bind {A B} P (m : M A) (k : A -> M B) :
  errs P m -> (forall a, errs P (k a)) -> errs P (x ← m; k x).
Proof.
  intros Hm Hk w e. rewrite run_bind. specialize (Hm w).
  destruct (m w) as [[a|e1] w1]; simpl in *.
  - apply Hk.
  - intros H. injection H as <-. apply Hm. reflexivity.
Qed.

Lemma errs_weaken {A} (P Q : error -> Prop) (m : M A) :
  (forall e, P e -> Q e) -> errs P m -> errs Q m.
Proof. intros HPQ Hm w e H. apply HPQ, (Hm w e H). Qed.

(** A call without errors returns a value. *)
Lemma errs_none_ok {A} (m : M A) (w : World) :
  errs (fun _ => False) m -> exists a, fst (m w) = Ok a.
Proof.
  intros Hm. specialize (Hm w). destruct (fst (m w)) as [a|e].
  - exists a. reflexivity.
  - destruct (Hm e eq_refl).
Qed.

Lemma keeps_loopFold {A B} (f : B -> A -> M B) (l : list A) :
  (forall acc x, keeps (f acc x)) -> forall acc, keeps (loopFold f acc l).
Proof.
  intros Hf. induction l as [|x l IH]; intros acc; simpl.
  - apply keeps_ret.
  - apply keeps_bind; [apply Hf | exact IH].
Qed.

Lemma errs_loopFold {A B} P (f : B -> A -> M B) (l : list A) :
  (forall acc x, errs P (f acc x)) -> forall acc, errs P (loopFold f acc l).
Proof.
  intros Hf. induction l as [|x l IH]; intros acc; simpl.
  - apply errs_ret.
  - apply errs_bind; [apply Hf | exact IH].
Qed.

Lemma keeps_loopMap {A B} (f : A -> M B) (l : list A) :
  (forall x, keeps (f x)) -> keeps (loopMap f l).
Proof.
  intros Hf. induction l as [|x l IH]; simpl.
  - apply keeps_ret.
  - apply keeps_bind; [apply Hf|]. intros y.
    apply keeps_bind; [exact IH|]. intros ys. apply keeps_ret.
Qed.

Lemma errs_loopMap {A B} P (f : A -> M B) (l : list A) :
  (forall x, errs P (f x)) -> errs P (loopMap f l).
Proof.
  intros Hf. induction l as [|x l IH]; simpl.
  - apply errs_ret.
  - apply errs_bind; [apply Hf|]. intros y.
    apply errs_bind; [exact IH|]. intros ys. apply errs_ret.
Qed.

Lemma keeps_uuid_NewString : keeps uuid_NewString.
Proof. intros w. reflexivity. Qed.

Lemma errs_uuid_NewString P : errs P uuid_NewString.
Proof. intros w e H. discriminate H. Qed.

Lemma keeps_deterministicUUID (p : list string) : keeps (deterministicUUID p).
Proof.
  unfold deterministicUUID. destruct (decide _); [apply keeps_uuid_NewString | apply keeps_ret].
Qed.

Lemma errs_deterministicUUID P (p : list string) : errs P (deterministicUUID p).
Proof.
  unfold deterministicUUID. destruct (decide _); [apply errs_uuid_NewString | apply errs_ret].
Qed.

Lemma keeps_snippetsDir (api : API) : keeps (snippetsDir api).
Proof. unfold snippetsDir. destruct (decide _); [apply keeps_fail | apply keeps_ret]. Qed.

Lemma errs_snippetsDir (api : API) :
  errs (fun e => e = errSnippetsFolderEnvNotSet) (snippetsDir api).
Proof.
  unfold snippetsDir. destruct (decide _); [apply errs_fail; reflexivity | apply errs_ret].
Qed.

Create HintDb calls.

#[local] Hint Resolve keeps_ret keeps_fail keeps_uuid_NewString keeps_deterministicUUID
  keeps_snippetsDir errs_ret errs_uuid_NewString errs_deterministicUUID : calls.

Ltac calls :=
  repeat first
    [ progress intros
    | apply keeps_bind | apply errs_bind
    | apply keeps_loopFold | apply errs_loopFold
    | apply keeps_loopMap | apply errs_loopMap
    | solve [eauto with calls]
    | match goal with
      | |- context [match ?x with _ => _ end] => destruct x
      | |- context [if ?b then _ else _] => destruct b
      end ].

Lemma keeps_walk parts name d entries : keeps (walk parts name d entries).
Proof. unfold walk. calls. Qed.

Lemma errs_walk P parts name d entries : errs P (walk parts name d entries).
Proof. unfold walk. calls. Qed.

Lemma keeps_WalkDir root : keeps (filepath_WalkDir root).
Proof.
  unfold filepath_WalkDir. apply keeps_loopFold. intros acc [name d].
  apply keeps_bind; [apply keeps_walk|]. intros [entries answer].
  destruct d; [apply keeps_ret|]. destruct answer; [|apply keeps_ret].
  unfold walkDirIn. apply keeps_loopFold. intros acc' [name' d'].
  apply keeps_bind; [apply keeps_walk|]. intros [? ?]. apply keeps_ret.
Qed.

Lemma errs_WalkDir P root : errs P (filepath_WalkDir root).
Proof.
  unfold filepath_WalkDir. apply errs_loopFold. intros acc [name d].
  apply errs_bind; [apply errs_walk|]. intros [entries answer].
  destruct d; [apply errs_ret|]. destruct answer; [|apply errs_ret].
  unfold walkDirIn. apply errs_loopFold. intros acc' [name' d'].
  apply errs_bind; [apply errs_walk|]. intros [? ?]. apply errs_ret.
Qed.

Lemma keeps_getFilesystemEntries api : keeps (getFilesystemEntries api).
Proof.
  unfold getFilesystemEntries. apply keeps_bind; [apply keeps_snippetsDir|]. intros _.
  intros w. rewrite run_bind. simpl. apply keeps_WalkDir.
Qed.

Lemma errs_getFilesystemEntries api :
  errs (fun e => e = errSnippetsFolderEnvNotSet) (getFilesystemEntries api).
Proof.
  unfold getFilesystemEntries. apply errs_bind; [apply errs_snippetsDir|]. intros _.
  intros w e. rewrite run_bind. simpl. intros H.
  destruct (errs_WalkDir (fun _ => False) (fs w) w e H).
Qed.

(** The scan of a configured repository returns entries. *)
Lemma getFilesystemEntries_ok api w :
  configured api ->
  exists entries w', getFilesystemEntries api w = (Ok entries, w') /\ fs w' = fs w.
Proof.
  intros Hc. pose proof (keeps_getFilesystemEntries api w) as Hk.
  unfold getFilesystemEntries, snippetsDir in *.
  rewrite decide_False in * by exact Hc.
  rewrite (run_bind_ok _ _ w w (SnippetsFolder (cfg api))) in * by reflexivity.
  rewrite (run_bind_ok _ _ w w w) in * by reflexivity.
  destruct (errs_none_ok (filepath_WalkDir (fs w)) w (errs_WalkDir _ _)) as [es Hes].
  destruct (filepath_WalkDir (fs w) w) as [r w'] eqn:E. simpl in *. subst r.
  exists es, w'. split; [reflexivity | exact Hk].
Qed.

Lemma getFilesystemEntries_unconfigured api w :
  ~ configured api ->
  getFilesystemEntries api w = (Err errSnippetsFolderEnvNotSet, w).
Proof.
  intros Hc. unfold getFilesystemEntries, snippetsDir.
  rewrite decide_True; [reflexivity|].
  unfold configured in Hc. destruct (decide (SnippetsFolder (cfg api) = "")); [assumption|contradiction].
Qed.

Lemma onTree_err path op w e :
  fst (onTree path op w) = Err e -> fromOS e /\ snd (onTree path op w) = w.
Proof.
  unfold onTree. destruct path as [p|]; [destruct (op (fs w) p) as [o|m]|]; simpl; intros H.
  - injection H as <-. split; [exists o; reflexivity | reflexivity].
  - discriminate H.
  - injection H as <-. split; [exists EBUSY; reflexivity | reflexivity].
Qed.

Lemma errs_os_WriteFile path content : errs fromOS (os_WriteFile path content).
Proof. intros w e H. apply (onTree_err _ _ _ _ H). Qed.

Lemma errs_os_Stat path : errs fromOS (os_Stat path).
Proof.
  intros w e. unfold os_Stat. destruct path as [p|]; [destruct (statAt (fs w) p) as [o|mt]|];
    simpl; intros H; try discriminate H; injection H as <-; eexists; reflexivity.
Qed.

Lemma errKeeps_os_Remove path : errKeeps (exceptNotExist (os_Remove path)).
Proof.
  intros w e. unfold exceptNotExist, os_Remove.
  pose proof (onTree_err path removeAt w) as Ht.
  destruct (onTree path removeAt w) as [[[]|e1] w1]; simpl in *.
  - discriminate.
  - destruct (isNotExist e1); simpl; [discriminate|].
    intros _. destruct (Ht e1 eq_refl) as [_ ->]. reflexivity.
Qed.

Lemma errKeeps_fail {A} (e : error) : errKeeps (@fail A e).
Proof. intros w e' _. reflexivity. Qed.

Lemma errKeeps_bind {A B} (m : M A) (k : A -> M B) :
  keeps m -> (forall a, errKeeps (k a)) -> errKeeps (x ← m; k x).
Proof.
  intros Hm Hk w e. rewrite run_bind. specialize (Hm w).
  destruct (m w) as [[a|e1] w1]; simpl in *.
  - intros H. rewrite (Hk a w1 e H). exact Hm.
  - intros _. exact Hm.
Qed.

Lemma errKeepsOn_fail {A} P (e : error) : errKeepsOn P (@fail A e).
Proof. intros w e' _ _. reflexivity. Qed.

Lemma errKeepsOn_bind {A B} P (m : M A) (k : A -> M B) :
  keeps m -> (forall a, errKeepsOn P (k a)) -> errKeepsOn P (x ← m; k x).
Proof.
  intros Hm Hk w e. rewrite run_bind. specialize (Hm w).
  destruct (m w) as [[a|e1] w1]; simpl in *.
  - intros H HP. rewrite (Hk a w1 e H HP). exact Hm.
  - intros _ _. exact Hm.
Qed.

(** After a call that changes the tree only when it succeeds, errors of
    other kinds than [P] do not matter to [P]. *)
Lemma errKeepsOn_after {A B} (P Q : error -> Prop) (m : M A) (k : A -> M B) :
  errKeeps m -> (forall a, errs Q (k a)) -> (forall e, Q e -> ~ P e) ->
  errKeepsOn P (x ← m; k x).
Proof.
  intros Hm Hk HQP w e. rewrite run_bind. specialize (Hm w).
  destruct (m w) as [[a|e1] w1]; simpl in *.
  - intros H HP. destruct (HQP e (Hk a w1 e H) HP).
  - intros _ _. apply (Hm e1 eq_refl).
Qed.

Lemma errKeeps_deleteSnippet api id : errKeeps (deleteSnippet api id).
Proof.
  unfold deleteSnippet. apply errKeeps_bind; [apply keeps_getFilesystemEntries|].
  intros entries. destruct (List.find _ entries) as [target|]; [|apply errKeeps_fail].
  apply errKeeps_bind; [apply keeps_snippetsDir|]. intros _. apply errKeeps_os_Remove.
Qed.

(** ** Limit of a page *)

Lemma pageOf_over cursor limit l :
  1000 < limit -> pageOf cursor limit l = Err errLimitExceedsMax.
Proof.
  intros H. unfold pageOf.
  destruct (Z.leb_spec limit 0); [lia|].
  destruct (Z.ltb_spec 1000 limit); [reflexivity | lia].
Qed.

Lemma pageOf_within cursor limit l :
  limit <= 1000 -> exists r, pageOf cursor limit l = Ok r.
Proof.
  intros H. unfold pageOf.
  destruct (Z.leb_spec limit 0); simpl.
  - destruct (_ <? _); eexists; reflexivity.
  - destruct (Z.ltb_spec 1000 limit); [lia|].
    destruct (_ <? _); eexists; reflexivity.
Qed.

Lemma pageOf_default cursor limit l :
  limit <= 0 -> pageOf cursor limit l = pageOf cursor 100 l.
Proof. intros H. unfold pageOf. destruct (Z.leb_spec limit 0); [reflexivity | lia]. Qed.

Section RepositoryFacts.

Variable ToLower : string -> string.
Variable formatRFC3339 : Z -> string.

Lemma keeps_buildSnippet name content folderID createdAt :
  keeps (buildSnippet formatRFC3339 name content folderID createdAt).
Proof. unfold buildSnippet. calls. Qed.

Lemma errs_buildSnippet P name content folderID createdAt :
  errs P (buildSnippet formatRFC3339 name content folderID createdAt).
Proof. unfold buildSnippet. calls. Qed.

Lemma errs_saveSnippet api newSnippet :
  errs (fun e => e = errSnippetAlreadyExists \/ e = errFolderNotFound
                 \/ e = errSnippetsFolderEnvNotSet \/ fromOS e)
       (saveSnippet formatRFC3339 api newSnippet).
Proof.
  unfold saveSnippet.
  apply errs_bind.
  { eapply errs_weaken; [|apply errs_getFilesystemEntries]. intros e ->. auto. }
  intros entries. destruct (existsb _ entries); [apply errs_fail; auto|].
  apply errs_bind.
  { destruct (snippet_FolderID newSnippet); [destruct (existsb _ entries)|];
      [apply errs_ret | apply errs_fail; auto | apply errs_ret]. }
  intros _. apply errs_bind.
  { eapply errs_weaken; [|apply errs_snippetsDir]. intros e ->. auto. }
  intros _. apply errs_bind.
  { eapply errs_weaken; [|apply errs_os_WriteFile]. auto. }
  intros _. apply errs_bind.
  { eapply errs_weaken; [|apply errs_os_Stat]. auto. }
  intros modTime. apply errs_buildSnippet.
Qed.

(** C9.  On a configured repository, a limit of zero or less is treated
    as 100, and the call fails with [errLimitExceedsMax] exactly when the
    limit exceeds 1000: it fails at 1001 and returns at 1000. *)
Theorem getSnippets_limit (api : API) (searchTerm : string) (limit : Z) (cursor : string)
    (sortField sortOrder : string) (folderID : option string) (w : World) :
  configured api ->
  let list := fun limit =>
    getSnippets ToLower formatRFC3339 api searchTerm limit cursor sortField sortOrder folderID w in
  (limit <= 0 -> list limit = list 100)
  /\ (fst (list limit) = Err errLimitExceedsMax <-> 1000 < limit)
  /\ (limit <= 1000 -> exists r, fst (list limit) = Ok r)
  /\ fst (list 1001) = Err errLimitExceedsMax
  /\ exists r, fst (list 1000) = Ok r.
Proof.
  intros Hc list.
  destruct (getFilesystemEntries_ok api w Hc) as (entries & w1 & Hscan & _).
  assert (Hrun : forall n,
    list n = match pageOf cursor n (sortEntries ToLower sortField sortOrder
                       (filterFiles ToLower searchTerm folderID (List.filter isFile entries))) with
             | Err e => (Err e, w1)
             | Ok (nextCursor, filtered) =>
               (snippets ← loopMap (fun entry => buildSnippet formatRFC3339 (Name entry)
                                      (Content entry) (FolderID entry) (CreatedAt entry)) filtered;
                ret (nextCursor, snippets)) w1
             end).
  { intros n. unfold list, getSnippets. rewrite (run_bind_ok _ _ w w1 entries Hscan).
    destruct (pageOf _ _ _) as [[? ?]|?]; reflexivity. }
  assert (Hover : forall n, 1000 < n -> fst (list n) = Err errLimitExceedsMax).
  { intros n Hn. rewrite Hrun, pageOf_over by exact Hn. reflexivity. }
  assert (Hin : forall n, n <= 1000 -> exists r, fst (list n) = Ok r).
  { intros n Hn. rewrite Hrun.
    destruct (pageOf_within cursor n (sortEntries ToLower sortField sortOrder
                (filterFiles ToLower searchTerm folderID (List.filter isFile entries))) Hn)
      as [[nextCursor filtered] ->].
    apply errs_none_ok. apply errs_bind; [|intros; apply errs_ret].
    apply errs_loopMap. intros. apply errs_buildSnippet. }
  repeat split.
  - intros Hle. rewrite !Hrun, (pageOf_default _ _ _ Hle). reflexivity.
  - intros Herr. destruct (Z.lt_ge_cases 1000 limit) as [|Hle]; [assumption|].
    destruct (Hin limit Hle) as [r Hr]. congruence.
  - apply Hover.
  - apply Hin.
  - apply Hover. lia.
  - apply Hin. lia.
Qed.

(** C10.  When [updateSnippet] returns [errSnippetNotFound] or
    [errSnippetExistsInTargetFolder], the directory tree is what it was
    before the call: both checks come before the removal and the write. *)
Theorem updateSnippet_rejection_keeps_tree (api : API) (id : string)
    (updates : gmap string any) (w : World) (e : error) :
  fst (updateSnippet formatRFC3339 api id updates w) = Err e ->
  e = errSnippetNotFound \/ e = errSnippetExistsInTargetFolder ->
  fs (snd (updateSnippet formatRFC3339 api id updates w)) = fs w.
Proof.
  revert w e.
  change (errKeepsOn (fun e => e = errSnippetNotFound \/ e = errSnippetExistsInTargetFolder)
            (updateSnippet formatRFC3339 api id updates)).
  unfold updateSnippet.
  apply errKeepsOn_bind; [apply keeps_getFilesystemEntries|]. intros entries.
  destruct (List.find _ entries) as [found|]; [|apply errKeepsOn_fail].
  apply errKeepsOn_bind; [apply keeps_deterministicUUID|]. intros newID.
  destruct (existsb _ entries); [apply errKeepsOn_fail|].
  eapply errKeepsOn_after.
  - apply errKeeps_deleteSnippet.
  - intros _. apply errs_bind; [apply errs_uuid_NewString|]. intros contentID.
    apply errs_saveSnippet.
  - intros e [->|[->|[->|[o ->]]]] [H|H]; discriminate H.
Qed.

End RepositoryFacts.

Lemma getSnippets_limit_witness :
  let list := fun limit =>
    getSnippets asciiToLower noFormat api_snippets "" limit "" "name" "asc" None
                (world_of tree_five) in
  (-1 <= 0 -> list (-1) = list 100)
  /\ (fst (list (-1)) = Err errLimitExceedsMax <-> 1000 < -1)
  /\ (-1 <= 1000 -> exists r, fst (list (-1)) = Ok r)
  /\ fst (list 1001) = Err errLimitExceedsMax
  /\ exists r, fst (list 1000) = Ok r.
Proof.
  apply (getSnippets_limit asciiToLower noFormat api_snippets "" (-1) "" "name" "asc" None
           (world_of tree_five)).
  vm_compute. discriminate.
Defined.

Lemma updateSnippet_rejection_keeps_tree_witness :
  fs (snd (updateSnippet noFormat api_snippets "6acd8c03-4c0e-4e34-8202-00dca1e2ccd6"
             {["name" := anyString "b"]} (world_of tree_five)))
  = fs (world_of tree_five).
Proof.
  apply (updateSnippet_rejection_keeps_tree noFormat api_snippets
           "6acd8c03-4c0e-4e34-8202-00dca1e2ccd6" {["name" := anyString "b"]}
           (world_of tree_five) errSnippetExistsInTargetFolder).
  - vm_compute. reflexivity.
  - right. reflexivity.
Defined.

(** ** Suffixes *)

Lemma takeS_dropS (n : nat) (s : string) : takeS n s +:+ dropS n s = s.
Proof.
  revert s. induction n as [|n IH]; intros s; [reflexivity|].
  destruct s as [|c s]; simpl; [reflexivity|].
  change (String c (takeS n s +:+ dropS n s) = String c s). f_equal. apply IH.
Qed.

Lemma TrimSuffix_append (s suffix : string) :
  HasSuffix s suffix = true -> TrimSuffix s suffix +:+ suffix = s.
Proof.
  intros H. unfold TrimSuffix. rewrite H.
  unfold HasSuffix in H. apply andb_true_iff in H as [_ H].
  apply bool_decide_eq_true in H.
  rewrite <- H at 2. apply takeS_dropS.
Qed.

Lemma isSnippetFile_suffix (name : string) :
  isSnippetFile name = true <-> HasSuffix name ".sql" = true.
Proof.
  unfold isSnippetFile. split.
  - intros H. apply negb_true_iff, orb_false_iff in H as [_ H].
    apply negb_false_iff in H. exact H.
  - intros H. rewrite H. simpl. rewrite orb_false_r.
    apply negb_true_iff, bool_decide_eq_false. intros ->. discriminate H.
Qed.

(** ** The entries of a tree *)

Lemma elem_entriesIn (parent : string) (ch : gmap string node) (e : filesystemEntry) :
  In e (flat_map (entriesIn parent) (os_ReadDir ch)) <->
  exists n c mt, ch !! n = Some (File c mt) /\ isSnippetFile n = true
                 /\ e = fileEntry (Some (identify [parent])) n c mt.
Proof.
  rewrite in_flat_map. split.
  - intros ([n d] & Hin & He). apply ReadDir_lookup in Hin.
    unfold entriesIn in He. simpl in He. destruct d as [c mt|]; [|destruct He].
    destruct (isSnippetFile n) eqn:Hs; [|destruct He].
    destruct He as [<-|[]]. exists n, c, mt. auto.
  - intros (n & c & mt & Hl & Hs & ->). exists (n, File c mt). split.
    + apply ReadDir_lookup, Hl.
    + unfold entriesIn. simpl. rewrite Hs. left. reflexivity.
Qed.

(** An entry of the scan is the folder entry of a directory of the root, the
    entry of a [.sql] file of the root, or the entry of a [.sql] file of such
    a directory. *)
Lemma elem_entriesOf (root : gmap string node) (e : filesystemEntry) :
  In e (entriesOf root) <->
  (exists d mt ch, root !! d = Some (Dir mt ch) /\ e = folderEntry d mt)
  \/ (exists n c mt, root !! n = Some (File c mt) /\ isSnippetFile n = true
                     /\ e = fileEntry None n c mt)
  \/ (exists d dmt ch n c mt, root !! d = Some (Dir dmt ch) /\ ch !! n = Some (File c mt)
                     /\ isSnippetFile n = true
                     /\ e = fileEntry (Some (identify [d])) n c mt).
Proof.
  unfold entriesOf. rewrite in_flat_map. split.
  - intros ([name d] & Hin & He). apply ReadDir_lookup in Hin.
    unfold entriesAt in He. simpl in He. destruct d as [c mt|mt ch].
    + destruct (isSnippetFile name) eqn:Hs; [|destruct He].
      destruct He as [<-|[]]. right. left. exists name, c, mt. auto.
    + destruct He as [<-|He].
      * left. exists name, mt, ch. auto.
      * right. right. apply elem_entriesIn in He as (n & c & mt' & Hl & Hs & ->).
        exists name, mt, ch, n, c, mt'. auto.
  - intros [(d & mt & ch & Hl & ->)|[(n & c & mt & Hl & Hs & ->)|
            (d & dmt & ch & n & c & mt & Hl & Hc & Hs & ->)]].
    + exists (d, Dir mt ch). split; [apply ReadDir_lookup, Hl|]. left. reflexivity.
    + exists (n, File c mt). split; [apply ReadDir_lookup, Hl|].
      unfold entriesAt. simpl. rewrite Hs. left. reflexivity.
    + exists (d, Dir dmt ch). split; [apply ReadDir_lookup, Hl|].
      right. apply elem_entriesIn. exists n, c, mt. auto.
Qed.

Lemma fileEntry_name (folderID : option string) (n c : string) (mt : Z) :
  isSnippetFile n = true -> Name (fileEntry folderID n c mt) +:+ ".sql" = n.
Proof. intros H. apply TrimSuffix_append, isSnippetFile_suffix, H. Qed.

(** The identity of a scanned file is that of its folder and name. *)
Lemma fileEntry_ID (folderID : option string) (n c : string) (mt : Z) :
  ID (fileEntry folderID n c mt)
  = identify (idInputs folderID (Name (fileEntry folderID n c mt))).
Proof. reflexivity. Qed.

(** C3, as amended.  The scan of a configured repository gives every
    directory [d] of the root a folder entry with the id of [[d]], every
    [.sql] file [n] of the root a file entry with the id of [[n]], and every
    [.sql] file [n] of a directory [d] of the root a file entry whose folder
    id is the id of [[d]] and whose id is the id of [[folder id, n]] (the
    folder's identifier, not its name, is hashed with the file name).  There
    are no other entries. *)
Theorem getFilesystemEntries_identities (api : API) (w : World) :
  configured api -> named (fs w) ->
  exists entries,
    getFilesystemEntries api w = (Ok entries, w)
    /\ (forall d mt ch, fs w !! d = Some (Dir mt ch) ->
        exists e, In e entries /\ Type_ e = "folder" /\ Name e = d
                  /\ forall w0, deterministicUUID [d] w0 = (Ok (ID e), w0))
    /\ (forall n c mt, fs w !! n = Some (File c mt) -> HasSuffix n ".sql" = true ->
        exists e, In e entries /\ Type_ e = "file" /\ FolderID e = None
                  /\ Name e +:+ ".sql" = n /\ Content e = c
                  /\ forall w0, deterministicUUID [n] w0 = (Ok (ID e), w0))
    /\ (forall d dmt ch n c mt,
        fs w !! d = Some (Dir dmt ch) -> ch !! n = Some (File c mt) ->
        HasSuffix n ".sql" = true ->
        exists e folderID,
          In e entries /\ Type_ e = "file" /\ FolderID e = Some folderID
          /\ Name e +:+ ".sql" = n /\ Content e = c
          /\ (forall w0, deterministicUUID [d] w0 = (Ok folderID, w0))
          /\ forall w0, deterministicUUID [folderID; n] w0 = (Ok (ID e), w0))
    /\ (forall e, In e entries ->
        (exists d mt ch, fs w !! d = Some (Dir mt ch) /\ e = folderEntry d mt)
        \/ (exists n c mt, fs w !! n = Some (File c mt) /\ HasSuffix n ".sql" = true
                           /\ e = fileEntry None n c mt)
        \/ (exists d dmt ch n c mt, fs w !! d = Some (Dir dmt ch)
                           /\ ch !! n = Some (File c mt) /\ HasSuffix n ".sql" = true
                           /\ e = fileEntry (Some (identify [d])) n c mt)).
Proof.
  intros Hc Hn. exists (entriesOf (fs w)).
  split; [apply getFilesystemEntries_entriesOf; assumption|].
  assert (Hname : forall d x, fs w !! d = Some x -> d <> "").
  { intros d x Hd ->. unfold named in Hn. congruence. }
  split; [|split; [|split]].
  - intros d mt ch Hd. exists (folderEntry d mt). split; [|split; [|split]]; try reflexivity.
    + apply elem_entriesOf. left. exists d, mt, ch. auto.
    + intros w0. apply deterministicUUID_single, (Hname d _ Hd).
  - intros n c mt Hl Hs. apply isSnippetFile_suffix in Hs.
    exists (fileEntry None n c mt).
    split; [|split; [|split; [|split; [|split]]]]; try reflexivity.
    + apply elem_entriesOf. right. left. exists n, c, mt. auto.
    + apply fileEntry_name, Hs.
    + intros w0. rewrite fileEntry_ID.
      rewrite <- (deterministicUUID_idInputs None _ w0). unfold idInputs.
      rewrite (fileEntry_name None n c mt Hs). reflexivity.
  - intros d dmt ch n c mt Hd Hl Hs. apply isSnippetFile_suffix in Hs.
    exists (fileEntry (Some (identify [d])) n c mt), (identify [d]).
    split; [|split; [|split; [|split; [|split; [|split]]]]]; try reflexivity.
    + apply elem_entriesOf. right. right. exists d, dmt, ch, n, c, mt. auto.
    + apply fileEntry_name, Hs.
    + intros w0. apply deterministicUUID_single, (Hname d _ Hd).
    + intros w0. rewrite fileEntry_ID.
      rewrite <- (deterministicUUID_idInputs (Some (identify [d])) _ w0). unfold idInputs.
      rewrite (fileEntry_name (Some (identify [d])) n c mt Hs). reflexivity.
  - intros e He. apply elem_entriesOf in He.
    destruct He as [H|[(n & c & mt & Hl & Hs & ->)|(d & dmt & ch & n & c & mt & Hd & Hl & Hs & ->)]].
    + left. exact H.
    + right. left. exists n, c, mt. rewrite <- isSnippetFile_suffix. auto.
    + right. right. exists d, dmt, ch, n, c, mt. rewrite <- isSnippetFile_suffix. auto.
Qed.

(** C3 as stated fails for the files of a folder: in the tree with the
    folder [f] holding [a.sql], no scanned entry has the id of
    [["f"; "a.sql"]]. *)
Lemma scan_folder_snippet_id_differs :
  exists entries,
    getFilesystemEntries api_snippets (world_of tree_folder)
    = (Ok entries, world_of tree_folder)
    /\ (exists e, In e entries /\ Name e = "a" /\ Type_ e = "file"
                  /\ FolderID e = Some "03a51dfb-edea-4c84-bc28-f411896b317f")
    /\ Forall (fun e => fst (deterministicUUID ["f"; "a.sql"] (world_of tree_folder))
                        <> Ok (ID e)) entries.
Proof.
  eexists. split; [vm_compute; reflexivity|]. split.
  - eexists. split; [right; right; left; reflexivity|]. repeat split.
  - repeat constructor; vm_compute; discriminate.
Qed.

Lemma getFilesystemEntries_identities_witness :
  configured api_snippets /\ named (fs (world_of tree_folder))
  /\ exists entries,
       getFilesystemEntries api_snippets (world_of tree_folder)
       = (Ok entries, world_of tree_folder)
       /\ exists e folderID,
            In e entries /\ Type_ e = "file" /\ FolderID e = Some folderID
            /\ Name e +:+ ".sql" = "a.sql" /\ Content e = "select 1"
            /\ (forall w0, deterministicUUID ["f"] w0 = (Ok folderID, w0))
            /\ forall w0, deterministicUUID [folderID; "a.sql"] w0 = (Ok (ID e), w0).
Proof.
  assert (Hc : configured api_snippets) by (vm_compute; discriminate).
  assert (Hn : named (fs (world_of tree_folder))) by (vm_compute; reflexivity).
  split; [exact Hc|]. split; [exact Hn|].
  destruct (getFilesystemEntries_identities api_snippets (world_of tree_folder) Hc Hn)
    as (entries & Hscan & _ & _ & Hin & _).
  exists entries. split; [exact Hscan|].
  apply (Hin "f" 1 (<["a.sql" := File "select 1" 3]> ∅) "a.sql" "select 1" 3);
    vm_compute; reflexivity.
Defined.

(** ** Folders *)

Lemma filter_none {A} (f : A -> bool) (l : list A) :
  (forall x, f x = false) -> List.filter f l = [].
Proof. intros H. induction l as [|x l IH]; simpl; [reflexivity|]. rewrite H. exact IH. Qed.

(** C8, as amended.  On a configured repository [getFolders] with no
    parent filter returns exactly the folders of the directories of the
    root, and with any parent filter it returns no folder at all. *)
Theorem getFolders_parent_filter (api : API) (w : World) :
  configured api -> named (fs w) ->
  (exists folders,
     getFolders api None w = (Ok folders, w)
     /\ forall f, In f folders <->
          exists d mt ch, fs w !! d = Some (Dir mt ch)
                          /\ f = mkFolder (identify [d]) d 1 None 1)
  /\ forall parent, getFolders api (Some parent) w = (Ok [], w).
Proof.
  intros Hc Hn. pose proof (getFilesystemEntries_entriesOf api w Hc Hn) as Hscan.
  split.
  - eexists. split.
    { unfold getFolders. rewrite (run_bind_ok _ _ w w _ Hscan). reflexivity. }
    intros f. rewrite in_map_iff. split.
    + intros (e & <- & He). apply filter_In in He as [He Hf].
      apply andb_true_iff in Hf as [Hf _]. apply andb_true_iff in Hf as [Hf _].
      apply bool_decide_eq_true in Hf.
      apply elem_entriesOf in He
        as [(d & mt & ch & Hd & ->)|[(n & c & mt & _ & _ & ->)|
            (d & dmt & ch & n & c & mt & _ & _ & _ & ->)]]; try discriminate Hf.
      exists d, mt, ch. auto.
    + intros (d & mt & ch & Hd & ->). exists (folderEntry d mt). split; [reflexivity|].
      apply filter_In. split; [|reflexivity].
      apply elem_entriesOf. left. exists d, mt, ch. auto.
  - intros parent. unfold getFolders. rewrite (run_bind_ok _ _ w w _ Hscan).
    rewrite filter_none; [reflexivity|].
    intros e. apply andb_false_iff. right. reflexivity.
Qed.

Lemma getFolders_parent_filter_witness :
  configured api_snippets /\ named (fs (world_of tree_folder))
  /\ (exists folders,
        getFolders api_snippets None (world_of tree_folder) = (Ok folders, world_of tree_folder)
        /\ In (mkFolder (identify ["f"]) "f" 1 None 1) folders)
  /\ getFolders api_snippets (Some (identify ["f"])) (world_of tree_folder)
     = (Ok [], world_of tree_folder).
Proof.
  assert (Hc : configured api_snippets) by (vm_compute; discriminate).
  assert (Hn : named (fs (world_of tree_folder))) by (vm_compute; reflexivity).
  split; [exact Hc|]. split; [exact Hn|].
  destruct (getFolders_parent_filter api_snippets (world_of tree_folder) Hc Hn)
    as ((folders & Hrun & Hin) & Hnone).
  split; [|apply Hnone].
  exists folders. split; [exact Hrun|].
  apply Hin. exists "f", 1, (<["a.sql" := File "select 1" 3]> ∅).
  split; [vm_compute; reflexivity | reflexivity].
Defined.

(** C8 as stated fails: the parent filter is no no-op.  In the tree with the
    folder [f], no filter gives the folder and the filter by the id of [f]
    gives nothing. *)
Lemma getFolders_filter_changes_result :
  fst (getFolders api_snippets None (world_of tree_folder))
  = Ok [mkFolder "03a51dfb-edea-4c84-bc28-f411896b317f" "f" 1 None 1]
  /\ fst (getFolders api_snippets (Some "03a51dfb-edea-4c84-bc28-f411896b317f")
            (world_of tree_folder))
     = Ok []
  /\ fst (getFolders api_snippets None (world_of tree_folder))
     <> fst (getFolders api_snippets (Some "03a51dfb-edea-4c84-bc28-f411896b317f")
               (world_of tree_folder)).
Proof.
  split; [vm_compute; reflexivity|].
  split; [vm_compute; reflexivity|].
  vm_compute. discriminate.
Qed.

(** ** Name sanitizer *)

Lemma sanitizeName_rejects (name : string) :
  filepath_Base name <> name \/ Contains name NUL = true -> sanitizeName name = "".
Proof.
  intros [H|H]; unfold sanitizeName.
  - rewrite bool_decide_eq_false_2 by exact H. reflexivity.
  - rewrite H, orb_true_r. reflexivity.
Qed.

Lemma sanitizeName_accepts (name : string) :
  filepath_Base name = name -> Contains name NUL = false -> sanitizeName name = name.
Proof.
  intros H1 H2. unfold sanitizeName.
  rewrite bool_decide_eq_true_2 by exact H1. rewrite H2. simpl. exact H1.
Qed.

Lemma sanitizeName_traversal : sanitizeName "../../etc/passwd" = "".
Proof. reflexivity. Qed.

Lemma sanitizeName_null_byte : sanitizeName ("a" +:+ NUL +:+ "b") = "".
Proof. reflexivity. Qed.

(** The names that are their own base name pass, also the two that are no
    plain names and the root path. *)
Example sanitizeName_parent : sanitizeName ".." = "..".
Proof. reflexivity. Qed.

Example sanitizeName_root_path : sanitizeName "/" = "/".
Proof. reflexivity. Qed.

Example sanitizeName_empty : sanitizeName "" = "".
Proof. reflexivity. Qed.

Lemma lastElem_no_sep (l : list ascii) : ~ In "/"%char (lastElem l).
Proof.
  induction l as [|c l IH]; simpl; [tauto|].
  destruct (isSep c) eqn:E; simpl; [tauto|].
  intros [->|H]; [discriminate E | exact (IH H)].
Qed.

(** A base name holds a separator only when it is the root path. *)
Lemma filepath_Base_no_sep (path : string) :
  In "/"%char (list_ascii_of_string (filepath_Base path)) -> filepath_Base path = "/".
Proof.
  unfold filepath_Base. destruct (decide (path = "")).
  - simpl. intros [H|[]]. discriminate H.
  - destruct (dropSeps (List.rev (list_ascii_of_string path))) as [|c l]; [reflexivity|].
    rewrite list_ascii_of_string_of_list_ascii, <- in_rev.
    intros H. destruct (lastElem_no_sep _ H).
Qed.

(** A name with a path separator is rejected, the root path apart. *)
Lemma sanitizeName_separator (name : string) :
  In "/"%char (list_ascii_of_string name) -> name <> "/" -> sanitizeName name = "".
Proof.
  intros Hin Hne. apply sanitizeName_rejects. left. intros Heq.
  rewrite <- Heq in Hin. apply filepath_Base_no_sep in Hin. congruence.
Qed.

(** [createFolder] refuses a name the sanitizer rejects and leaves the
    world as it was. *)
Lemma createFolder_rejects (api : API) (name : string) (w : World) :
  configured api -> sanitizeName name = "" ->
  createFolder api name w = (Err errFolderNameRequired, w).
Proof.
  intros Hc Hs. unfold createFolder, snippetsDir.
  rewrite decide_False by exact Hc.
  rewrite (run_bind_ok _ _ w w (SnippetsFolder (cfg api))) by reflexivity.
  rewrite Hs. reflexivity.
Qed.

Section SaveFacts.

Variable formatRFC3339 : Z -> string.

(** C7, the part the code breaks.  [saveSnippet] does not refuse a name
    the sanitizer rejects: with no folder and an unused id it writes the
    content to the file [.sql] of the root and returns a snippet with the
    empty name. *)
Theorem saveSnippet_writes_rejected_name (api : API) (newSnippet : snippet) (w : World) :
  configured api -> named (fs w) ->
  sanitizeName (snippet_Name newSnippet) = "" ->
  snippet_FolderID newSnippet = None ->
  (forall e, In e (entriesOf (fs w)) -> Type_ e = "file" -> ID e <> snippet_ID newSnippet) ->
  (forall mt ch, fs w !! ".sql" <> Some (Dir mt ch)) ->
  exists saved w',
    saveSnippet formatRFC3339 api newSnippet w = (Ok saved, w')
    /\ snippet_Name saved = ""
    /\ fs w' = <[".sql" := File (SQL (snippet_Content newSnippet)) (now w)]> (fs w).
Proof.
  intros Hc Hn Hs Hf Hid Hdir.
  unfold saveSnippet.
  rewrite (run_bind_ok _ _ w w _ (getFilesystemEntries_entriesOf api w Hc Hn)).
  assert (Hex : existsb (fun entry => bool_decide (ID entry = snippet_ID newSnippet) && isFile entry)
                        (entriesOf (fs w)) = false).
  { apply not_true_is_false. intros H. apply existsb_exists in H as (e & He & Hb).
    apply andb_true_iff in Hb as [H1 H2].
    apply bool_decide_eq_true in H1. apply bool_decide_eq_true in H2.
    exact (Hid e He H2 H1). }
  rewrite Hex, Hf, Hs.
  rewrite (run_bind_ok _ _ w w tt) by reflexivity.
  unfold snippetsDir. rewrite decide_False by exact Hc.
  rewrite (run_bind_ok _ _ w w (SnippetsFolder (cfg api))) by reflexivity.
  change (filepath_Join ([] ++ ["" +:+ ".sql"])%list) with (Some [".sql"]).
  set (content := SQL (snippet_Content newSnippet)).
  set (w1 := mkWorld (<[".sql" := File content (now w)]> (fs w)) (now w) (entropy w) (drawn w)).
  assert (Hw : os_WriteFile (Some [".sql"]) content w = (Ok tt, w1)).
  { unfold os_WriteFile, onTree. simpl.
    destruct (fs w !! ".sql") as [[c mt|mt ch]|] eqn:E; try reflexivity.
    destruct (Hdir mt ch eq_refl). }
  rewrite (run_bind_ok _ _ w w1 tt Hw).
  assert (Hst : os_Stat (Some [".sql"]) w1 = (Ok (now w), w1)).
  { unfold os_Stat. simpl. rewrite lookup_insert_eq. reflexivity. }
  rewrite (run_bind_ok _ _ w1 w1 _ Hst).
  unfold buildSnippet.
  rewrite (run_bind_ok _ _ w1 w1 _ (deterministicUUID_idInputs None "" w1)).
  rewrite run_bind. simpl.
  eexists _, _. split; [reflexivity|]. split; reflexivity.
Qed.

End SaveFacts.

Lemma saveSnippet_writes_rejected_name_witness :
  sanitizeName "../../etc/passwd" = ""
  /\ exists saved w',
       saveSnippet noFormat api_snippets
         (requestSnippet "c0ffee" "../../etc/passwd" "select 1" None) world_empty
       = (Ok saved, w')
       /\ snippet_Name saved = ""
       /\ fs w' = <[".sql" := File "select 1" 1000]> ∅.
Proof.
  split; [reflexivity|].
  apply (saveSnippet_writes_rejected_name noFormat api_snippets
           (requestSnippet "c0ffee" "../../etc/passwd" "select 1" None) world_empty).
  - vm_compute. discriminate.
  - vm_compute. reflexivity.
  - reflexivity.
  - reflexivity.
  - intros e He. vm_compute in He. destruct He.
  - intros mt ch. vm_compute. discriminate.
Defined.

(** ** Substrings *)

Lemma HasPrefix_spec (s pre : string) :
  HasPrefix s pre = true <-> exists post, s = pre +:+ post.
Proof.
  revert s. induction pre as [|c pre IH]; intros s.
  - split; [intros _; exists s; reflexivity | intros _; destruct s; reflexivity].
  - destruct s as [|d s]; simpl.
    + split; [discriminate | intros [post H]; discriminate H].
    + rewrite andb_true_iff, bool_decide_eq_true, IH. split.
      * intros [-> [post ->]]. exists post. reflexivity.
      * intros [post H]. injection H as -> ->. split; [reflexivity | exists post; reflexivity].
Qed.

(** [strings.Contains]: the substring stands somewhere in the string. *)
Lemma Contains_spec (s substr : string) :
  Contains s substr = true <-> exists pre post, s = pre +:+ substr +:+ post.
Proof.
  induction s as [|c s IH]; cbn [Contains].
  - rewrite orb_false_r, HasPrefix_spec. split.
    + intros [post H]. exists "", post. exact H.
    + intros (pre & post & H). destruct pre; [exists post; exact H | discriminate H].
  - rewrite orb_true_iff, HasPrefix_spec, IH. split.
    + intros [[post H]|(pre & post & ->)].
      * exists "", post. exact H.
      * exists (String c pre), post. reflexivity.
    + intros (pre & post & H). destruct pre as [|d pre].
      * left. exists post. exact H.
      * right. injection H as -> ->. exists pre, post. reflexivity.
Qed.

Lemma matchesFolder_eq (fileFolder targetFolder : option string) :
  matchesFolder fileFolder targetFolder = true <-> fileFolder = targetFolder.
Proof.
  destruct fileFolder as [f|], targetFolder as [t|]; simpl;
    try (split; [discriminate | congruence]); try tauto.
  rewrite bool_decide_eq_true. split; congruence.
Qed.

(** ** Stable sorting *)

Lemma insertStable_Permutation {A} (less : A -> A -> bool) (x : A) (l : list A) :
  Permutation (insertStable less x l) (x :: l).
Proof.
  induction l as [|y l IH]; simpl; [reflexivity|].
  destruct (less y x); [|reflexivity].
  rewrite IH. apply perm_swap.
Qed.

Lemma sort_SliceStable_Permutation {A} (less : A -> A -> bool) (l : list A) :
  Permutation (sort_SliceStable less l) l.
Proof.
  induction l as [|x l IH]; simpl; [reflexivity|].
  unfold sort_SliceStable in *. simpl.
  rewrite insertStable_Permutation. apply perm_skip, IH.
Qed.

Lemma sortEntries_Permutation ToLower sortField sortOrder (l : list filesystemEntry) :
  Permutation (sortEntries ToLower sortField sortOrder l) l.
Proof.
  unfold sortEntries. destruct (bool_decide _).
  - rewrite <- Permutation_rev. apply sort_SliceStable_Permutation.
  - apply sort_SliceStable_Permutation.
Qed.

(** ** Cursor and page *)

Lemma cursorStart_found (cursor : string) (l1 l2 : list filesystemEntry)
    (e : filesystemEntry) (idx : nat) :
  ID e = cursor -> (forall x, In x l1 -> ID x <> cursor) ->
  cursorStart cursor idx (l1 ++ e :: l2) = (idx + length l1 + 1)%nat.
Proof.
  intros He. revert idx. induction l1 as [|y l1 IH]; intros idx Hl1; simpl.
  - rewrite bool_decide_eq_true_2 by exact He. lia.
  - rewrite bool_decide_eq_false_2 by (apply Hl1; left; reflexivity).
    rewrite IH by (intros; apply Hl1; right; assumption). lia.
Qed.

Lemma cursorStart_missing (cursor : string) (l : list filesystemEntry) (idx : nat) :
  (forall x, In x l -> ID x <> cursor) -> cursorStart cursor idx l = 0%nat.
Proof.
  revert idx. induction l as [|y l IH]; intros idx Hl; simpl; [reflexivity|].
  rewrite bool_decide_eq_false_2 by (apply Hl; left; reflexivity).
  apply IH. intros; apply Hl; right; assumption.
Qed.

Lemma pageOf_after_cursor (l1 l2 : list filesystemEntry) (e : filesystemEntry)
    (cursor : string) (limit : Z) :
  cursor <> "" -> ID e = cursor -> (forall x, In x l1 -> ID x <> cursor) ->
  pageOf cursor limit (l1 ++ e :: l2) = pageOf "" limit l2.
Proof.
  intros Hc He Hl1. unfold pageOf.
  rewrite bool_decide_eq_false_2 by exact Hc.
  rewrite (bool_decide_eq_true_2 ("" = "")) by reflexivity. simpl negb. cbv iota.
  rewrite cursorStart_found by assumption.
  replace (l1 ++ e :: l2)%list with ((l1 ++ [e]) ++ l2)%list
    by (rewrite <- app_assoc; reflexivity).
  rewrite drop_app_length' by (rewrite length_app; simpl; lia).
  reflexivity.
Qed.

Lemma pageOf_unknown_cursor (l : list filesystemEntry) (cursor : string) (limit : Z) :
  (forall x, In x l -> ID x <> cursor) -> pageOf cursor limit l = pageOf "" limit l.
Proof.
  intros Hl. unfold pageOf.
  rewrite cursorStart_missing by exact Hl.
  rewrite (bool_decide_eq_true_2 ("" = "")) by reflexivity. simpl negb. cbv iota.
  destruct (negb (bool_decide (cursor = ""))); reflexivity.
Qed.

Lemma pageOf_more (l : list filesystemEntry) (limit : Z) :
  0 < limit <= 1000 -> limit < Z.of_nat (length l) ->
  exists next,
    pageOf "" limit l = Ok (next, take (Z.to_nat limit) l)
    /\ last (map ID (take (Z.to_nat limit) l)) = Some next.
Proof.
  intros Hlim Hlen. unfold pageOf. simpl. change (drop 0 l) with l.
  destruct (Z.leb_spec limit 0); [lia|].
  destruct (Z.ltb_spec 1000 limit); [lia|].
  destruct (Z.ltb_spec limit (Z.of_nat (length l))); [|lia].
  destruct (lookup_lt_is_Some_2 l (Z.to_nat (limit - 1)) ltac:(lia)) as [e He].
  rewrite He. simpl. eexists. split; [reflexivity|].
  rewrite last_lookup, length_map, length_take.
  replace (Init.Nat.pred (Z.to_nat limit `min` length l)) with (Z.to_nat (limit - 1)) by lia.
  rewrite list_lookup_fmap, lookup_take_lt by lia. rewrite He. reflexivity.
Qed.

Lemma pageOf_all (l : list filesystemEntry) (limit : Z) :
  0 < limit <= 1000 -> Z.of_nat (length l) <= limit -> pageOf "" limit l = Ok ("", l).
Proof.
  intros Hlim Hlen. unfold pageOf. simpl. change (drop 0 l) with l.
  destruct (Z.leb_spec limit 0); [lia|].
  destruct (Z.ltb_spec 1000 limit); [lia|].
  destruct (Z.ltb_spec limit (Z.of_nat (length l))); [lia|]. reflexivity.
Qed.

(** The entries of a page are entries of the list. *)
Lemma pageOf_In (l page : list filesystemEntry) (cursor next : string) (limit : Z) :
  pageOf cursor limit l = Ok (next, page) -> forall x, In x page -> In x l.
Proof.
  unfold pageOf. intros H x Hx.
  destruct (1000 <? _); [discriminate H|].
  destruct (_ <? _); injection H as _ <-.
  - apply list_elem_of_In in Hx. apply list_elem_of_In.
    eapply subseteq_drop. eapply subseteq_take. exact Hx.
  - apply list_elem_of_In in Hx. apply list_elem_of_In.
    eapply subseteq_drop. exact Hx.
Qed.

(** A page from the beginning with no next cursor holds the whole list, when
    no entry has the empty id. *)
Lemma pageOf_whole (l page : list filesystemEntry) (limit : Z) :
  (forall x, In x l -> ID x <> "") ->
  pageOf "" limit l = Ok ("", page) -> page = l.
Proof.
  unfold pageOf. simpl. change (drop 0 l) with l. intros Hid H.
  destruct (1000 <? _); [discriminate H|].
  destruct (_ <? _) eqn:E; [|injection H as <-; reflexivity].
  apply Z.ltb_lt in E.
  set (n := if limit <=? 0 then 100 else limit) in *.
  assert (0 < n) by (unfold n; destruct (Z.leb_spec limit 0); lia).
  destruct (lookup_lt_is_Some_2 l (Z.to_nat (n - 1)) ltac:(lia)) as [e He].
  rewrite He in H. simpl in H. injection H as Hid' _.
  exfalso. apply (Hid e); [|exact Hid'].
  apply list_elem_of_In. eapply list_elem_of_lookup_2. exact He.
Qed.


(** ** Identifiers are not empty *)

Lemma uuid_String_nonempty (u : list Z) : uuid_String u <> "".
Proof.
  unfold uuid_String. apply append_nonempty_r. discriminate.
Qed.

Lemma identify_nonempty (p : list string) : identify p <> "".
Proof. apply uuid_String_nonempty. Qed.

Lemma entriesOf_ID_nonempty (root : gmap string node) (e : filesystemEntry) :
  In e (entriesOf root) -> ID e <> "".
Proof.
  intros He. apply elem_entriesOf in He
    as [(d & mt & ch & _ & ->)|[(n & c & mt & _ & _ & ->)|
        (d & dmt & ch & n & c & mt & _ & _ & _ & ->)]]; apply identify_nonempty.
Qed.

Lemma entriesOf_file_ID (root : gmap string node) (e : filesystemEntry) :
  In e (entriesOf root) -> isFile e = true ->
  ID e = identify (idInputs (FolderID e) (Name e)).
Proof.
  intros He Hf. apply bool_decide_eq_true in Hf.
  apply elem_entriesOf in He
    as [(d & mt & ch & _ & ->)|[(n & c & mt & _ & _ & ->)|
        (d & dmt & ch & n & c & mt & _ & _ & _ & ->)]];
    [discriminate Hf | reflexivity | reflexivity].
Qed.

Section ListFacts.

Variable ToLower : string -> string.
Variable formatRFC3339 : Z -> string.

(** The entries listed for a call are the file entries of the tree that
    match the search term when there is one, the folder otherwise. *)
Lemma In_listed (searchTerm sortField sortOrder : string) (folderID : option string)
    (root : gmap string node) (e : filesystemEntry) :
  In e (listed ToLower searchTerm sortField sortOrder folderID root) <->
  In e (entriesOf root) /\ Type_ e = "file"
  /\ (searchTerm <> "" ->
      exists pre post, ToLower (Name e) = pre +:+ ToLower searchTerm +:+ post)
  /\ (searchTerm = "" -> FolderID e = folderID).
Proof.
  unfold listed.
  rewrite <- !list_elem_of_In, sortEntries_Permutation, !list_elem_of_In.
  unfold filterFiles.
  destruct (decide (searchTerm = "")) as [->|Hne].
  - simpl. rewrite !filter_In. unfold isFile.
    rewrite bool_decide_eq_true, matchesFolder_eq. tauto.
  - rewrite (bool_decide_eq_false_2 _ Hne). simpl.
    rewrite !filter_In. unfold isFile.
    rewrite bool_decide_eq_true, Contains_spec. tauto.
Qed.

Lemma run_buildSnippet (e : filesystemEntry) (w : World) :
  exists s w',
    buildSnippet formatRFC3339 (Name e) (Content e) (FolderID e) (CreatedAt e) w = (Ok s, w')
    /\ fs w' = fs w
    /\ snippetKey s = (identify (idInputs (FolderID e) (Name e)), Name e, Content e, FolderID e).
Proof.
  unfold buildSnippet.
  rewrite (run_bind_ok _ _ w w _ (deterministicUUID_idInputs _ _ w)).
  rewrite run_bind. simpl. eexists _, _. split; [reflexivity|]. split; reflexivity.
Qed.

Lemma run_buildSnippets (page : list filesystemEntry) (w : World) :
  exists snippets w',
    loopMap (fun entry => buildSnippet formatRFC3339 (Name entry) (Content entry)
                            (FolderID entry) (CreatedAt entry)) page w
    = (Ok snippets, w')
    /\ fs w' = fs w
    /\ map snippetKey snippets
       = map (fun e => (identify (idInputs (FolderID e) (Name e)), Name e, Content e, FolderID e))
             page.
Proof.
  revert w. induction page as [|e page IH]; intros w; simpl.
  - exists [], w. repeat split.
  - destruct (run_buildSnippet e w) as (s & w1 & Hs & Hfs1 & Hkey).
    destruct (IH w1) as (ss & w2 & Hss & Hfs2 & Hkeys).
    rewrite (run_bind_ok _ _ w w1 s Hs), (run_bind_ok _ _ w1 w2 ss Hss).
    exists (s :: ss), w2. split; [reflexivity|]. split; [congruence|].
    simpl. rewrite Hkey, Hkeys. reflexivity.
Qed.

(** A call returns the page of the listed entries, as snippets with their
    ids, names, contents and folders. *)
Lemma getSnippets_page (api : API) (searchTerm : string) (limit : Z) (cursor : string)
    (sortField sortOrder : string) (folderID : option string) (w : World) :
  configured api -> named (fs w) ->
  match pageOf cursor limit (listed ToLower searchTerm sortField sortOrder folderID (fs w)) with
  | Err e =>
    getSnippets ToLower formatRFC3339 api searchTerm limit cursor sortField sortOrder folderID w
    = (Err e, w)
  | Ok (nextCursor, page) =>
    exists snippets w',
      getSnippets ToLower formatRFC3339 api searchTerm limit cursor sortField sortOrder folderID w
      = (Ok (nextCursor, snippets), w')
      /\ fs w' = fs w
      /\ map snippetKey snippets = map entryKey page
  end.
Proof.
  intros Hc Hn. unfold getSnippets.
  rewrite (run_bind_ok _ _ w w _ (getFilesystemEntries_entriesOf api w Hc Hn)).
  fold (listed ToLower searchTerm sortField sortOrder folderID (fs w)).
  destruct (pageOf cursor limit _) as [[nextCursor page]|e] eqn:Hpage; [|reflexivity].
  destruct (run_buildSnippets page w) as (snippets & w' & Hrun & Hfs & Hkeys).
  exists snippets, w'. rewrite (run_bind_ok _ _ w w' snippets Hrun).
  split; [reflexivity|]. split; [exact Hfs|].
  rewrite Hkeys. apply map_ext_in. intros e He. unfold entryKey.
  apply (pageOf_In _ _ _ _ _ Hpage) in He. apply In_listed in He as (He & Hf & _).
  rewrite (entriesOf_file_ID (fs w) e He) by (apply bool_decide_eq_true; exact Hf).
  reflexivity.
Qed.

(** C4, as amended.  For the filtered and sorted list [L] of a call on a
    configured repository: the call returns the page of [L] (as snippets
    with the ids, names, contents and folders of its entries); a non-empty
    cursor starts the page right after the first entry whose id is the
    cursor; a cursor that is the id of no entry starts it at the beginning;
    when more entries remain after taking [limit], the next cursor is the id
    of the last returned one; and for five snippets of which the first two
    have different ids, the call with limit 2, then the call with limit 2
    and the id of the second as cursor, return the first two and then the
    third and fourth of what the call with limit 1000 returns. *)
Theorem getSnippets_pagination (api : API) (searchTerm sortField sortOrder : string)
    (folderID : option string) (w : World) :
  configured api -> named (fs w) ->
  let L := listed ToLower searchTerm sortField sortOrder folderID (fs w) in
  let list := fun limit cursor =>
    getSnippets ToLower formatRFC3339 api searchTerm limit cursor sortField sortOrder folderID in
  (forall limit cursor nextCursor page,
      pageOf cursor limit L = Ok (nextCursor, page) ->
      exists snippets w',
        list limit cursor w = (Ok (nextCursor, snippets), w')
        /\ fs w' = fs w /\ map snippetKey snippets = map entryKey page)
  /\ (forall cursor limit l1 e l2,
        cursor <> "" -> L = (l1 ++ e :: l2)%list -> ID e = cursor ->
        (forall x, In x l1 -> ID x <> cursor) ->
        pageOf cursor limit L = pageOf "" limit l2)
  /\ (forall cursor limit,
        (forall x, In x L -> ID x <> cursor) -> pageOf cursor limit L = pageOf "" limit L)
  /\ (forall l limit,
        limit <= 1000 ->
        let n := if limit <=? 0 then 100 else limit in
        n < Z.of_nat (length l) ->
        exists nextCursor,
          pageOf "" limit l = Ok (nextCursor, take (Z.to_nat n) l)
          /\ last (map ID (take (Z.to_nat n) l)) = Some nextCursor)
  /\ (forall e1 e2 e3 e4 e5,
        L = [e1; e2; e3; e4; e5] -> ID e1 <> ID e2 ->
        exists p1 w1 p2 w2 all w3,
          list 2 "" w = (Ok (ID e2, p1), w1)
          /\ map snippetKey p1 = map entryKey [e1; e2]
          /\ list 2 (ID e2) w1 = (Ok (ID e4, p2), w2)
          /\ map snippetKey p2 = map entryKey [e3; e4]
          /\ list 1000 "" w2 = (Ok ("", all), w3)
          /\ map snippetKey all = map entryKey [e1; e2; e3; e4; e5]).
Proof.
  intros Hc Hn L list.
  assert (Hcall : forall w0 limit cursor nextCursor page,
    fs w0 = fs w -> pageOf cursor limit L = Ok (nextCursor, page) ->
    exists snippets w',
      list limit cursor w0 = (Ok (nextCursor, snippets), w')
      /\ fs w' = fs w /\ map snippetKey snippets = map entryKey page).
  { intros w0 limit cursor nextCursor page Hfs Hpage.
    assert (Hn0 : named (fs w0)) by (rewrite Hfs; exact Hn).
    pose proof (getSnippets_page api searchTerm limit cursor sortField sortOrder folderID
                  w0 Hc Hn0) as Hrun.
    rewrite Hfs in Hrun. fold L in Hrun. rewrite Hpage in Hrun.
    destruct Hrun as (snippets & w' & Hrun & Hfs' & Hkeys).
    exists snippets, w'. split; [exact Hrun|]. split; [congruence | exact Hkeys]. }
  split; [intros limit cursor nextCursor page; apply Hcall; reflexivity|].
  split; [intros cursor limit l1 e l2 Hcur -> He Hl1; apply pageOf_after_cursor; assumption|].
  split; [intros cursor limit; apply pageOf_unknown_cursor|].
  split.
  { intros l limit Hle n Hmore. unfold n in *. destruct (Z.leb_spec limit 0).
    - rewrite pageOf_default by assumption. apply pageOf_more; lia.
    - apply pageOf_more; lia. }
  intros e1 e2 e3 e4 e5 HL Hne.
  assert (Hid2 : ID e2 <> "").
  { apply (entriesOf_ID_nonempty (fs w)).
    apply (In_listed searchTerm sortField sortOrder folderID). fold L. rewrite HL.
    right. left. reflexivity. }
  assert (H1 : pageOf "" 2 L = Ok (ID e2, [e1; e2])) by (rewrite HL; reflexivity).
  assert (H2 : pageOf (ID e2) 2 L = Ok (ID e4, [e3; e4])).
  { rewrite HL.
    change (pageOf (ID e2) 2 ([e1] ++ e2 :: [e3; e4; e5])%list = Ok (ID e4, [e3; e4])).
    rewrite (pageOf_after_cursor [e1] [e3; e4; e5] e2 (ID e2) 2 Hid2 eq_refl).
    - reflexivity.
    - intros x [<-|[]]. exact Hne. }
  assert (H3 : pageOf "" 1000 L = Ok ("", [e1; e2; e3; e4; e5])) by (rewrite HL; reflexivity).
  destruct (Hcall w 2 "" _ _ eq_refl H1) as (p1 & w1 & Hr1 & Hfs1 & Hk1).
  destruct (Hcall w1 2 (ID e2) _ _ Hfs1 H2) as (p2 & w2 & Hr2 & Hfs2 & Hk2).
  destruct (Hcall w2 1000 "" _ _ Hfs2 H3) as (all & w3 & Hr3 & _ & Hk3).
  exists p1, w1, p2, w2, all, w3. auto 10.
Qed.

End ListFacts.

Lemma getSnippets_pagination_witness :
  let list := fun limit cursor =>
    getSnippets asciiToLower noFormat api_snippets "" limit cursor "name" "asc" None in
  configured api_snippets /\ named (fs (world_of tree_five))
  /\ exists p1 w1 p2 w2 all w3,
       list 2 "" (world_of tree_five) = (Ok (identify ["b.sql"], p1), w1)
       /\ map snippet_Name p1 = ["a"; "b"]
       /\ list 2 (identify ["b.sql"]) w1 = (Ok (identify ["d.sql"], p2), w2)
       /\ map snippet_Name p2 = ["c"; "d"]
       /\ list 1000 "" w2 = (Ok ("", all), w3)
       /\ map snippet_Name all = ["a"; "b"; "c"; "d"; "e"].
Proof.
  intros list.
  assert (Hc : configured api_snippets) by (vm_compute; discriminate).
  assert (Hn : named (fs (world_of tree_five))) by (vm_compute; reflexivity).
  split; [exact Hc|]. split; [exact Hn|].
  destruct (getSnippets_pagination asciiToLower noFormat api_snippets "" "name" "asc" None
              (world_of tree_five) Hc Hn) as (_ & _ & _ & _ & Hfive).
  destruct (Hfive (fileEntry None "a.sql" "1" 1) (fileEntry None "b.sql" "2" 2)
                  (fileEntry None "c.sql" "3" 3) (fileEntry None "d.sql" "4" 4)
                  (fileEntry None "e.sql" "5" 5))
    as (p1 & w1 & p2 & w2 & all & w3 & H1 & K1 & H2 & K2 & H3 & K3).
  - vm_compute. reflexivity.
  - vm_compute. discriminate.
  - exists p1, w1, p2, w2, all, w3.
    split; [exact H1|]. split; [|split; [exact H2|split; [|split; [exact H3|]]]].
    + apply (f_equal (map (fun k => snd (fst (fst k))))) in K1.
      rewrite !map_map in K1. exact K1.
    + apply (f_equal (map (fun k => snd (fst (fst k))))) in K2.
      rewrite !map_map in K2. exact K2.
    + apply (f_equal (map (fun k => snd (fst (fst k))))) in K3.
      rewrite !map_map in K3. exact K3.
Defined.

(** C4 as stated fails when two of the five snippets have the same id:
    [Aa.sql] and [BB.sql] hash alike, the cursor of the second finds the
    first, and the second page repeats [BB] instead of giving the third and
    fourth snippet. *)
Lemma getSnippets_second_page_repeats :
  let list := fun limit cursor =>
    fst (getSnippets asciiToLower noFormat api_snippets "" limit cursor "name" "asc" None
           (world_of tree_five_colliding)) in
  exists cursor p1 next p2 all,
    list 2 "" = Ok (cursor, p1)
    /\ map snippet_Name p1 = ["Aa"; "BB"]
    /\ map snippet_ID p1 = [cursor; cursor]
    /\ list 2 cursor = Ok (next, p2)
    /\ map snippet_Name p2 = ["BB"; "c"]
    /\ list 1000 "" = Ok ("", all)
    /\ map snippet_Name all = ["Aa"; "BB"; "c"; "d"; "e"].
Proof.
  intros list. subst list. cbv beta.
  eexists _, _, _, _, _.
  split; [vm_compute; reflexivity|].
  split; [reflexivity|]. split; [reflexivity|].
  split; [vm_compute; reflexivity|].
  split; [reflexivity|].
  split; [vm_compute; reflexivity|]. reflexivity.
Qed.

(** ** What a call selects and returns *)

Lemma pageOf_length (cursor : string) (limit : Z) (l page : list filesystemEntry)
    (nextCursor : string) :
  pageOf cursor limit l = Ok (nextCursor, page) ->
  Z.of_nat (length page) <= (if limit <=? 0 then 100 else limit).
Proof.
  unfold pageOf.
  set (size := if limit <=? 0 then 100 else limit).
  assert (Hpos : 0 < size) by (unfold size; destruct (Z.leb_spec limit 0); lia).
  set (rest := drop _ l).
  destruct (1000 <? size); [discriminate|].
  destruct (Z.ltb_spec size (Z.of_nat (length rest))) as [Hmore|Hall];
    intros H; injection H as _ <-.
  - rewrite length_take. lia.
  - exact Hall.
Qed.

Lemma pageOf_fits (limit : Z) (l : list filesystemEntry) :
  limit <= 1000 -> Z.of_nat (length l) <= (if limit <=? 0 then 100 else limit) ->
  pageOf "" limit l = Ok ("", l).
Proof.
  intros Hlim Hlen. destruct (Z.leb_spec limit 0) as [Hle|Hpos].
  - rewrite pageOf_default by exact Hle. apply pageOf_all; lia.
  - apply pageOf_all; lia.
Qed.

Section FilterFacts.

Variable ToLower : string -> string.
Variable formatRFC3339 : Z -> string.

(** The two filter loops keep the entries that pass the test of their
    mode. *)
Lemma filterFiles_test (searchTerm : string) (folderID : option string)
    (files : list filesystemEntry) :
  filterFiles ToLower searchTerm folderID files
  = List.filter (fun e => if bool_decide (searchTerm = "")
                          then bool_decide (FolderID e = folderID)
                          else Contains (ToLower (Name e)) (ToLower searchTerm)) files.
Proof.
  unfold filterFiles. destruct (bool_decide (searchTerm = "")); simpl; [|reflexivity].
  apply List.filter_ext. intros e.
  destruct (matchesFolder (FolderID e) folderID) eqn:E.
  - apply matchesFolder_eq in E. symmetry. apply bool_decide_eq_true_2, E.
  - symmetry. apply bool_decide_eq_false_2. intros H.
    apply matchesFolder_eq in H. congruence.
Qed.

(** C5, as amended.  On a configured repository a call whose limit is at
    most 1000 returns, and returns only snippets of file entries that match:
    with a search term, the file entries of all folders, whatever the folder
    filter, whose lower-cased name holds the lower-cased term (for names and
    terms of ASCII bytes: whose name holds the term up to the case of the
    letters); without one, the file entries whose folder is the one of the
    filter, those without folder for the null filter.  It returns no more
    than the limit (100 for a limit that is not positive); and a call from
    the beginning returns exactly the matching entries, each once, and no
    next cursor, when their number is not above the limit. *)
Theorem getSnippets_filter (api : API) (searchTerm : string) (limit : Z) (cursor : string)
    (sortField sortOrder : string) (folderID : option string) (w : World) :
  configured api -> named (fs w) -> limit <= 1000 ->
  let matching := fun e : filesystemEntry =>
    In e (entriesOf (fs w)) /\ Type_ e = "file"
    /\ (searchTerm <> "" ->
        exists pre post, ToLower (Name e) = pre +:+ ToLower searchTerm +:+ post)
    /\ (searchTerm = "" -> FolderID e = folderID) in
  let matches :=
    List.filter (fun e => if bool_decide (searchTerm = "")
                          then bool_decide (FolderID e = folderID)
                          else Contains (ToLower (Name e)) (ToLower searchTerm))
                (List.filter isFile (entriesOf (fs w))) in
  let size := if limit <=? 0 then 100 else limit in
  (forall e, In e matches <-> matching e)
  /\ (exists nextCursor snippets w',
        getSnippets ToLower formatRFC3339 api searchTerm limit cursor sortField sortOrder
                    folderID w
        = (Ok (nextCursor, snippets), w')
        /\ fs w' = fs w
        /\ (forall s, In s snippets -> exists e, matching e /\ snippetKey s = entryKey e)
        /\ Z.of_nat (length snippets) <= size
        /\ (cursor = "" -> Z.of_nat (length matches) <= size ->
            nextCursor = ""
            /\ Permutation (map snippetKey snippets) (map entryKey matches)))
  /\ (lowersASCII ToLower -> searchTerm <> "" -> isASCII searchTerm = true ->
      forall e, isASCII (Name e) = true ->
        (matching e <->
         In e (entriesOf (fs w)) /\ Type_ e = "file"
         /\ exists pre post,
              asciiToLower (Name e) = pre +:+ asciiToLower searchTerm +:+ post)).
Proof.
  intros Hc Hn Hlim matching matches size.
  set (selected := listed ToLower searchTerm sortField sortOrder folderID (fs w)).
  assert (Hperm : Permutation selected matches).
  { unfold selected, listed. rewrite sortEntries_Permutation.
    rewrite filterFiles_test. reflexivity. }
  assert (Hmatch : forall e, In e matches <-> matching e).
  { intros e. unfold matching.
    rewrite <- (In_listed ToLower searchTerm sortField sortOrder folderID (fs w) e).
    fold selected. split; apply Permutation_in; [symmetry|]; exact Hperm. }
  split; [exact Hmatch|]. split.
  - pose proof (getSnippets_page ToLower formatRFC3339 api searchTerm limit cursor sortField
                  sortOrder folderID w Hc Hn) as Hpage.
    fold selected in Hpage.
    destruct (pageOf_within cursor limit selected Hlim) as [[nextCursor page] Hp].
    rewrite Hp in Hpage. destruct Hpage as (snippets & w' & Hrun & Hfs & Hkeys).
    exists nextCursor, snippets, w'. split; [exact Hrun|]. split; [exact Hfs|].
    split; [|split].
    + intros s Hs. apply (in_map snippetKey) in Hs. rewrite Hkeys in Hs.
      apply in_map_iff in Hs as (e & He & Hin). exists e. split; [|symmetry; exact He].
      apply Hmatch. apply (Permutation_in _ Hperm). apply (pageOf_In _ _ _ _ _ Hp), Hin.
    + rewrite <- (length_map snippetKey), Hkeys, length_map.
      apply (pageOf_length _ _ _ _ _ Hp).
    + intros -> Hfits.
      assert (Hlen : Z.of_nat (length selected) <= size)
        by (rewrite (Permutation_length Hperm); exact Hfits).
      rewrite (pageOf_fits limit selected Hlim Hlen) in Hp. injection Hp as <- <-.
      split; [reflexivity|]. rewrite Hkeys. apply Permutation_map, Hperm.
  - intros Hlow Hterm Hascii e He. unfold matching.
    rewrite (Hlow _ Hascii), (Hlow _ He). split.
    + intros (Hin & Hf & Hsub & _). split; [exact Hin|]. split; [exact Hf|]. apply Hsub, Hterm.
    + intros (Hin & Hf & Hsub). split; [exact Hin|]. split; [exact Hf|].
      split; [intros _; exact Hsub | intros H; destruct (Hterm H)].
Qed.

End FilterFacts.

Lemma getSnippets_filter_witness :
  exists nextCursor snippets w',
    getSnippets asciiToLower noFormat api_snippets "A" 0 "" "name" "asc" None
      (world_of tree_folder)
    = (Ok (nextCursor, snippets), w')
    /\ nextCursor = ""
    /\ map snippetKey snippets
       = [(identify [identify ["f"]; "a.sql"], "a", "select 1", Some (identify ["f"]))].
Proof.
  assert (Hc : configured api_snippets) by (vm_compute; discriminate).
  assert (Hn : named (fs (world_of tree_folder))) by (vm_compute; reflexivity).
  destruct (getSnippets_filter asciiToLower noFormat api_snippets "A" 0 "" "name" "asc" None
              (world_of tree_folder) Hc Hn ltac:(lia))
    as (_ & (nextCursor & snippets & w' & Hrun & _ & _ & _ & Hall) & _).
  destruct (Hall eq_refl) as [Hnext Hperm]; [vm_compute; discriminate|].
  exists nextCursor, snippets, w'. split; [exact Hrun|]. split; [exact Hnext|].
  apply Permutation_sym in Hperm. vm_compute in Hperm.
  apply Permutation_length_1_inv in Hperm. exact Hperm.
Defined.

(** C5 as stated fails for a call whose limit is below the number of
    matching entries: of the five snippets of the root, all without folder,
    the call with the null filter and the limit 2 returns two; the snippet
    [c] is not among them. *)
Lemma getSnippets_limit_cuts_matches :
  exists nextCursor snippets w',
    getSnippets asciiToLower noFormat api_snippets "" 2 "" "name" "asc" None
      (world_of tree_five)
    = (Ok (nextCursor, snippets), w')
    /\ In (fileEntry None "c.sql" "3" 3) (entriesOf tree_five)
    /\ Type_ (fileEntry None "c.sql" "3" 3) = "file"
    /\ FolderID (fileEntry None "c.sql" "3" 3) = None
    /\ length snippets = 2%nat
    /\ ~ In (entryKey (fileEntry None "c.sql" "3" 3)) (map snippetKey snippets).
Proof.
  destruct (getSnippets asciiToLower noFormat api_snippets "" 2 "" "name" "asc" None
              (world_of tree_five)) as [res w'] eqn:Hrun.
  vm_compute in Hrun. injection Hrun as <- <-.
  eexists _, _, _. split; [reflexivity|].
  split; [vm_compute; right; right; left; reflexivity|].
  split; [reflexivity|]. split; [reflexivity|]. split; [reflexivity|].
  vm_compute. intros [H|[H|[]]]; discriminate H.
Qed.

(** ** Paths of plain names *)

Lemma splitSep_plain (s : string) :
  forallb (fun c => negb (isSep c)) (list_ascii_of_string s) = true -> splitSep s = [s].
Proof.
  induction s as [|c s IH]; simpl; [reflexivity|].
  intros H. apply andb_true_iff in H as [Hc Hs].
  apply negb_true_iff in Hc. rewrite Hc, (IH Hs). reflexivity.
Qed.

Lemma plainName_split (name : string) : plainName name = true -> splitSep name = [name].
Proof.
  unfold plainName. intros H. apply andb_true_iff in H as [_ H]. apply splitSep_plain, H.
Qed.

Lemma plainName_kept (name : string) (acc rest : list string) :
  plainName name = true -> cleanUnder acc (name :: rest) = cleanUnder (name :: acc) rest.
Proof.
  unfold plainName. intros H.
  apply andb_true_iff in H as [H _]. apply andb_true_iff in H as [H H3].
  apply andb_true_iff in H as [H1 H2].
  apply negb_true_iff, bool_decide_eq_false in H1, H2, H3.
  simpl. rewrite !decide_False by assumption. reflexivity.
Qed.

Lemma filepath_Join_plain1 (a : string) :
  plainName a = true -> filepath_Join [a] = Some [a].
Proof.
  intros Ha. unfold filepath_Join. simpl. rewrite (plainName_split a Ha). simpl app.
  rewrite plainName_kept by exact Ha. reflexivity.
Qed.

Lemma filepath_Join_plain2 (a b : string) :
  plainName a = true -> plainName b = true -> filepath_Join [a; b] = Some [a; b].
Proof.
  intros Ha Hb. unfold filepath_Join. simpl.
  rewrite (plainName_split a Ha), (plainName_split b Hb). simpl app.
  rewrite !plainName_kept by assumption. reflexivity.
Qed.

Lemma plainTree_named (root : gmap string node) : plainTree root -> named root.
Proof.
  intros H. unfold named. destruct (root !! "") as [d|] eqn:E; [|reflexivity].
  destruct (H "" d E) as [Hp _]. discriminate Hp.
Qed.

Lemma plainTree_root (root : gmap string node) (name : string) (d : node) :
  plainTree root -> root !! name = Some d -> plainName name = true.
Proof. intros H Hl. apply (H name d Hl). Qed.

Lemma plainTree_child (root ch : gmap string node) (d n : string) (mt : Z) (x : node) :
  plainTree root -> root !! d = Some (Dir mt ch) -> ch !! n = Some x -> plainName n = true.
Proof. intros H Hd Hn. destruct (H d _ Hd) as [_ Hch]. apply (Hch n x Hn). Qed.

(** ** Distinct identifiers *)

Lemma NoDup_map_eq {A B} (f : A -> B) (l : list A) (x y : A) :
  List.NoDup (map f l) -> In x l -> In y l -> f x = f y -> x = y.
Proof.
  induction l as [|z l IH]; simpl; [tauto|].
  intros Hnd Hx Hy Hf. inversion Hnd as [|? ? Hnotin Hnd']; subst.
  destruct Hx as [->|Hx], Hy as [->|Hy]; try reflexivity.
  - exfalso. apply Hnotin. rewrite Hf. apply in_map, Hy.
  - exfalso. apply Hnotin. rewrite <- Hf. apply in_map, Hx.
  - apply IH; assumption.
Qed.

Lemma filter_none_in {A} (f : A -> bool) (l : list A) :
  (forall x, In x l -> f x = false) -> List.filter f l = [].
Proof.
  induction l as [|x l IH]; intros H; simpl; [reflexivity|].
  rewrite (H x) by (left; reflexivity). apply IH. intros; apply H; right; assumption.
Qed.

(** Among entries with distinct ids, the search by the id of [x] finds [x]
    alone. *)
Lemma filter_by_ID (p : filesystemEntry -> bool) (l : list filesystemEntry)
    (x : filesystemEntry) :
  List.NoDup (map ID l) -> In x l -> p x = true ->
  List.filter (fun entry => bool_decide (ID entry = ID x) && p entry) l = [x].
Proof.
  intros Hnd Hx Hp.
  induction l as [|y l IH]; [destruct Hx|].
  pose proof Hnd as Hnd0.
  simpl in Hnd. inversion Hnd as [|? ? Hnotin Hnd']; subst. simpl.
  destruct (decide (ID y = ID x)) as [Heq|Hne].
  - assert (y = x) as ->.
    { apply (NoDup_map_eq ID (y :: l)); [exact Hnd0 | left; reflexivity | exact Hx | exact Heq]. }
    rewrite bool_decide_eq_true_2 by reflexivity. rewrite Hp. simpl. f_equal.
    apply filter_none_in. intros z Hz.
    apply andb_false_iff. left. apply bool_decide_eq_false. intros E.
    apply Hnotin. rewrite <- E. apply in_map, Hz.
  - rewrite bool_decide_eq_false_2 by exact Hne. simpl.
    destruct Hx as [->|Hx]; [congruence|]. apply IH; assumption.
Qed.

Lemma find_first {A} (f : A -> bool) (l : list A) (x : A) :
  In x l -> f x = true -> exists t, List.find f l = Some t.
Proof.
  induction l as [|y l IH]; simpl; [tauto|].
  intros Hx Hf. destruct (f y) eqn:E; [eexists; reflexivity|].
  destruct Hx as [->|Hx]; [congruence|]. apply IH; assumption.
Qed.

Lemma find_nothing {A} (f : A -> bool) (l : list A) :
  (forall x, In x l -> f x = false) -> List.find f l = None.
Proof.
  induction l as [|y l IH]; intros H; simpl; [reflexivity|].
  rewrite (H y) by (left; reflexivity). apply IH. intros; apply H; right; assumption.
Qed.

(** ** Deleting a snippet *)

Lemma deleteSnippet_found (api : API) (id : string) (w : World) (target : filesystemEntry) :
  configured api -> named (fs w) ->
  List.find (fun entry => bool_decide (ID entry = id) && isFile entry) (entriesOf (fs w))
  = Some target ->
  deleteSnippet api id w
  = exceptNotExist (os_Remove (deletePath (entriesOf (fs w)) target)) w.
Proof.
  intros Hc Hn Hfind. unfold deleteSnippet.
  rewrite (run_bind_ok _ _ w w _ (getFilesystemEntries_entriesOf api w Hc Hn)).
  rewrite Hfind. unfold snippetsDir. rewrite decide_False by exact Hc.
  rewrite (run_bind_ok _ _ w w (SnippetsFolder (cfg api))) by reflexivity.
  reflexivity.
Qed.

Lemma deleteSnippet_absent (api : API) (id : string) (w : World) :
  configured api -> named (fs w) ->
  (forall e, In e (entriesOf (fs w)) -> Type_ e = "file" -> ID e <> id) ->
  deleteSnippet api id w = (Err errSnippetNotFound, w).
Proof.
  intros Hc Hn Hnone. unfold deleteSnippet.
  rewrite (run_bind_ok _ _ w w _ (getFilesystemEntries_entriesOf api w Hc Hn)).
  rewrite find_nothing; [reflexivity|].
  intros e He. apply not_true_is_false. intros H.
  apply andb_true_iff in H as [H1 H2].
  apply bool_decide_eq_true in H1. apply bool_decide_eq_true in H2.
  exact (Hnone e He H2 H1).
Qed.

Lemma deletePath_root (entries : list filesystemEntry) (target : filesystemEntry) :
  FolderID target = None ->
  deletePath entries target = filepath_Join [Name target +:+ ".sql"].
Proof. intros H. unfold deletePath. rewrite H. reflexivity. Qed.

Lemma deletePath_folder (entries : list filesystemEntry) (target : filesystemEntry)
    (f : string) :
  FolderID target = Some f ->
  deletePath entries target
  = filepath_Join
      (map Name (List.filter (fun entry => bool_decide (ID entry = f) && isFolder entry) entries)
       ++ [Name target +:+ ".sql"])%list.
Proof. intros H. unfold deletePath. rewrite H. reflexivity. Qed.

Lemma run_remove (w : World) (p : list string) (m : gmap string node) :
  removeAt (fs w) p = inr m ->
  exceptNotExist (os_Remove (Some p)) w = (Ok tt, mkWorld m (now w) (entropy w) (drawn w)).
Proof. intros H. unfold exceptNotExist, os_Remove, onTree. rewrite H. reflexivity. Qed.

Lemma run_remove_missing (w : World) (p : list string) :
  removeAt (fs w) p = inl ENOENT ->
  exceptNotExist (os_Remove (Some p)) w = (Ok tt, w).
Proof. intros H. unfold exceptNotExist, os_Remove, onTree. rewrite H. reflexivity. Qed.

(** C6, as amended.  On a configured repository whose tree has plain
    names and distinct ids, [deleteSnippet] on the id of an existing snippet
    succeeds and the snippet is gone, so that the same call made again
    returns [errSnippetNotFound]; and when the file [deleteSnippet] is about
    to remove is missing, the call succeeds and changes nothing. *)
Theorem deleteSnippet_then_not_found (api : API) (id : string) (w : World) :
  configured api -> plainTree (fs w) -> List.NoDup (map ID (entriesOf (fs w))) ->
  (exists e, In e (entriesOf (fs w)) /\ Type_ e = "file" /\ ID e = id) ->
  (exists w1,
     deleteSnippet api id w = (Ok tt, w1)
     /\ (forall e, In e (entriesOf (fs w1)) -> Type_ e = "file" -> ID e <> id)
     /\ deleteSnippet api id w1 = (Err errSnippetNotFound, w1))
  /\ (forall w0 target p,
        named (fs w0) ->
        List.find (fun entry => bool_decide (ID entry = id) && isFile entry)
                  (entriesOf (fs w0)) = Some target ->
        deletePath (entriesOf (fs w0)) target = Some p ->
        removeAt (fs w0) p = inl ENOENT ->
        deleteSnippet api id w0 = (Ok tt, w0)).
Proof.
  intros Hc Hp Hnd (e & He & Hfile & Hid).
  pose proof (plainTree_named _ Hp) as Hn.
  split.
  2:{ intros w0 target p Hn0 Hfind Hpath Hrm.
      rewrite (deleteSnippet_found api id w0 target Hc Hn0 Hfind), Hpath.
      apply run_remove_missing, Hrm. }
  set (es := entriesOf (fs w)) in *.
  assert (Hise : isFile e = true) by (apply bool_decide_eq_true; exact Hfile).
  destruct (find_first (fun entry => bool_decide (ID entry = id) && isFile entry) es e He)
    as [t Hfind].
  { rewrite Hise, andb_true_r. apply bool_decide_eq_true. exact Hid. }
  assert (t = e) as ->.
  { apply find_some in Hfind as [Ht Hb]. apply andb_true_iff in Hb as [Hb _].
    apply bool_decide_eq_true in Hb.
    apply (NoDup_map_eq ID es); [exact Hnd | exact Ht | exact He | congruence]. }
  rewrite (deleteSnippet_found api id w e Hc Hn Hfind). fold es.
  (* what is left to show once the tree after the removal is known *)
  assert (Hdone : forall m,
    named m ->
    (forall e', In e' (entriesOf m) -> Type_ e' = "file" -> In e' es /\ e' <> e) ->
    forall w1, fs w1 = m ->
    (forall e', In e' (entriesOf (fs w1)) -> Type_ e' = "file" -> ID e' <> id)
    /\ deleteSnippet api id w1 = (Err errSnippetNotFound, w1)).
  { intros m Hnm Hsub w1 Hw1. subst m.
    assert (Hgone : forall e', In e' (entriesOf (fs w1)) -> Type_ e' = "file" -> ID e' <> id).
    { intros e' He' Hf' Hid'. destruct (Hsub e' He' Hf') as [Hin Hne]. apply Hne.
      apply (NoDup_map_eq ID es); [exact Hnd | exact Hin | exact He | congruence]. }
    split; [exact Hgone|]. apply deleteSnippet_absent; assumption. }
  apply elem_entriesOf in He
    as [(d & mt & ch & _ & ->)|[(n & c & mt & Hl & Hs & ->)|
        (d & dmt & ch & n & c & mt & Hd & Hl & Hs & ->)]].
  - discriminate Hfile.
  - (* a snippet of the root *)
    assert (Hpath : deletePath es (fileEntry None n c mt) = Some [n]).
    { rewrite deletePath_root by reflexivity.
      rewrite (fileEntry_name None n c mt Hs).
      apply filepath_Join_plain1, (plainTree_root _ _ _ Hp Hl). }
    rewrite Hpath.
    assert (Hrm : removeAt (fs w) [n] = inr (delete n (fs w))) by (simpl; rewrite Hl; reflexivity).
    rewrite (run_remove w [n] _ Hrm).
    eexists. split; [reflexivity|].
    apply (Hdone (delete n (fs w))); [ | |reflexivity].
    + unfold named. rewrite lookup_delete_ne; [exact Hn|].
      intros ->. unfold named in Hn. congruence.
    + intros e' He' Hf'. apply elem_entriesOf in He'
        as [(d' & mt' & ch' & _ & ->)|[(n' & c' & mt' & Hl' & Hs' & ->)|
            (d' & dmt' & ch' & n' & c' & mt' & Hd' & Hl' & Hs' & ->)]].
      * discriminate Hf'.
      * apply lookup_delete_Some in Hl' as [Hne Hl'].
        split.
        -- apply elem_entriesOf. right. left. exists n', c', mt'. auto.
        -- intros Heq. apply (f_equal (fun x => Name x +:+ ".sql")) in Heq.
           rewrite !fileEntry_name in Heq by assumption. congruence.
      * apply lookup_delete_Some in Hd' as [Hne Hd'].
        split.
        -- apply elem_entriesOf. right. right. exists d', dmt', ch', n', c', mt'. auto.
        -- intros Heq. apply (f_equal FolderID) in Heq. discriminate Heq.
  - (* a snippet of a folder *)
    assert (Hfolder : In (folderEntry d dmt) es).
    { apply elem_entriesOf. left. exists d, dmt, ch. auto. }
    assert (Hpath : deletePath es (fileEntry (Some (identify [d])) n c mt) = Some [d; n]).
    { rewrite (deletePath_folder _ _ (ID (folderEntry d dmt))) by reflexivity.
      rewrite (filter_by_ID isFolder es (folderEntry d dmt) Hnd Hfolder eq_refl).
      rewrite (fileEntry_name (Some (identify [d])) n c mt Hs).
      change (map Name [folderEntry d dmt] ++ [n])%list with [d; n].
      apply filepath_Join_plain2;
        [apply (plainTree_root _ _ _ Hp Hd) | apply (plainTree_child _ _ _ _ _ _ Hp Hd Hl)]. }
    rewrite Hpath.
    assert (Hrm : removeAt (fs w) [d; n] = inr (<[d := Dir dmt (delete n ch)]> (fs w))).
    { simpl. rewrite Hd, Hl. reflexivity. }
    rewrite (run_remove w [d; n] _ Hrm).
    eexists. split; [reflexivity|].
    apply (Hdone (<[d := Dir dmt (delete n ch)]> (fs w))); [ | |reflexivity].
    + unfold named. rewrite lookup_insert_ne; [exact Hn|].
      intros ->. unfold named in Hn. congruence.
    + intros e' He' Hf'. apply elem_entriesOf in He'
        as [(d' & mt' & ch' & _ & ->)|[(n' & c' & mt' & Hl' & Hs' & ->)|
            (d' & dmt' & ch' & n' & c' & mt' & Hd' & Hl' & Hs' & ->)]].
      * discriminate Hf'.
      * assert (n' <> d) by (intros ->; rewrite lookup_insert_eq in Hl'; discriminate Hl').
        rewrite lookup_insert_ne in Hl' by congruence.
        split.
        -- apply elem_entriesOf. right. left. exists n', c', mt'. auto.
        -- intros Heq. apply (f_equal FolderID) in Heq. discriminate Heq.
      * destruct (decide (d' = d)) as [->|Hne].
        -- rewrite lookup_insert_eq in Hd'. injection Hd' as <- <-.
           apply lookup_delete_Some in Hl' as [Hne Hl'].
           split.
           ++ apply elem_entriesOf. right. right. exists d, dmt, ch, n', c', mt'. auto.
           ++ intros Heq. apply (f_equal (fun x => Name x +:+ ".sql")) in Heq.
              rewrite !fileEntry_name in Heq by assumption. congruence.
        -- rewrite lookup_insert_ne in Hd' by congruence.
           split.
           ++ apply elem_entriesOf. right. right. exists d', dmt', ch', n', c', mt'. auto.
           ++ intros Heq. apply (f_equal FolderID) in Heq.
              change (Some (identify [d']) = Some (identify [d])) in Heq.
              assert (Heq' : identify [d'] = identify [d]) by congruence.
              clear Heq. rename Heq' into Heq. apply Hne.
              assert (Hf2 : In (folderEntry d' dmt') es).
              { apply elem_entriesOf. left. exists d', dmt', ch'. auto. }
              assert (Hsame : folderEntry d' dmt' = folderEntry d dmt).
              { apply (NoDup_map_eq ID es); [exact Hnd | exact Hf2 | exact Hfolder | exact Heq]. }
              apply (f_equal Name) in Hsame. exact Hsame.
Qed.

Lemma deleteSnippet_then_not_found_witness :
  configured api_snippets /\ plainTree (fs (world_of tree_folder))
  /\ List.NoDup (map ID (entriesOf (fs (world_of tree_folder))))
  /\ exists w1,
       deleteSnippet api_snippets "b0b9ad79-8a2e-498c-8ad0-9d18f7f77de4" (world_of tree_folder)
       = (Ok tt, w1)
       /\ (forall e, In e (entriesOf (fs w1)) -> Type_ e = "file" ->
                     ID e <> "b0b9ad79-8a2e-498c-8ad0-9d18f7f77de4")
       /\ deleteSnippet api_snippets "b0b9ad79-8a2e-498c-8ad0-9d18f7f77de4" w1
          = (Err errSnippetNotFound, w1).
Proof.
  assert (Hc : configured api_snippets) by (vm_compute; discriminate).
  assert (Hp : plainTree (fs (world_of tree_folder)))
    by (refine (bool_decide_unpack _ _); vm_compute; exact I).
  assert (Hnd : List.NoDup (map ID (entriesOf (fs (world_of tree_folder))))).
  { vm_compute.
    repeat (apply List.NoDup_cons; [intros H; simpl in H; intuition discriminate|]).
    apply List.NoDup_nil. }
  split; [exact Hc|]. split; [exact Hp|]. split; [exact Hnd|].
  apply (deleteSnippet_then_not_found api_snippets "b0b9ad79-8a2e-498c-8ad0-9d18f7f77de4"
           (world_of tree_folder) Hc Hp Hnd).
  exists (fileEntry (Some (identify ["f"])) "a.sql" "select 1" 3).
  split; [vm_compute; right; right; left; reflexivity|].
  split; [reflexivity | vm_compute; reflexivity].
Defined.

(** C6 as stated fails: the id of [b.sql] names an existing snippet, the
    first [deleteSnippet] on it succeeds, and the second one, made right
    after it, returns [errSnippetNotFound]. *)
Lemma deleteSnippet_second_call_fails :
  (exists e, In e (entriesOf tree_folder) /\ Type_ e = "file" /\ Name e = "b"
             /\ ID e = "5a5ac3a1-659c-49db-934a-56a9a3f1acce")
  /\ fst (deleteSnippet api_snippets "5a5ac3a1-659c-49db-934a-56a9a3f1acce"
            (world_of tree_folder)) = Ok tt
  /\ fst (deleteSnippet api_snippets "5a5ac3a1-659c-49db-934a-56a9a3f1acce"
            (snd (deleteSnippet api_snippets "5a5ac3a1-659c-49db-934a-56a9a3f1acce"
                    (world_of tree_folder))))
     = Err errSnippetNotFound.
Proof.
  split.
  - exists (fileEntry None "b.sql" "select 2" 5).
    split; [vm_compute; left; reflexivity|].
    split; [reflexivity|]. split; [reflexivity | vm_compute; reflexivity].
  - split; vm_compute; reflexivity.
Qed.

(** The leniency for a missing file at work: the folders [Aa] and [BB] have
    the same id, so the path built for the snippet [x] of [Aa] is
    [Aa/BB/x.sql]; nothing is there, the call succeeds and removes
    nothing. *)
Example deleteSnippet_missing_path_succeeds :
  deleteSnippet api_snippets (identify [identify ["Aa"]; "x.sql"])
    (world_of tree_colliding_folders)
  = (Ok tt, world_of tree_colliding_folders).
Proof. vm_compute. reflexivity. Qed.

(** * Further properties of the repository *)

(** ** Calls that only read *)

Section ReadFacts.

Variable ToLower : string -> string.
Variable formatRFC3339 : Z -> string.

Lemma keeps_getSnippets api searchTerm limit cursor sortField sortOrder folderID :
  keeps (getSnippets ToLower formatRFC3339 api searchTerm limit cursor sortField sortOrder
           folderID).
Proof.
  unfold getSnippets. apply keeps_bind; [apply keeps_getFilesystemEntries|]. intros entries.
  destruct (pageOf _ _ _) as [[nextCursor page]|e]; [|apply keeps_fail].
  apply keeps_bind; [|intros; apply keeps_ret].
  apply keeps_loopMap. intros. apply keeps_buildSnippet.
Qed.

Lemma keeps_getSnippet api id : keeps (getSnippet formatRFC3339 api id).
Proof.
  unfold getSnippet. apply keeps_bind; [apply keeps_getFilesystemEntries|]. intros entries.
  destruct (List.find _ entries); [apply keeps_buildSnippet | apply keeps_fail].
Qed.

Lemma keeps_getFolders api folderID : keeps (getFolders api folderID).
Proof.
  unfold getFolders. apply keeps_bind; [apply keeps_getFilesystemEntries|].
  intros. apply keeps_ret.
Qed.

(** X1.  Listing snippets, getting a snippet and listing folders never
    change the directory tree, whatever their arguments and whether they
    return a value or an error. *)
Theorem reading_keeps_tree (api : API) (w : World) :
  (forall searchTerm limit cursor sortField sortOrder folderID,
      fs (snd (getSnippets ToLower formatRFC3339 api searchTerm limit cursor sortField
                 sortOrder folderID w)) = fs w)
  /\ (forall id, fs (snd (getSnippet formatRFC3339 api id w)) = fs w)
  /\ (forall folderID, fs (snd (getFolders api folderID w)) = fs w).
Proof.
  split; [|split]; intros.
  - apply keeps_getSnippets.
  - apply keeps_getSnippet.
  - apply keeps_getFolders.
Qed.

(** X2.  When no snippets folder is configured, every operation of the
    repository returns [errSnippetsFolderEnvNotSet] and leaves the world as
    it was. *)
Theorem unconfigured_fails_fast (api : API) (w : World) :
  SnippetsFolder (cfg api) = "" ->
  (forall searchTerm limit cursor sortField sortOrder folderID,
      getSnippets ToLower formatRFC3339 api searchTerm limit cursor sortField sortOrder
        folderID w = (Err errSnippetsFolderEnvNotSet, w))
  /\ (forall id, getSnippet formatRFC3339 api id w = (Err errSnippetsFolderEnvNotSet, w))
  /\ (forall s, saveSnippet formatRFC3339 api s w = (Err errSnippetsFolderEnvNotSet, w))
  /\ (forall id, deleteSnippet api id w = (Err errSnippetsFolderEnvNotSet, w))
  /\ (forall id updates,
        updateSnippet formatRFC3339 api id updates w = (Err errSnippetsFolderEnvNotSet, w))
  /\ (forall folderID, getFolders api folderID w = (Err errSnippetsFolderEnvNotSet, w))
  /\ (forall name, createFolder api name w = (Err errSnippetsFolderEnvNotSet, w))
  /\ (forall id, deleteFolder api id w = (Err errSnippetsFolderEnvNotSet, w)).
Proof.
  intros Hu.
  assert (Hscan : getFilesystemEntries api w = (Err errSnippetsFolderEnvNotSet, w)).
  { apply getFilesystemEntries_unconfigured. intros Hc. exact (Hc Hu). }
  repeat split; intros.
  - unfold getSnippets. apply (run_bind_err _ _ w w _ Hscan).
  - unfold getSnippet. apply (run_bind_err _ _ w w _ Hscan).
  - unfold saveSnippet. apply (run_bind_err _ _ w w _ Hscan).
  - unfold deleteSnippet. apply (run_bind_err _ _ w w _ Hscan).
  - unfold updateSnippet. apply (run_bind_err _ _ w w _ Hscan).
  - unfold getFolders. apply (run_bind_err _ _ w w _ Hscan).
  - unfold createFolder. apply run_bind_err. unfold snippetsDir.
    rewrite decide_True by exact Hu. reflexivity.
  - unfold deleteFolder. apply (run_bind_err _ _ w w _ Hscan).
Qed.

(** X3.  On a configured repository [getSnippet] returns
    [errSnippetNotFound] exactly when no file entry of the tree has the id
    (the id of a folder names no snippet); otherwise it returns the snippet
    of a file entry with that id, with that entry's name, content and folder
    and its modification time as both time stamps. *)
Theorem getSnippet_found_or_not (api : API) (id : string) (w : World) :
  configured api -> named (fs w) ->
  (fst (getSnippet formatRFC3339 api id w) = Err errSnippetNotFound
   <-> forall e, In e (entriesOf (fs w)) -> Type_ e = "file" -> ID e <> id)
  /\ ((exists e, In e (entriesOf (fs w)) /\ Type_ e = "file" /\ ID e = id) ->
      exists s w' e,
        getSnippet formatRFC3339 api id w = (Ok s, w')
        /\ In e (entriesOf (fs w)) /\ Type_ e = "file" /\ ID e = id
        /\ snippetKey s = entryKey e
        /\ InsertedAt s = formatRFC3339 (CreatedAt e)
        /\ UpdatedAt s = formatRFC3339 (CreatedAt e)).
Proof.
  intros Hc Hn.
  pose proof (getFilesystemEntries_entriesOf api w Hc Hn) as Hscan.
  assert (Hfound : forall e,
    List.find (fun entry => isFile entry && bool_decide (ID entry = id)) (entriesOf (fs w))
    = Some e ->
    exists s w',
      getSnippet formatRFC3339 api id w = (Ok s, w')
      /\ In e (entriesOf (fs w)) /\ Type_ e = "file" /\ ID e = id
      /\ snippetKey s = entryKey e
      /\ InsertedAt s = formatRFC3339 (CreatedAt e)
      /\ UpdatedAt s = formatRFC3339 (CreatedAt e)).
  { intros e Hfind. unfold getSnippet. rewrite (run_bind_ok _ _ w w _ Hscan), Hfind.
    apply find_some in Hfind as [He Hb]. apply andb_true_iff in Hb as [Hf Hid].
    apply bool_decide_eq_true in Hid.
    unfold buildSnippet.
    rewrite (run_bind_ok _ _ w w _ (deterministicUUID_idInputs _ _ w)).
    rewrite run_bind. simpl. eexists _, _. split; [reflexivity|].
    split; [exact He|]. split; [exact (bool_decide_eq_true_1 _ Hf)|]. split; [exact Hid|].
    split; [|split; reflexivity].
    unfold snippetKey, entryKey. simpl.
    rewrite (entriesOf_file_ID (fs w) e He Hf). reflexivity. }
  split; [split|].
  - intros Herr e He Hf Hid.
    destruct (find_first (fun entry => isFile entry && bool_decide (ID entry = id))
                (entriesOf (fs w)) e He) as [t Ht].
    { apply andb_true_iff. split; apply bool_decide_eq_true; assumption. }
    destruct (Hfound t Ht) as (s & w' & Hrun & _). rewrite Hrun in Herr. discriminate Herr.
  - intros Hnone. unfold getSnippet. rewrite (run_bind_ok _ _ w w _ Hscan).
    rewrite find_nothing; [reflexivity|].
    intros e He. apply not_true_is_false. intros Hb.
    apply andb_true_iff in Hb as [Hf Hid].
    apply bool_decide_eq_true in Hf. apply bool_decide_eq_true in Hid.
    exact (Hnone e He Hf Hid).
  - intros (e & He & Hf & Hid).
    destruct (find_first (fun entry => isFile entry && bool_decide (ID entry = id))
                (entriesOf (fs w)) e He) as [t Ht].
    { apply andb_true_iff. split; apply bool_decide_eq_true; assumption. }
    destruct (Hfound t Ht) as (s & w' & H). exists s, w', t. exact H.
Qed.

End ReadFacts.

Lemma unconfigured_fails_fast_witness :
  SnippetsFolder (cfg api_unconfigured) = ""
  /\ createFolder api_unconfigured "reports" world_empty
     = (Err errSnippetsFolderEnvNotSet, world_empty)
  /\ deleteSnippet api_unconfigured "6acd8c03-4c0e-4e34-8202-00dca1e2ccd6" (world_of tree_five)
     = (Err errSnippetsFolderEnvNotSet, world_of tree_five).
Proof.
  split; [reflexivity|].
  destruct (unconfigured_fails_fast asciiToLower noFormat api_unconfigured world_empty eq_refl)
    as (_ & _ & _ & _ & _ & _ & Hcreate & _).
  destruct (unconfigured_fails_fast asciiToLower noFormat api_unconfigured (world_of tree_five)
              eq_refl) as (_ & _ & _ & Hdelete & _).
  split; [apply Hcreate | apply Hdelete].
Defined.

Lemma getSnippet_found_or_not_witness :
  configured api_snippets /\ named (fs (world_of tree_folder))
  /\ fst (getSnippet noFormat api_snippets (identify ["f"]) (world_of tree_folder))
     = Err errSnippetNotFound
  /\ exists s w',
       getSnippet noFormat api_snippets (identify ["b.sql"]) (world_of tree_folder) = (Ok s, w')
       /\ snippet_ID s = identify ["b.sql"].
Proof.
  assert (Hc : configured api_snippets) by (vm_compute; discriminate).
  assert (Hn : named (fs (world_of tree_folder))) by (vm_compute; reflexivity).
  split; [exact Hc|]. split; [exact Hn|]. split.
  - destruct (getSnippet_found_or_not noFormat api_snippets (identify ["f"])
                (world_of tree_folder) Hc Hn) as [[_ Hnot] _].
    apply Hnot. intros e He Hf Hid. vm_compute in He.
    destruct He as [<-|[<-|[<-|[]]]]; vm_compute in Hid; vm_compute in Hf; congruence.
  - destruct (getSnippet_found_or_not noFormat api_snippets (identify ["b.sql"])
                (world_of tree_folder) Hc Hn) as [_ Hsome].
    destruct Hsome as (s & w' & e & Hrun & _ & _ & Hid & Hkey & _).
    + exists (fileEntry None "b.sql" "select 2" 5).
      split; [vm_compute; left; reflexivity|]. split; reflexivity.
    + exists s, w'. split; [exact Hrun|].
      unfold snippetKey, entryKey in Hkey. injection Hkey as Hk _ _ _. congruence.
Defined.

(** ** Names with the suffix [.sql] *)

Lemma append_length (a b : string) :
  String.length (a +:+ b) = (String.length a + String.length b)%nat.
Proof.
  induction a as [|c a IH]; [reflexivity|].
  change (S (String.length (a +:+ b)) = S (String.length a + String.length b)).
  f_equal. exact IH.
Qed.

Lemma append_chars (a b : string) :
  list_ascii_of_string (a +:+ b) = (list_ascii_of_string a ++ list_ascii_of_string b)%list.
Proof.
  induction a as [|c a IH]; [reflexivity|].
  change (c :: list_ascii_of_string (a +:+ b)
          = c :: (list_ascii_of_string a ++ list_ascii_of_string b)%list).
  f_equal. exact IH.
Qed.

Lemma dropS_append (a b : string) : dropS (String.length a) (a +:+ b) = b.
Proof. induction a as [|c a IH]; [destruct b; reflexivity | exact IH]. Qed.

Lemma takeS_append (a b : string) : takeS (String.length a) (a +:+ b) = a.
Proof.
  induction a as [|c a IH]; [destruct b; reflexivity|].
  change (String c (takeS (String.length a) (a +:+ b)) = String c a). f_equal. exact IH.
Qed.

Lemma HasSuffix_append (a suffix : string) : HasSuffix (a +:+ suffix) suffix = true.
Proof.
  unfold HasSuffix. rewrite append_length. apply andb_true_iff. split.
  - apply Nat.leb_le. lia.
  - apply bool_decide_eq_true.
    replace (String.length a + String.length suffix - String.length suffix)%nat
      with (String.length a) by lia.
    apply dropS_append.
Qed.

Lemma TrimSuffix_of_append (a suffix : string) : TrimSuffix (a +:+ suffix) suffix = a.
Proof.
  unfold TrimSuffix. rewrite HasSuffix_append, append_length.
  replace (String.length a + String.length suffix - String.length suffix)%nat
    with (String.length a) by lia.
  apply takeS_append.
Qed.

Lemma isSnippetFile_sql (name : string) : isSnippetFile (name +:+ ".sql") = true.
Proof. apply isSnippetFile_suffix, HasSuffix_append. Qed.

(** The entry of the file [name.sql] has the name [name]. *)
Lemma fileEntry_sql (folderID : option string) (name content : string) (mt : Z) :
  fileEntry folderID (name +:+ ".sql") content mt
  = mkEntry (identify (idInputs folderID name)) name "file" folderID content mt.
Proof. unfold fileEntry. rewrite TrimSuffix_of_append. reflexivity. Qed.

(** ** Names the sanitizer lets pass *)

Lemma sanitizeName_fixed (name : string) :
  sanitizeName name = name -> name = "" \/ (filepath_Base name = name /\ Contains name NUL = false).
Proof.
  unfold sanitizeName. intros H.
  destruct (bool_decide (filepath_Base name = name)) eqn:Hb; simpl in H.
  - destruct (Contains name NUL) eqn:Hc; [left; congruence|].
    right. split; [apply bool_decide_eq_true in Hb; exact Hb | reflexivity].
  - left. congruence.
Qed.

Lemma sanitizeName_no_sep (name : string) :
  sanitizeName name = name -> name <> "/" ->
  forallb (fun c => negb (isSep c)) (list_ascii_of_string name) = true.
Proof.
  intros Hs Hne. apply forallb_forall. intros c Hc.
  apply negb_true_iff, bool_decide_eq_false. intros ->.
  destruct (sanitizeName_fixed name Hs) as [->|[Hb _]]; [destruct Hc|].
  rewrite <- Hb in Hc. apply filepath_Base_no_sep in Hc. congruence.
Qed.

(** A sanitized name other than the root path gives a plain file name. *)
Lemma sanitized_sql_plain (name : string) :
  sanitizeName name = name -> name <> "/" -> plainName (name +:+ ".sql") = true.
Proof.
  intros Hs Hne. unfold plainName.
  assert (Hlen : (4 <= String.length (name +:+ ".sql"))%nat)
    by (rewrite append_length; simpl; lia).
  repeat (apply andb_true_iff; split).
  - apply negb_true_iff, bool_decide_eq_false. intros H. rewrite H in Hlen. simpl in Hlen. lia.
  - apply negb_true_iff, bool_decide_eq_false. intros H. rewrite H in Hlen. simpl in Hlen. lia.
  - apply negb_true_iff, bool_decide_eq_false. intros H. rewrite H in Hlen. simpl in Hlen. lia.
  - rewrite append_chars, forallb_app, (sanitizeName_no_sep name Hs Hne). reflexivity.
Qed.

(** ** The scan of a changed tree *)

(** After a file is written at the root: the entries are the entry of that
    file and the entries the tree had under other names. *)
Lemma entriesOf_insert_file (root : gmap string node) (k c : string) (t : Z)
    (e : filesystemEntry) :
  (forall mt ch, root !! k <> Some (Dir mt ch)) ->
  In e (entriesOf (<[k := File c t]> root)) ->
  (isSnippetFile k = true /\ e = fileEntry None k c t)
  \/ (In e (entriesOf root)
      /\ ~ (Type_ e = "file" /\ FolderID e = None /\ Name e +:+ ".sql" = k)).
Proof.
  intros Hdir He. apply elem_entriesOf in He
    as [(d & mt & ch & Hd & ->)|[(n & c' & mt & Hl & Hs & ->)|
        (d & dmt & ch & n & c' & mt & Hd & Hl & Hs & ->)]].
  - right. assert (d <> k) by (intros ->; rewrite lookup_insert_eq in Hd; discriminate Hd).
    rewrite lookup_insert_ne in Hd by congruence. split.
    + apply elem_entriesOf. left. exists d, mt, ch. auto.
    + intros [Hf _]. discriminate Hf.
  - destruct (decide (n = k)) as [->|Hne].
    + rewrite lookup_insert_eq in Hl. injection Hl as <- <-. left. auto.
    + right. rewrite lookup_insert_ne in Hl by congruence. split.
      * apply elem_entriesOf. right. left. exists n, c', mt. auto.
      * intros (_ & _ & Hname). rewrite fileEntry_name in Hname by exact Hs. congruence.
  - right. assert (d <> k) by (intros ->; rewrite lookup_insert_eq in Hd; discriminate Hd).
    rewrite lookup_insert_ne in Hd by congruence. split.
    + apply elem_entriesOf. right. right. exists d, dmt, ch, n, c', mt. auto.
    + intros (_ & Hf & _). discriminate Hf.
Qed.

Lemma entriesOf_insert_file_new (root : gmap string node) (k c : string) (t : Z) :
  isSnippetFile k = true -> In (fileEntry None k c t) (entriesOf (<[k := File c t]> root)).
Proof.
  intros Hs. apply elem_entriesOf. right. left. exists k, c, t.
  rewrite lookup_insert_eq. auto.
Qed.

(** The folder entries of the tree are not touched by a file written at the
    root. *)
Lemma entriesOf_insert_file_folders (root : gmap string node) (k c : string) (t : Z)
    (e : filesystemEntry) :
  (forall mt ch, root !! k <> Some (Dir mt ch)) ->
  Type_ e = "folder" ->
  In e (entriesOf (<[k := File c t]> root)) <-> In e (entriesOf root).
Proof.
  intros Hdir Hf. split.
  - intros He. apply entriesOf_insert_file in He as [[_ ->]|[He _]]; [discriminate Hf| |];
      assumption.
  - intros He. apply elem_entriesOf in He
      as [(d & mt & ch & Hd & ->)|[(n & c' & mt & _ & _ & ->)|
          (d & dmt & ch & n & c' & mt & _ & _ & _ & ->)]]; try discriminate Hf.
    apply elem_entriesOf. left. exists d, mt, ch. split; [|reflexivity].
    rewrite lookup_insert_ne; [exact Hd|]. intros <-. exact (Hdir _ _ Hd).
Qed.

(** ** Saving a snippet *)

Section SaveMoreFacts.

Variable formatRFC3339 : Z -> string.

Lemma getSnippet_of_find (api : API) (id : string) (w : World) (e : filesystemEntry) :
  configured api -> named (fs w) ->
  List.find (fun entry => isFile entry && bool_decide (ID entry = id)) (entriesOf (fs w))
  = Some e ->
  exists s w',
    getSnippet formatRFC3339 api id w = (Ok s, w')
    /\ snippetKey s = entryKey e
    /\ InsertedAt s = formatRFC3339 (CreatedAt e)
    /\ UpdatedAt s = formatRFC3339 (CreatedAt e).
Proof.
  intros Hc Hn Hfind. unfold getSnippet.
  rewrite (run_bind_ok _ _ w w _ (getFilesystemEntries_entriesOf api w Hc Hn)), Hfind.
  apply find_some in Hfind as [He Hb]. apply andb_true_iff in Hb as [Hf _].
  unfold buildSnippet.
  rewrite (run_bind_ok _ _ w w _ (deterministicUUID_idInputs _ _ w)).
  rewrite run_bind. simpl. eexists _, _. split; [reflexivity|].
  split; [|split; reflexivity].
  unfold snippetKey, entryKey. simpl.
  rewrite (entriesOf_file_ID (fs w) e He Hf). reflexivity.
Qed.

Lemma existsb_none {A} (f : A -> bool) (l : list A) :
  (forall x, In x l -> f x = false) -> existsb f l = false.
Proof.
  intros H. apply not_true_is_false. intros Hex.
  apply existsb_exists in Hex as (x & Hx & Hf). rewrite (H x Hx) in Hf. discriminate Hf.
Qed.

Lemma no_file_with_ID (entries : list filesystemEntry) (id : string) :
  (forall e, In e entries -> Type_ e = "file" -> ID e <> id) ->
  existsb (fun entry => bool_decide (ID entry = id) && isFile entry) entries = false.
Proof.
  intros H. apply existsb_none. intros e He. apply not_true_is_false. intros Hb.
  apply andb_true_iff in Hb as [H1 H2].
  apply bool_decide_eq_true in H1. apply bool_decide_eq_true in H2. exact (H e He H2 H1).
Qed.

(** A snippet without folder, with a sanitized name and an unused id, is
    written to the file of its name at the root. *)
Lemma saveSnippet_at_root (api : API) (newSnippet : snippet) (w : World) :
  configured api -> named (fs w) ->
  sanitizeName (snippet_Name newSnippet) = snippet_Name newSnippet ->
  snippet_Name newSnippet <> "/" ->
  snippet_FolderID newSnippet = None ->
  (forall e, In e (entriesOf (fs w)) -> Type_ e = "file" -> ID e <> snippet_ID newSnippet) ->
  (forall mt ch, fs w !! (snippet_Name newSnippet +:+ ".sql") <> Some (Dir mt ch)) ->
  exists saved w1,
    saveSnippet formatRFC3339 api newSnippet w = (Ok saved, w1)
    /\ fs w1 = <[snippet_Name newSnippet +:+ ".sql"
                 := File (SQL (snippet_Content newSnippet)) (now w)]> (fs w)
    /\ now w1 = now w
    /\ snippetKey saved
       = (identify [snippet_Name newSnippet +:+ ".sql"], snippet_Name newSnippet,
          SQL (snippet_Content newSnippet), None)
    /\ InsertedAt saved = formatRFC3339 (now w)
    /\ UpdatedAt saved = formatRFC3339 (now w).
Proof.
  intros Hc Hn Hs Hroot Hf Hid Hdir.
  set (name := snippet_Name newSnippet) in *.
  set (content := SQL (snippet_Content newSnippet)).
  unfold saveSnippet.
  rewrite (run_bind_ok _ _ w w _ (getFilesystemEntries_entriesOf api w Hc Hn)).
  rewrite (no_file_with_ID _ _ Hid), Hf. fold name. rewrite Hs.
  rewrite (run_bind_ok _ _ w w tt) by reflexivity.
  unfold snippetsDir. rewrite decide_False by exact Hc.
  rewrite (run_bind_ok _ _ w w (SnippetsFolder (cfg api))) by reflexivity.
  change ([] ++ [name +:+ ".sql"])%list with [name +:+ ".sql"].
  rewrite (filepath_Join_plain1 _ (sanitized_sql_plain name Hs Hroot)).
  fold content.
  set (w1 := mkWorld (<[name +:+ ".sql" := File content (now w)]> (fs w))
                     (now w) (entropy w) (drawn w)).
  assert (Hw : os_WriteFile (Some [name +:+ ".sql"]) content w = (Ok tt, w1)).
  { unfold os_WriteFile, onTree. simpl.
    destruct (fs w !! (name +:+ ".sql")) as [[c mt|mt ch]|] eqn:E; try reflexivity.
    destruct (Hdir mt ch eq_refl). }
  rewrite (run_bind_ok _ _ w w1 tt Hw).
  assert (Hst : os_Stat (Some [name +:+ ".sql"]) w1 = (Ok (now w), w1)).
  { unfold os_Stat. simpl. rewrite lookup_insert_eq. reflexivity. }
  rewrite (run_bind_ok _ _ w1 w1 _ Hst).
  unfold buildSnippet.
  rewrite (run_bind_ok _ _ w1 w1 _ (deterministicUUID_idInputs None name w1)).
  rewrite run_bind. simpl. eexists _, _. split; [reflexivity|].
  repeat split.
Qed.

(** X4.  Save, then get.  On a configured repository, a snippet without
    folder whose name the sanitizer leaves as it is and is not the root path
    [/], handed in with an id no snippet has, where no directory stands at
    [name.sql] in the root, is written to [name.sql] at the root (replacing
    a file of that name); the returned snippet carries the id of
    [[name.sql]], not the id handed in; and when no other snippet has that
    id, [getSnippet] on it returns the name and the content just saved. *)
Theorem saveSnippet_then_getSnippet (api : API) (newSnippet : snippet) (w : World) :
  configured api -> named (fs w) ->
  sanitizeName (snippet_Name newSnippet) = snippet_Name newSnippet ->
  snippet_Name newSnippet <> "/" ->
  snippet_FolderID newSnippet = None ->
  (forall e, In e (entriesOf (fs w)) -> Type_ e = "file" -> ID e <> snippet_ID newSnippet) ->
  (forall mt ch, fs w !! (snippet_Name newSnippet +:+ ".sql") <> Some (Dir mt ch)) ->
  (forall e, In e (entriesOf (fs w)) -> Type_ e = "file" ->
             ID e = identify [snippet_Name newSnippet +:+ ".sql"] ->
             FolderID e = None /\ Name e = snippet_Name newSnippet) ->
  exists saved w1 got w2,
    saveSnippet formatRFC3339 api newSnippet w = (Ok saved, w1)
    /\ fs w1 = <[snippet_Name newSnippet +:+ ".sql"
                 := File (SQL (snippet_Content newSnippet)) (now w)]> (fs w)
    /\ snippetKey saved
       = (identify [snippet_Name newSnippet +:+ ".sql"], snippet_Name newSnippet,
          SQL (snippet_Content newSnippet), None)
    /\ getSnippet formatRFC3339 api (snippet_ID saved) w1 = (Ok got, w2)
    /\ snippetKey got = snippetKey saved
    /\ InsertedAt got = InsertedAt saved.
Proof.
  intros Hc Hn Hs Hroot Hf Hid Hdir Hown.
  destruct (saveSnippet_at_root api newSnippet w Hc Hn Hs Hroot Hf Hid Hdir)
    as (saved & w1 & Hsave & Hfs & Hnow & Hkey & Hins & _).
  set (name := snippet_Name newSnippet) in *.
  set (content := SQL (snippet_Content newSnippet)) in *.
  assert (Hsid : snippet_ID saved = identify [name +:+ ".sql"]).
  { unfold snippetKey in Hkey. injection Hkey as Hk _ _ _. exact Hk. }
  assert (Hn1 : named (fs w1)).
  { rewrite Hfs. unfold named. rewrite lookup_insert_ne; [exact Hn|].
    intros H. apply (f_equal String.length) in H. rewrite append_length in H.
    simpl in H. lia. }
  assert (Hnew : In (fileEntry None (name +:+ ".sql") content (now w)) (entriesOf (fs w1))).
  { rewrite Hfs. apply entriesOf_insert_file_new, isSnippetFile_sql. }
  destruct (find_first (fun entry => isFile entry && bool_decide (ID entry = snippet_ID saved))
              (entriesOf (fs w1)) _ Hnew) as [t Ht].
  { apply andb_true_iff. split; [reflexivity|]. apply bool_decide_eq_true.
    rewrite Hsid, fileEntry_sql. reflexivity. }
  destruct (getSnippet_of_find api (snippet_ID saved) w1 t Hc Hn1 Ht)
    as (got & w2 & Hget & Hgk & Hgi & _).
  exists saved, w1, got, w2.
  split; [exact Hsave|]. split; [exact Hfs|]. split; [exact Hkey|]. split; [exact Hget|].
  apply find_some in Ht as [Hin Hb]. apply andb_true_iff in Hb as [Hfile Htid].
  apply bool_decide_eq_true in Hfile. apply bool_decide_eq_true in Htid.
  rewrite Hfs in Hin. apply entriesOf_insert_file in Hin as [[_ ->]|[Hold Hnot]].
  - rewrite Hgk, Hkey, Hgi, Hins, fileEntry_sql. split; reflexivity.
  - exfalso. apply Hnot. rewrite Hsid in Htid.
    destruct (Hown t Hold Hfile Htid) as [H1 H2]. rewrite H2. auto.
  - exact Hdir.
Qed.

(** X5.  What [saveSnippet] refuses.  On a configured repository it
    returns [errSnippetAlreadyExists] when a snippet has the id handed in
    (whatever the name and the folder), and otherwise [errFolderNotFound]
    when the folder id handed in is the id of no folder; in both cases the
    world is as it was. *)
Theorem saveSnippet_refusals (api : API) (newSnippet : snippet) (w : World) :
  configured api -> named (fs w) ->
  ((exists e, In e (entriesOf (fs w)) /\ Type_ e = "file" /\ ID e = snippet_ID newSnippet) ->
   saveSnippet formatRFC3339 api newSnippet w = (Err errSnippetAlreadyExists, w))
  /\ ((forall e, In e (entriesOf (fs w)) -> Type_ e = "file" -> ID e <> snippet_ID newSnippet) ->
      forall f, snippet_FolderID newSnippet = Some f ->
      (forall e, In e (entriesOf (fs w)) -> Type_ e = "folder" -> ID e <> f) ->
      saveSnippet formatRFC3339 api newSnippet w = (Err errFolderNotFound, w)).
Proof.
  intros Hc Hn.
  pose proof (getFilesystemEntries_entriesOf api w Hc Hn) as Hscan.
  split.
  - intros (e & He & Hf & Hid). unfold saveSnippet. rewrite (run_bind_ok _ _ w w _ Hscan).
    assert (Hex : existsb (fun entry => bool_decide (ID entry = snippet_ID newSnippet)
                                        && isFile entry) (entriesOf (fs w)) = true).
    { apply existsb_exists. exists e. split; [exact He|].
      apply andb_true_iff. split; apply bool_decide_eq_true; assumption. }
    rewrite Hex. reflexivity.
  - intros Hnone f Hf Hnof. unfold saveSnippet. rewrite (run_bind_ok _ _ w w _ Hscan).
    rewrite (no_file_with_ID _ _ Hnone), Hf.
    assert (Hex : existsb (fun entry => bool_decide (ID entry = f) && isFolder entry)
                          (entriesOf (fs w)) = false).
    { apply existsb_none. intros e He. apply not_true_is_false. intros Hb.
      apply andb_true_iff in Hb as [H1 H2].
      apply bool_decide_eq_true in H1. apply bool_decide_eq_true in H2.
      exact (Hnof e He H2 H1). }
    rewrite Hex. reflexivity.
Qed.

End SaveMoreFacts.

Lemma saveSnippet_then_getSnippet_witness :
  exists saved w1 got w2,
    saveSnippet noFormat api_snippets (requestSnippet "new" "a" "select 42" None)
      (world_of tree_five) = (Ok saved, w1)
    /\ fs w1 = <["a.sql" := File "select 42" 1000]> tree_five
    /\ snippetKey saved = (identify ["a.sql"], "a", "select 42", None)
    /\ getSnippet noFormat api_snippets (snippet_ID saved) w1 = (Ok got, w2)
    /\ snippetKey got = snippetKey saved
    /\ InsertedAt got = InsertedAt saved.
Proof.
  apply (saveSnippet_then_getSnippet noFormat api_snippets
           (requestSnippet "new" "a" "select 42" None) (world_of tree_five)).
  - vm_compute. discriminate.
  - vm_compute. reflexivity.
  - reflexivity.
  - discriminate.
  - reflexivity.
  - intros e He Hf Hid. vm_compute in He.
    destruct He as [<-|[<-|[<-|[<-|[<-|[]]]]]]; vm_compute in Hid; discriminate Hid.
  - intros mt ch. vm_compute. discriminate.
  - intros e He Hf Hid. vm_compute in He.
    destruct He as [<-|[<-|[<-|[<-|[<-|[]]]]]]; vm_compute in Hid;
      try discriminate Hid; split; reflexivity.
Defined.

Lemma saveSnippet_refusals_witness :
  saveSnippet noFormat api_snippets
    (requestSnippet (identify ["b.sql"]) "fresh" "select 1" None) (world_of tree_folder)
  = (Err errSnippetAlreadyExists, world_of tree_folder)
  /\ saveSnippet noFormat api_snippets
       (requestSnippet "new" "fresh" "select 1" (Some "no-such-folder")) (world_of tree_folder)
     = (Err errFolderNotFound, world_of tree_folder).
Proof.
  assert (Hc : configured api_snippets) by (vm_compute; discriminate).
  assert (Hn : named (fs (world_of tree_folder))) by (vm_compute; reflexivity).
  split.
  - apply (saveSnippet_refusals noFormat api_snippets _ (world_of tree_folder) Hc Hn).
    exists (fileEntry None "b.sql" "select 2" 5).
    split; [vm_compute; left; reflexivity|]. split; reflexivity.
  - apply (proj2 (saveSnippet_refusals noFormat api_snippets
                    (requestSnippet "new" "fresh" "select 1" (Some "no-such-folder"))
                    (world_of tree_folder) Hc Hn)) with (f := "no-such-folder").
    + intros e He Hf Hid. vm_compute in He.
      destruct He as [<-|[<-|[<-|[]]]]; vm_compute in Hid; discriminate Hid.
    + reflexivity.
    + intros e He Hf Hid. vm_compute in He.
      destruct He as [<-|[<-|[<-|[]]]]; vm_compute in Hid; discriminate Hid.
Defined.

(** ** Folders *)

Lemma sanitized_plain (name : string) :
  sanitizeName name = name ->
  name <> "" -> name <> "." -> name <> ".." -> name <> "/" ->
  plainName name = true.
Proof.
  intros Hs H1 H2 H3 H4. unfold plainName.
  rewrite !bool_decide_eq_false_2 by assumption. simpl.
  apply sanitizeName_no_sep; assumption.
Qed.

Lemma folder_with_Name (entries : list filesystemEntry) (name : string) :
  (forall e, In e entries -> Type_ e = "folder" -> Name e <> name) ->
  existsb (fun entry => isFolder entry && bool_decide (Name entry = name)) entries = false.
Proof.
  intros H. apply existsb_none. intros e He. apply not_true_is_false. intros Hb.
  apply andb_true_iff in Hb as [H1 H2].
  apply bool_decide_eq_true in H1. apply bool_decide_eq_true in H2. exact (H e He H1 H2).
Qed.

Lemma run_entriesOrNone (api : API) (w : World) :
  configured api -> named (fs w) -> entriesOrNone api w = (Ok (entriesOf (fs w)), w).
Proof.
  intros Hc Hn. unfold entriesOrNone.
  rewrite (getFilesystemEntries_entriesOf api w Hc Hn). reflexivity.
Qed.

Lemma createFolder_run (api : API) (name : string) (w : World) :
  configured api -> named (fs w) -> sanitizeName name = name -> name <> "" ->
  createFolder api name w
  = (if existsb (fun entry => isFolder entry && bool_decide (Name entry = name))
                (entriesOf (fs w))
     then fail errFolderAlreadyExists
     else
       _ ← os_MkdirAll (filepath_Join [name]);
       id ← deterministicUUID [name];
       ret (mkFolder id name 1 None 1)) w.
Proof.
  intros Hc Hn Hs Hne. unfold createFolder, snippetsDir.
  rewrite decide_False by exact Hc.
  rewrite (run_bind_ok _ _ w w (SnippetsFolder (cfg api))) by reflexivity.
  rewrite Hs. rewrite bool_decide_eq_false_2 by exact Hne.
  rewrite (run_bind_ok _ _ w w _ (run_entriesOrNone api w Hc Hn)). reflexivity.
Qed.



Lemma deleteFolder_found (api : API) (id : string) (w : World) (target : filesystemEntry) :
  configured api -> named (fs w) ->
  List.find (fun entry => isFolder entry && bool_decide (ID entry = id)) (entriesOf (fs w))
  = Some target ->
  deleteFolder api id w = os_RemoveAll (filepath_Join [Name target]) w.
Proof.
  intros Hc Hn Hfind. unfold deleteFolder.
  rewrite (run_bind_ok _ _ w w _ (getFilesystemEntries_entriesOf api w Hc Hn)), Hfind.
  unfold snippetsDir. rewrite decide_False by exact Hc.
  rewrite (run_bind_ok _ _ w w (SnippetsFolder (cfg api))) by reflexivity. reflexivity.
Qed.

Lemma deleteFolder_absent (api : API) (id : string) (w : World) :
  configured api -> named (fs w) ->
  (forall e, In e (entriesOf (fs w)) -> Type_ e = "folder" -> ID e <> id) ->
  deleteFolder api id w = (Err errFolderNotFound, w).
Proof.
  intros Hc Hn Hnone. unfold deleteFolder.
  rewrite (run_bind_ok _ _ w w _ (getFilesystemEntries_entriesOf api w Hc Hn)).
  rewrite find_nothing; [reflexivity|].
  intros e He. apply not_true_is_false. intros Hb.
  apply andb_true_iff in Hb as [H1 H2].
  apply bool_decide_eq_true in H1. apply bool_decide_eq_true in H2. exact (Hnone e He H1 H2).
Qed.

(** The entries of the tree once a directory of the root is removed. *)
Lemma entriesOf_delete_dir (root ch : gmap string node) (d : string) (mt : Z)
    (e : filesystemEntry) :
  root !! d = Some (Dir mt ch) ->
  List.NoDup (map ID (entriesOf root)) ->
  In e (entriesOf (delete d root)) <->
  In e (entriesOf root) /\ e <> folderEntry d mt /\ FolderID e <> Some (identify [d]).
Proof.
  intros Hd Hnd.
  assert (Hfolder : In (folderEntry d mt) (entriesOf root)).
  { apply elem_entriesOf. left. exists d, mt, ch. auto. }
  assert (Hsame : forall d' mt' ch', root !! d' = Some (Dir mt' ch') ->
                  identify [d'] = identify [d] -> d' = d).
  { intros d' mt' ch' Hd' Hid.
    assert (Hf2 : In (folderEntry d' mt') (entriesOf root)).
    { apply elem_entriesOf. left. exists d', mt', ch'. auto. }
    assert (Heq : folderEntry d' mt' = folderEntry d mt)
      by (apply (NoDup_map_eq ID (entriesOf root)); assumption).
    apply (f_equal Name) in Heq. exact Heq. }
  split.
  - intros He. apply elem_entriesOf in He
      as [(d' & mt' & ch' & Hd' & ->)|[(n & c & t & Hl & Hs & ->)|
          (d' & dmt' & ch' & n & c & t & Hd' & Hl & Hs & ->)]].
    + apply lookup_delete_Some in Hd' as [Hne Hd']. split; [|split].
      * apply elem_entriesOf. left. exists d', mt', ch'. auto.
      * intros Heq. apply (f_equal Name) in Heq. simpl in Heq. congruence.
      * discriminate.
    + apply lookup_delete_Some in Hl as [Hne Hl]. split; [|split].
      * apply elem_entriesOf. right. left. exists n, c, t. auto.
      * intros Heq. apply (f_equal Type_) in Heq. discriminate Heq.
      * discriminate.
    + apply lookup_delete_Some in Hd' as [Hne Hd']. split; [|split].
      * apply elem_entriesOf. right. right. exists d', dmt', ch', n, c, t. auto.
      * intros Heq. apply (f_equal Type_) in Heq. discriminate Heq.
      * change (Some (identify [d']) <> Some (identify [d])). intros Heq.
        apply Hne. symmetry. apply (Hsame d' dmt' ch' Hd'). congruence.
  - intros (He & Hne & Hfid). apply elem_entriesOf in He
      as [(d' & mt' & ch' & Hd' & ->)|[(n & c & t & Hl & Hs & ->)|
          (d' & dmt' & ch' & n & c & t & Hd' & Hl & Hs & ->)]].
    + assert (d' <> d).
      { intros ->. rewrite Hd in Hd'. injection Hd' as <- <-. apply Hne. reflexivity. }
      apply elem_entriesOf. left. exists d', mt', ch'.
      rewrite lookup_delete_ne by congruence. auto.
    + assert (n <> d) by (intros ->; rewrite Hd in Hl; discriminate Hl).
      apply elem_entriesOf. right. left. exists n, c, t.
      rewrite lookup_delete_ne by congruence. auto.
    + assert (d' <> d) by (intros ->; apply Hfid; reflexivity).
      apply elem_entriesOf. right. right. exists d', dmt', ch', n, c, t.
      rewrite lookup_delete_ne by congruence. auto.
Qed.

Section FolderFacts.

Variable formatRFC3339 : Z -> string.

Lemma getSnippet_absent (api : API) (id : string) (w : World) :
  configured api -> named (fs w) ->
  (forall e, In e (entriesOf (fs w)) -> Type_ e = "file" -> ID e <> id) ->
  getSnippet formatRFC3339 api id w = (Err errSnippetNotFound, w).
Proof.
  intros Hc Hn Hnone. unfold getSnippet.
  rewrite (run_bind_ok _ _ w w _ (getFilesystemEntries_entriesOf api w Hc Hn)).
  rewrite find_nothing; [reflexivity|].
  intros e He. apply not_true_is_false. intros Hb.
  apply andb_true_iff in Hb as [H1 H2].
  apply bool_decide_eq_true in H1. apply bool_decide_eq_true in H2. exact (Hnone e He H1 H2).
Qed.

(** X7.  Deleting a folder.  On a configured repository whose tree has
    plain names and distinct ids, [deleteFolder] on the id of a directory of
    the root removes the directory with all it holds: of the entries of the
    tree exactly the folder entry and the entries of the snippets of that
    folder disappear, [getSnippet] on the id of such a snippet returns
    [errSnippetNotFound], and [deleteFolder] on the same id again returns
    [errFolderNotFound]. *)
Theorem deleteFolder_cascade (api : API) (d : string) (mt : Z) (ch : gmap string node)
    (w : World) :
  configured api -> plainTree (fs w) -> List.NoDup (map ID (entriesOf (fs w))) ->
  fs w !! d = Some (Dir mt ch) ->
  exists w1,
    deleteFolder api (identify [d]) w = (Ok tt, w1)
    /\ fs w1 = delete d (fs w)
    /\ (forall e, In e (entriesOf (fs w1)) <->
                  In e (entriesOf (fs w)) /\ e <> folderEntry d mt
                  /\ FolderID e <> Some (identify [d]))
    /\ (forall n c t,
          ch !! n = Some (File c t) -> HasSuffix n ".sql" = true ->
          getSnippet formatRFC3339 api (identify [identify [d]; n]) w1
          = (Err errSnippetNotFound, w1))
    /\ deleteFolder api (identify [d]) w1 = (Err errFolderNotFound, w1).
Proof.
  intros Hc Hp Hnd Hd.
  pose proof (plainTree_named _ Hp) as Hn.
  assert (Hfolder : In (folderEntry d mt) (entriesOf (fs w))).
  { apply elem_entriesOf. left. exists d, mt, ch. auto. }
  destruct (find_first (fun entry => isFolder entry && bool_decide (ID entry = identify [d]))
              (entriesOf (fs w)) _ Hfolder) as [t Ht].
  { apply andb_true_iff. split; apply bool_decide_eq_true; reflexivity. }
  assert (t = folderEntry d mt) as ->.
  { apply find_some in Ht as [Hin Hb]. apply andb_true_iff in Hb as [_ Hb].
    apply bool_decide_eq_true in Hb.
    apply (NoDup_map_eq ID (entriesOf (fs w))); assumption. }
  set (w1 := mkWorld (delete d (fs w)) (now w) (entropy w) (drawn w)).
  assert (Hrun : deleteFolder api (identify [d]) w = (Ok tt, w1)).
  { rewrite (deleteFolder_found api _ w _ Hc Hn Ht).
    change (Name (folderEntry d mt)) with d.
    rewrite (filepath_Join_plain1 d (plainTree_root _ _ _ Hp Hd)).
    unfold os_RemoveAll, onTree. reflexivity. }
  assert (Hn1 : named (fs w1)).
  { unfold named. simpl. rewrite lookup_delete_ne; [exact Hn|].
    intros E. rewrite E in Hd. unfold named in Hn. congruence. }
  assert (Hentries : forall e, In e (entriesOf (fs w1)) <->
                     In e (entriesOf (fs w)) /\ e <> folderEntry d mt
                     /\ FolderID e <> Some (identify [d])).
  { intros e. apply (entriesOf_delete_dir (fs w) ch d mt e Hd Hnd). }
  exists w1. split; [exact Hrun|]. split; [reflexivity|]. split; [exact Hentries|].
  split.
  - intros n c t Hl Hs. apply isSnippetFile_suffix in Hs.
    assert (Hin : In (fileEntry (Some (identify [d])) n c t) (entriesOf (fs w))).
    { apply elem_entriesOf. right. right. exists d, mt, ch, n, c, t. auto. }
    assert (Hid : ID (fileEntry (Some (identify [d])) n c t) = identify [identify [d]; n]).
    { rewrite fileEntry_ID. unfold idInputs. rewrite fileEntry_name by exact Hs. reflexivity. }
    apply getSnippet_absent; [exact Hc | exact Hn1|].
    intros e He _ Heq. apply Hentries in He as (He & _ & Hfid). apply Hfid.
    assert (e = fileEntry (Some (identify [d])) n c t) as ->.
    { apply (NoDup_map_eq ID (entriesOf (fs w))); [assumption..|]. congruence. }
    reflexivity.
  - apply deleteFolder_absent; [exact Hc | exact Hn1|].
    intros e He _ Heq. apply Hentries in He as (He & Hne & _). apply Hne.
    apply (NoDup_map_eq ID (entriesOf (fs w))); assumption.
Qed.

End FolderFacts.

Lemma deleteFolder_cascade_witness :
  exists w1,
    deleteFolder api_snippets (identify ["f"]) (world_of tree_folder) = (Ok tt, w1)
    /\ fs w1 = delete "f" tree_folder
    /\ (forall e, In e (entriesOf (fs w1)) <->
                  In e (entriesOf tree_folder) /\ e <> folderEntry "f" 1
                  /\ FolderID e <> Some (identify ["f"]))
    /\ (forall n c t,
          (<["a.sql" := File "select 1" 3]> ∅ : gmap string node) !! n = Some (File c t) ->
          HasSuffix n ".sql" = true ->
          getSnippet noFormat api_snippets (identify [identify ["f"]; n]) w1
          = (Err errSnippetNotFound, w1))
    /\ deleteFolder api_snippets (identify ["f"]) w1 = (Err errFolderNotFound, w1).
Proof.
  apply (deleteFolder_cascade noFormat api_snippets "f" 1 (<["a.sql" := File "select 1" 3]> ∅)
           (world_of tree_folder)).
  - vm_compute. discriminate.
  - refine (bool_decide_unpack _ _). vm_compute. exact I.
  - vm_compute.
    repeat (apply List.NoDup_cons; [intros H; simpl in H; intuition discriminate|]).
    apply List.NoDup_nil.
  - vm_compute. reflexivity.
Defined.

(** ** Calls the repository refuses *)

(** The errors of [P] come from the first call only, which leaves the tree
    as it was; what follows returns errors of another kind. *)
Lemma errKeepsOn_before {A B} (P Q : error -> Prop) (m : M A) (k : A -> M B) :
  keeps m -> (forall a, errs Q (k a)) -> (forall e, Q e -> ~ P e) ->
  errKeepsOn P (x ← m; k x).
Proof.
  intros Hm Hk HQP w e. rewrite run_bind. specialize (Hm w).
  destruct (m w) as [[a|e1] w1]; simpl in *.
  - intros H HP. destruct (HQP e (Hk a w1 e H) HP).
  - intros _ _. exact Hm.
Qed.

Lemma errKeepsOn_errs {A} (P Q : error -> Prop) (m : M A) :
  errs Q m -> (forall e, Q e -> ~ P e) -> errKeepsOn P m.
Proof. intros Hm HQP w e H HP. destruct (HQP e (Hm w e H) HP). Qed.

Lemma errs_onTree path op : errs fromOS (onTree path op).
Proof. intros w e H. apply (onTree_err _ _ _ _ H). Qed.

Lemma errs_os_MkdirAll path : errs fromOS (os_MkdirAll path).
Proof.
  intros w e. unfold os_MkdirAll. destruct path as [p|]; [|discriminate].
  intros H. apply (onTree_err _ _ _ _ H).
Qed.

Lemma errs_exceptNotExist (m : M unit) : errs fromOS m -> errs fromOS (exceptNotExist m).
Proof.
  intros Hm w e. unfold exceptNotExist. specialize (Hm w).
  destruct (m w) as [[[]|e1] w1]; simpl in *; [discriminate|].
  destruct (isNotExist e1); simpl; [discriminate|].
  intros H. injection H as <-. apply (Hm e1 eq_refl).
Qed.

Lemma refusal_not_fromOS (e : error) : fromOS e -> ~ ~ fromOS e.
Proof. intros H Hn. exact (Hn H). Qed.

Lemma refuses_deleteSnippet api id :
  errKeepsOn (fun e => ~ fromOS e) (deleteSnippet api id).
Proof.
  unfold deleteSnippet. apply errKeepsOn_bind; [apply keeps_getFilesystemEntries|].
  intros entries. destruct (List.find _ entries) as [target|]; [|apply errKeepsOn_fail].
  apply errKeepsOn_bind; [apply keeps_snippetsDir|]. intros _.
  apply (errKeepsOn_errs _ fromOS); [|apply refusal_not_fromOS].
  apply errs_exceptNotExist, errs_onTree.
Qed.

Lemma refuses_createFolder api name :
  errKeepsOn (fun e => ~ fromOS e) (createFolder api name).
Proof.
  unfold createFolder. apply errKeepsOn_bind; [apply keeps_snippetsDir|]. intros _.
  destruct (bool_decide _); [apply errKeepsOn_fail|].
  apply errKeepsOn_bind.
  { intros w. unfold entriesOrNone. pose proof (keeps_getFilesystemEntries api w) as H.
    destruct (getFilesystemEntries api w) as [[entries|e] w1]; exact H. }
  intros entries. destruct (existsb _ entries); [apply errKeepsOn_fail|].
  apply (errKeepsOn_errs _ fromOS); [|apply refusal_not_fromOS].
  apply errs_bind; [apply errs_os_MkdirAll|]. intros _.
  apply errs_bind; [apply errs_deterministicUUID|]. intros id. apply errs_ret.
Qed.

Lemma refuses_deleteFolder api id :
  errKeepsOn (fun e => ~ fromOS e) (deleteFolder api id).
Proof.
  unfold deleteFolder. apply errKeepsOn_bind; [apply keeps_getFilesystemEntries|].
  intros entries. destruct (List.find _ entries) as [target|]; [|apply errKeepsOn_fail].
  apply errKeepsOn_bind; [apply keeps_snippetsDir|]. intros _.
  apply (errKeepsOn_errs _ fromOS); [apply errs_onTree | apply refusal_not_fromOS].
Qed.

Section RefusalFacts.

Variable formatRFC3339 : Z -> string.

Lemma refuses_saveSnippet api newSnippet :
  errKeepsOn (fun e => ~ fromOS e) (saveSnippet formatRFC3339 api newSnippet).
Proof.
  unfold saveSnippet. apply errKeepsOn_bind; [apply keeps_getFilesystemEntries|].
  intros entries. destruct (existsb _ entries); [apply errKeepsOn_fail|].
  apply errKeepsOn_bind.
  { destruct (snippet_FolderID newSnippet); [destruct (existsb _ entries)|];
      [apply keeps_ret | apply keeps_fail | apply keeps_ret]. }
  intros _. apply errKeepsOn_bind; [apply keeps_snippetsDir|]. intros _.
  apply (errKeepsOn_errs _ fromOS); [|apply refusal_not_fromOS].
  apply errs_bind; [apply errs_os_WriteFile|]. intros _.
  apply errs_bind; [apply errs_os_Stat|]. intros modTime. apply errs_buildSnippet.
Qed.

(** X8.  A refused call changes nothing.  When [saveSnippet],
    [deleteSnippet], [createFolder] or [deleteFolder] returns an error of
    the repository's own (a snippet or a folder that exists already or is
    not found, a folder name that is missing, a snippets folder that is not
    configured), not one passed on from the operating system, the directory
    tree is what it was before the call: each of these errors is returned
    before the first call that writes, and no later step returns one. *)
Theorem refused_call_keeps_tree (api : API) (w : World) (e : error) :
  ~ fromOS e ->
  (forall newSnippet,
     fst (saveSnippet formatRFC3339 api newSnippet w) = Err e ->
     fs (snd (saveSnippet formatRFC3339 api newSnippet w)) = fs w)
  /\ (forall id,
        fst (deleteSnippet api id w) = Err e -> fs (snd (deleteSnippet api id w)) = fs w)
  /\ (forall name,
        fst (createFolder api name w) = Err e -> fs (snd (createFolder api name w)) = fs w)
  /\ (forall id,
        fst (deleteFolder api id w) = Err e -> fs (snd (deleteFolder api id w)) = fs w).
Proof.
  intros He. split; [|split; [|split]].
  - intros newSnippet H. apply (refuses_saveSnippet api newSnippet w e H He).
  - intros id H. apply (refuses_deleteSnippet api id w e H He).
  - intros name H. apply (refuses_createFolder api name w e H He).
  - intros id H. apply (refuses_deleteFolder api id w e H He).
Qed.

End RefusalFacts.

Lemma refused_call_keeps_tree_witness :
  fs (snd (saveSnippet noFormat api_snippets (requestSnippet "x" "c" "select 3" (Some "nowhere"))
             (world_of tree_folder))) = tree_folder
  /\ fs (snd (deleteSnippet api_snippets "nothing" (world_of tree_folder))) = tree_folder
  /\ fs (snd (createFolder api_snippets "f" (world_of tree_folder))) = tree_folder
  /\ fs (snd (deleteFolder api_snippets "nothing" (world_of tree_folder))) = tree_folder.
Proof.
  assert (H1 : ~ fromOS errFolderNotFound) by (intros [o Ho]; discriminate Ho).
  assert (H2 : ~ fromOS errSnippetNotFound) by (intros [o Ho]; discriminate Ho).
  assert (H3 : ~ fromOS errFolderAlreadyExists) by (intros [o Ho]; discriminate Ho).
  destruct (refused_call_keeps_tree noFormat api_snippets (world_of tree_folder)
              errFolderNotFound H1) as (Hsave & _ & _ & Hdf).
  destruct (refused_call_keeps_tree noFormat api_snippets (world_of tree_folder)
              errSnippetNotFound H2) as (_ & Hds & _ & _).
  destruct (refused_call_keeps_tree noFormat api_snippets (world_of tree_folder)
              errFolderAlreadyExists H3) as (_ & _ & Hcf & _).
  split; [|split; [|split]].
  - apply Hsave. vm_compute. reflexivity.
  - apply Hds. vm_compute. reflexivity.
  - apply Hcf. vm_compute. reflexivity.
  - apply Hdf. vm_compute. reflexivity.
Defined.

(** ** Updating a snippet *)

(** The entries of the tree once a snippet file of the root is removed. *)
Lemma entriesOf_delete_file (root : gmap string node) (k c : string) (t : Z)
    (e : filesystemEntry) :
  root !! k = Some (File c t) -> isSnippetFile k = true ->
  In e (entriesOf (delete k root)) ->
  In e (entriesOf root) /\ e <> fileEntry None k c t.
Proof.
  intros Hk Hs He. apply elem_entriesOf in He
    as [(d & mt & ch & Hd & ->)|[(n & c' & mt & Hl & Hs' & ->)|
        (d & dmt & ch & n & c' & mt & Hd & Hl & Hs' & ->)]].
  - apply lookup_delete_Some in Hd as [_ Hd]. split.
    + apply elem_entriesOf. left. exists d, mt, ch. auto.
    + intros Heq. apply (f_equal Type_) in Heq. discriminate Heq.
  - apply lookup_delete_Some in Hl as [Hne Hl]. split.
    + apply elem_entriesOf. right. left. exists n, c', mt. auto.
    + intros Heq. apply (f_equal (fun x => Name x +:+ ".sql")) in Heq.
      rewrite !fileEntry_name in Heq by assumption. congruence.
  - apply lookup_delete_Some in Hd as [_ Hd]. split.
    + apply elem_entriesOf. right. right. exists d, dmt, ch, n, c', mt. auto.
    + intros Heq. apply (f_equal FolderID) in Heq. discriminate Heq.
Qed.

Section UpdateFacts.

Variable formatRFC3339 : Z -> string.

(** [updateSnippet] on the snippet [n.sql] of the root, up to the removal
    of its file: with the name and the folder the update asks for giving an
    id no other snippet has, the file is removed and [saveSnippet] runs on
    the tree without it. *)
Lemma updateSnippet_removes (api : API) (n c : string) (t : Z) (updates : gmap string any)
    (name : string) (folderID : option string) (w : World) :
  configured api -> plainTree (fs w) -> List.NoDup (map ID (entriesOf (fs w))) ->
  fs w !! (n +:+ ".sql") = Some (File c t) ->
  match updates !! "name" with
  | Some (anyString updatesName) => if negb (bool_decide (updatesName = "")) then updatesName else n
  | _ => n
  end = name ->
  match updates !! "folder_id" with
  | Some anyNil => None
  | Some (anyString idString) => Some idString
  | _ => None
  end = folderID ->
  (forall e, In e (entriesOf (fs w)) -> Type_ e = "file" ->
             ID e <> identify [n +:+ ".sql"] -> ID e <> identify (idInputs folderID name)) ->
  exists w2 contentID,
    fs w2 = delete (n +:+ ".sql") (fs w) /\ now w2 = now w
    /\ (forall e, In e (entriesOf (fs w2)) -> Type_ e = "file" ->
                  ID e <> identify [n +:+ ".sql"]
                  /\ ID e <> identify (idInputs folderID name))
    /\ updateSnippet formatRFC3339 api (identify [n +:+ ".sql"]) updates w
       = saveSnippet formatRFC3339 api
           (mkSnippet (identify (idInputs folderID name)) "" "" "" name "" false
              (mkSnippetContent
                 match updates !! "content" with
                 | Some (anyMap updatesContent) =>
                   match updatesContent !! "sql" with
                   | Some (anyString sql) => sql
                   | _ => c
                   end
                 | _ => c
                 end contentID "1.0")
              "" 0 folderID 0 (mkSnippetUser 0 "") (mkSnippetUser 0 "")) w2.
Proof.
  intros Hc Hp Hnd Hk Hname Hfolder Hfree.
  pose proof (plainTree_named _ Hp) as Hn.
  set (k := n +:+ ".sql") in *.
  set (found := fileEntry None k c t).
  assert (Hsk : isSnippetFile k = true) by apply isSnippetFile_sql.
  assert (Hfound : found = mkEntry (identify [k]) n "file" None c t) by apply fileEntry_sql.
  assert (Hin : In found (entriesOf (fs w))).
  { apply elem_entriesOf. right. left. exists k, c, t. auto. }
  destruct (find_first (fun entry => bool_decide (ID entry = identify [k]) && isFile entry)
              (entriesOf (fs w)) found Hin) as [t0 Ht0].
  { rewrite Hfound. apply andb_true_iff. split; apply bool_decide_eq_true; reflexivity. }
  assert (t0 = found) as ->.
  { apply find_some in Ht0 as [Hin0 Hb]. apply andb_true_iff in Hb as [Hb _].
    apply bool_decide_eq_true in Hb.
    apply (NoDup_map_eq ID (entriesOf (fs w))); [assumption..|]. rewrite Hfound. exact Hb. }
  set (w1 := mkWorld (delete k (fs w)) (now w) (entropy w) (drawn w)).
  assert (Hdel : deleteSnippet api (ID found) w = (Ok tt, w1)).
  { assert (Hf' : List.find (fun entry => bool_decide (ID entry = ID found) && isFile entry)
                    (entriesOf (fs w)) = Some found).
    { replace (ID found) with (identify [k]) by (rewrite Hfound; reflexivity). exact Ht0. }
    rewrite (deleteSnippet_found api _ w found Hc Hn Hf').
    rewrite deletePath_root by (rewrite Hfound; reflexivity).
    replace (Name found +:+ ".sql") with k by (rewrite Hfound; reflexivity).
    rewrite (filepath_Join_plain1 k (plainTree_root _ _ _ Hp Hk)).
    apply run_remove. simpl. rewrite Hk. reflexivity. }
  destruct (uuid_NewString w1) as [r w2] eqn:Hnew.
  assert (Hw2 : exists contentID, r = Ok contentID /\ fs w2 = fs w1 /\ now w2 = now w1).
  { unfold uuid_NewString in Hnew. injection Hnew as <- <-. eexists. repeat split. }
  destruct Hw2 as (contentID & -> & Hfs2 & Hnow2).
  assert (Hgone : forall e, In e (entriesOf (fs w2)) -> Type_ e = "file" ->
                  ID e <> identify [k] /\ ID e <> identify (idInputs folderID name)).
  { intros e He Hf. rewrite Hfs2 in He.
    apply (entriesOf_delete_file (fs w) k c t e Hk Hsk) in He as [He Hne].
    assert (Hid : ID e <> identify [k]).
    { intros Heq. apply Hne.
      apply (NoDup_map_eq ID (entriesOf (fs w))); [assumption..|].
      change (ID e = ID found). rewrite Hfound. exact Heq. }
    split; [exact Hid|]. apply Hfree; assumption. }
  exists w2, contentID. split; [exact Hfs2|]. split; [exact Hnow2|]. split; [exact Hgone|].
  unfold updateSnippet.
  rewrite (run_bind_ok _ _ w w _ (getFilesystemEntries_entriesOf api w Hc Hn)), Ht0.
  replace (Name found) with n by (rewrite Hfound; reflexivity).
  replace (FolderID found) with (@None string) by (rewrite Hfound; reflexivity).
  replace (Content found) with c by (rewrite Hfound; reflexivity).
  rewrite Hname, Hfolder.
  rewrite (run_bind_ok _ _ w w _ (deterministicUUID_idInputs folderID name w)).
  rewrite existsb_none.
  2:{ intros e He. apply not_true_is_false. intros Hb.
      apply andb_true_iff in Hb as [Hb H3]. apply andb_true_iff in Hb as [H1 H2].
      apply bool_decide_eq_true in H1. apply bool_decide_eq_true in H2.
      apply negb_true_iff, bool_decide_eq_false in H3.
      apply (Hfree e He H2); [|exact H1]. rewrite Hfound in H3. exact H3. }
  rewrite (run_bind_ok _ _ w w1 tt Hdel).
  rewrite (run_bind_ok _ _ w1 w2 contentID Hnew). reflexivity.
Qed.

(** X9.  An update is not undone.  On a configured repository whose tree
    has plain names and distinct ids, [updateSnippet] that moves the snippet
    [n.sql] of the root to a folder id no folder has (the target id being no
    other snippet's) returns [errFolderNotFound] after it has removed the
    file: the snippet is gone from the tree and [getSnippet] on its id
    returns [errSnippetNotFound]. *)
Theorem updateSnippet_loses_snippet (api : API) (n c : string) (t : Z) (f : string)
    (updates : gmap string any) (w : World) :
  configured api -> plainTree (fs w) -> List.NoDup (map ID (entriesOf (fs w))) ->
  fs w !! (n +:+ ".sql") = Some (File c t) ->
  updates !! "name" = None ->
  updates !! "folder_id" = Some (anyString f) ->
  (forall e, In e (entriesOf (fs w)) -> Type_ e = "folder" -> ID e <> f) ->
  (forall e, In e (entriesOf (fs w)) -> Type_ e = "file" ->
             ID e <> identify [n +:+ ".sql"] -> ID e <> identify [f; n +:+ ".sql"]) ->
  exists w2,
    updateSnippet formatRFC3339 api (identify [n +:+ ".sql"]) updates w
    = (Err errFolderNotFound, w2)
    /\ fs w2 = delete (n +:+ ".sql") (fs w)
    /\ getSnippet formatRFC3339 api (identify [n +:+ ".sql"]) w2
       = (Err errSnippetNotFound, w2).
Proof.
  intros Hc Hp Hnd Hk Hname Hfolder Hnone Hfree.
  destruct (updateSnippet_removes api n c t updates n (Some f) w Hc Hp Hnd Hk)
    as (w2 & contentID & Hfs2 & _ & Hgone & Hrun).
  { rewrite Hname. reflexivity. }
  { rewrite Hfolder. reflexivity. }
  { exact Hfree. }
  assert (Hn2 : named (fs w2)).
  { rewrite Hfs2. unfold named. rewrite lookup_delete_ne; [apply plainTree_named, Hp|].
    intros E. assert (Hl : String.length (n +:+ ".sql") = String.length "") by (f_equal; exact E).
    rewrite append_length in Hl. simpl in Hl. lia. }
  exists w2. split; [|split; [exact Hfs2|]].
  - rewrite Hrun. unfold saveSnippet.
    rewrite (run_bind_ok _ _ w2 w2 _ (getFilesystemEntries_entriesOf api w2 Hc Hn2)).
    cbn [snippet_ID snippet_FolderID].
    rewrite (no_file_with_ID (entriesOf (fs w2)) (identify (idInputs (Some f) n))).
    2:{ intros e He Hf. apply (Hgone e He Hf). }
    rewrite existsb_none; [reflexivity|].
    intros e He. apply not_true_is_false. intros Hb.
    apply andb_true_iff in Hb as [H1 H2].
    apply bool_decide_eq_true in H1. apply bool_decide_eq_true in H2.
    rewrite Hfs2 in He.
    apply (entriesOf_delete_file (fs w) _ c t e Hk (isSnippetFile_sql n)) in He as [He _].
    exact (Hnone e He H2 H1).
  - apply getSnippet_absent; [exact Hc | exact Hn2|].
    intros e He Hf. apply (Hgone e He Hf).
Qed.


End UpdateFacts.

Lemma updateSnippet_loses_snippet_witness :
  exists w2,
    updateSnippet noFormat api_snippets (identify ["b" +:+ ".sql"])
                  {[ "folder_id" := anyString "nowhere" ]} (world_of tree_folder)
    = (Err errFolderNotFound, w2)
    /\ fs w2 = delete ("b" +:+ ".sql") tree_folder
    /\ getSnippet noFormat api_snippets (identify ["b" +:+ ".sql"]) w2
       = (Err errSnippetNotFound, w2).
Proof.
  apply (updateSnippet_loses_snippet noFormat api_snippets "b" "select 2" 5 "nowhere"
           {[ "folder_id" := anyString "nowhere" ]} (world_of tree_folder)).
  - vm_compute. discriminate.
  - refine (bool_decide_unpack _ _). vm_compute. exact I.
  - vm_compute.
    repeat (apply List.NoDup_cons; [intros H; simpl in H; intuition discriminate|]).
    apply List.NoDup_nil.
  - vm_compute. reflexivity.
  - vm_compute. reflexivity.
  - vm_compute. reflexivity.
  - intros e He _. vm_compute in He.
    destruct He as [<-|[<-|[<-|[]]]]; vm_compute; discriminate.
  - intros e He _ _. vm_compute in He.
    destruct He as [<-|[<-|[<-|[]]]]; vm_compute; discriminate.
Defined.


(** ** The order of a listing *)

Section StableSort.

Context {A : Type} (less : A -> A -> bool).

(** [less] compares keys under a total order: it is asymmetric, and what is
    not less than something not less than a third is not less than it. *)
Hypothesis less_asym : forall a b, less a b = true -> less b a = false.
Hypothesis less_negtrans :
  forall a b c, less a b = false -> less b c = false -> less a c = false.

Lemma insertStable_sorted (x : A) (l : list A) :
  StronglySorted (fun a b => less b a = false) l -> StronglySorted (fun a b => less b a = false) (insertStable less x l).
Proof.
  induction 1 as [|y l Hl IH Hy]; simpl; [repeat constructor|].
  destruct (less y x) eqn:E.
  - constructor; [exact IH|].
    apply List.Forall_forall. intros z Hz.
    apply (Permutation_in _ (insertStable_Permutation less x l)) in Hz.
    destruct Hz as [<-|Hz]; [apply less_asym, E|].
    rewrite List.Forall_forall in Hy. apply Hy, Hz.
  - constructor; [constructor; assumption|].
    constructor; [exact E|].
    rewrite List.Forall_forall in Hy. apply List.Forall_forall. intros z Hz.
    apply (less_negtrans z y x); [apply Hy, Hz | exact E].
Qed.

Lemma sort_SliceStable_sorted (l : list A) :
  StronglySorted (fun a b => less b a = false) (sort_SliceStable less l).
Proof.
  induction l as [|x l IH]; [constructor|].
  apply insertStable_sorted, IH.
Qed.

Lemma insertStable_tied (x y : A) (l : list A) :
  List.filter (tied less x) (insertStable less y l) = List.filter (tied less x) (y :: l).
Proof.
  induction l as [|z l IH]; [reflexivity|].
  cbn [insertStable]. destruct (less z y) eqn:E; [|reflexivity].
  cbn [List.filter] in *. rewrite IH.
  destruct (tied less x y) eqn:Hy; [|reflexivity].
  assert (Hz : tied less x z = false); [|rewrite Hz; reflexivity].
  unfold tied in *. apply andb_true_iff in Hy as [H1 H2].
  apply negb_true_iff in H1. apply negb_true_iff in H2.
  apply andb_false_iff. right. apply negb_false_iff.
  destruct (less z x) eqn:Hzx; [reflexivity|].
  rewrite (less_negtrans z x y Hzx H1) in E. discriminate E.
Qed.

Lemma sort_SliceStable_tied (x : A) (l : list A) :
  List.filter (tied less x) (sort_SliceStable less l) = List.filter (tied less x) l.
Proof.
  induction l as [|y l IH]; [reflexivity|].
  change (sort_SliceStable less (y :: l)) with (insertStable less y (sort_SliceStable less l)).
  rewrite insertStable_tied. cbn [List.filter]. rewrite IH. reflexivity.
Qed.

End StableSort.

Lemma StronglySorted_rev {A} (R : A -> A -> Prop) (l : list A) :
  StronglySorted R l -> StronglySorted (fun a b => R b a) (List.rev l).
Proof.
  induction 1 as [|x l Hl IH Hx]; [constructor|]. simpl.
  assert (Happ : forall l1, StronglySorted (fun a b => R b a) l1 ->
                 Forall (fun a => R x a) l1 -> StronglySorted (fun a b => R b a) (l1 ++ [x])%list).
  { induction 1 as [|y l1 Hl1 IH1 Hy]; intros Hall; simpl; [repeat constructor|].
    inversion Hall; subst. constructor; [apply IH1; assumption|].
    apply Forall_app. split; [exact Hy | repeat constructor; assumption]. }
  apply Happ; [exact IH|]. apply Forall_rev, Hx.
Qed.

(** The byte-wise order of strings is a total order. *)
Lemma ltS_asym (a b : string) : ltS a b = true -> ltS b a = false.
Proof.
  unfold ltS, String.ltb. rewrite (String.compare_antisym b a).
  destruct (String.compare a b); simpl; congruence.
Qed.

Lemma ltS_negtrans (a b c : string) : ltS a b = false -> ltS b c = false -> ltS a c = false.
Proof.
  unfold ltS, String.ltb. intros Hab Hbc.
  destruct (String.compare a c) eqn:Hac; try reflexivity. exfalso.
  destruct (String.compare a b) eqn:E1; [|discriminate Hab|].
  - apply String.compare_eq_iff in E1. subst b. rewrite Hac in Hbc. discriminate Hbc.
  - assert (Hba : String.compare b a = Lt) by (rewrite String.compare_antisym, E1; reflexivity).
    apply OrderedTypeEx.String_as_OT.cmp_lt in Hba, Hac.
    pose proof (OrderedTypeEx.String_as_OT.lt_trans _ _ _ Hba Hac) as Hlt.
    apply OrderedTypeEx.String_as_OT.cmp_lt in Hlt.
    change (String.compare b c = Lt) in Hlt. rewrite Hlt in Hbc. discriminate Hbc.
Qed.

Section SortFacts.

Variable ToLower : string -> string.

Lemma lessBy_asym sortField a b :
  lessBy ToLower sortField a b = true -> lessBy ToLower sortField b a = false.
Proof.
  unfold lessBy. destruct (bool_decide _); [apply ltS_asym|]. lia.
Qed.

Lemma lessBy_negtrans sortField a b c :
  lessBy ToLower sortField a b = false -> lessBy ToLower sortField b c = false ->
  lessBy ToLower sortField a c = false.
Proof.
  unfold lessBy. destruct (bool_decide _); [apply ltS_negtrans|]. lia.
Qed.

(** X11.  The order of a listing.  [sortEntries] returns the entries it
    is given, each as often as it came, in the order of the sort field: by
    lower-cased name for the field [name], by time stamp for every other
    field (also the empty one); ascending, no later entry being less than an
    earlier one, unless the sort order is [desc], and then descending.  The
    sort is stable: entries that tie keep the order they came in, and for
    [desc] they come in the reverse of that order (the sorted list is
    reversed as a whole). *)
Theorem sortEntries_sorted_stable (sortField sortOrder : string)
    (filtered : list filesystemEntry) :
  let less := lessBy ToLower sortField in
  let sorted := sortEntries ToLower sortField sortOrder filtered in
  Permutation sorted filtered
  /\ (sortOrder <> "desc" ->
      StronglySorted (fun a b => less b a = false) sorted
      /\ forall x, List.filter (tied less x) sorted = List.filter (tied less x) filtered)
  /\ (sortOrder = "desc" ->
      StronglySorted (fun a b => less a b = false) sorted
      /\ forall x, List.filter (tied less x) sorted
                   = List.rev (List.filter (tied less x) filtered)).
Proof.
  intros less sorted. split; [apply sortEntries_Permutation|].
  pose proof (sort_SliceStable_sorted less (lessBy_asym sortField)
                (lessBy_negtrans sortField) filtered) as Hs.
  pose proof (fun x => sort_SliceStable_tied less (lessBy_negtrans sortField) x filtered) as Ht.
  unfold sorted, sortEntries. fold less. split.
  - intros Hasc. rewrite bool_decide_eq_false_2 by exact Hasc. split; [exact Hs | exact Ht].
  - intros Hdesc. rewrite bool_decide_eq_true_2 by exact Hdesc. split.
    + apply (StronglySorted_rev _ _ Hs).
    + intros x. rewrite <- Ht. apply filter_rev.
Qed.

End SortFacts.

Lemma sortEntries_sorted_stable_witness :
  let a := mkEntry "1" "a" "file" None "" 7 in
  let b := mkEntry "2" "b" "file" None "" 3 in
  let c := mkEntry "3" "c" "file" None "" 7 in
  sortEntries asciiToLower "inserted_at" "asc" [a; b; c] = [b; a; c]
  /\ sortEntries asciiToLower "inserted_at" "desc" [a; b; c] = [c; a; b]
  /\ List.filter (tied (lessBy asciiToLower "inserted_at") a)
                 (sortEntries asciiToLower "inserted_at" "desc" [a; b; c])
     = List.rev (List.filter (tied (lessBy asciiToLower "inserted_at") a) [a; b; c]).
Proof.
  intros a b c. split; [reflexivity|]. split; [reflexivity|].
  destruct (sortEntries_sorted_stable asciiToLower "inserted_at" "desc" [a; b; c])
    as (_ & _ & Hdesc).
  destruct (Hdesc eq_refl) as [_ Hties]. apply (Hties a).
Defined.

(** ** What the sanitizer lets pass *)

Lemma dropSeps_keep (l : list ascii) :
  (forall c, In c l -> isSep c = false) -> dropSeps l = l.
Proof.
  destruct l as [|c l]; [reflexivity|]. intros H. simpl.
  rewrite (H c) by (left; reflexivity). reflexivity.
Qed.

Lemma lastElem_keep (l : list ascii) :
  (forall c, In c l -> isSep c = false) -> lastElem l = l.
Proof.
  induction l as [|c l IH]; [reflexivity|]. intros H. simpl.
  rewrite (H c) by (left; reflexivity). f_equal. apply IH. intros; apply H; right; assumption.
Qed.

(** A name without separator is its own base name. *)
Lemma filepath_Base_plain (name : string) :
  name <> "" -> (forall c, In c (list_ascii_of_string name) -> isSep c = false) ->
  filepath_Base name = name.
Proof.
  intros Hne Hplain. unfold filepath_Base. rewrite decide_False by exact Hne.
  assert (Hrev : forall c, In c (List.rev (list_ascii_of_string name)) -> isSep c = false).
  { intros c Hc. apply Hplain, in_rev, Hc. }
  rewrite (dropSeps_keep _ Hrev).
  destruct (List.rev (list_ascii_of_string name)) as [|c l] eqn:E.
  - destruct name; [congruence|]. simpl in E. destruct (List.rev _); discriminate E.
  - rewrite (lastElem_keep _ Hrev), <- E, rev_involutive.
    apply string_of_list_ascii_of_string.
Qed.

(** X13.  The sanitizer.  [sanitizeName] returns its argument unchanged
    when the argument holds no NUL byte and either holds no separator or is
    the root path [/] itself, and the empty string in every other case; so a
    name it returns is one it returns unchanged when given again. *)
Theorem sanitizeName_cases (name : string) :
  sanitizeName name
  = (if (forallb (fun c => negb (isSep c)) (list_ascii_of_string name)
         || bool_decide (name = "/"))
        && negb (Contains name NUL)
     then name else "")
  /\ sanitizeName (sanitizeName name) = sanitizeName name.
Proof.
  assert (Hcases : sanitizeName name
    = (if (forallb (fun c => negb (isSep c)) (list_ascii_of_string name)
           || bool_decide (name = "/"))
          && negb (Contains name NUL)
       then name else "")).
  { destruct (Contains name NUL) eqn:Hnul.
    - rewrite andb_false_r. apply sanitizeName_rejects. right. exact Hnul.
    - rewrite andb_true_r.
      destruct (forallb _ (list_ascii_of_string name)) eqn:Hplain; simpl.
      + destruct (decide (name = "")) as [->|Hne]; [reflexivity|].
        apply sanitizeName_accepts; [|exact Hnul].
        apply filepath_Base_plain; [exact Hne|].
        intros c Hc. rewrite forallb_forall in Hplain. apply negb_true_iff, Hplain, Hc.
      + destruct (decide (name = "/")) as [->|Hne]; [reflexivity|].
        rewrite bool_decide_eq_false_2 by exact Hne.
        apply sanitizeName_separator; [|exact Hne].
        apply not_true_iff_false in Hplain.
        destruct (in_dec ascii_dec "/"%char (list_ascii_of_string name)) as [Hin|Hout];
          [exact Hin|].
        exfalso. apply Hplain, forallb_forall. intros c Hc.
        apply negb_true_iff, bool_decide_eq_false. intros ->. exact (Hout Hc). }
  split; [exact Hcases|].
  rewrite Hcases. revert Hcases.
  destruct ((_ || _) && _); intros Hcases; [exact Hcases | reflexivity].
Qed.

(** ** The form of an identifier *)

Lemma hexDigit_hex (n : Z) : In (hexDigit n) hextable.
Proof.
  unfold hexDigit. destruct (Nat.lt_ge_cases (Z.to_nat n) (length hextable)) as [H|H].
  - apply nth_In, H.
  - rewrite nth_overflow by exact H. left. reflexivity.
Qed.

Lemma version_nibble (x : Z) : Z.shiftr (Z.lor (Z.land x 15) 64) 4 = 4.
Proof.
  rewrite Z.shiftr_lor, Z.shiftr_land. change (Z.shiftr 15 4) with 0.
  rewrite Z.land_0_r. reflexivity.
Qed.

Lemma variant_nibble (x : Z) :
  In (hexDigit (Z.shiftr (Z.lor (Z.land x 63) 128) 4))
     ["8"%char; "9"%char; "a"%char; "b"%char].
Proof.
  rewrite Z.shiftr_lor, Z.shiftr_land. change (Z.shiftr 63 4) with (Z.ones 2).
  rewrite Z.land_ones by lia. change (Z.shiftr 128 4) with 8.
  pose proof (Z.mod_pos_bound (Z.shiftr x 4) (2 ^ 2) ltac:(lia)) as Hb.
  assert (Hc : Z.shiftr x 4 mod 2 ^ 2 = 0 \/ Z.shiftr x 4 mod 2 ^ 2 = 1
               \/ Z.shiftr x 4 mod 2 ^ 2 = 2 \/ Z.shiftr x 4 mod 2 ^ 2 = 3) by lia.
  destruct Hc as [H|[H|[H|H]]]; rewrite H; simpl; tauto.
Qed.

(** The dashed form of sixteen bytes of which byte 6 and byte 8 carry the
    version and the variant. *)
Lemma uuid_String_v4 (b : list Z) :
  length b = 16%nat ->
  let id := uuid_String (setByte 8 (fun x => Z.lor (Z.land x 63) 128)
                           (setByte 6 (fun x => Z.lor (Z.land x 15) 64) b)) in
  String.length id = 36%nat
  /\ (forall i c, String.get i id = Some c ->
                  if bool_decide (i = 8 \/ i = 13 \/ i = 18 \/ i = 23)%nat
                  then c = "-"%char else In c hextable)
  /\ String.get 14 id = Some "4"%char
  /\ (exists c, String.get 19 id = Some c
                /\ In c ["8"%char; "9"%char; "a"%char; "b"%char]).
Proof.
  intros Hlen.
  do 17 (destruct b as [|? b]; try discriminate Hlen). clear Hlen.
  cbv zeta. cbv [setByte]. cbn [nth list_insert insert].
  split; [reflexivity|]. split; [|split].
  - intros i c.
    do 36 (destruct i as [|i];
           [intros H; injection H as <-; first [reflexivity | apply hexDigit_hex]|]).
    intros H. discriminate H.
  - cbv [uuid_String]. cbn [hex_Encode take drop firstn skipn].
    rewrite version_nibble. reflexivity.
  - cbv [uuid_String]. cbn [hex_Encode take drop firstn skipn].
    match goal with
    | |- context [Z.lor (Z.land ?x 63) 128] =>
      exists (hexDigit (Z.shiftr (Z.lor (Z.land x 63) 128) 4))
    end.
    split; [reflexivity | apply variant_nibble].
Qed.

(** X14.  The form of an identifier.  Whatever its inputs,
    [deterministicUUID] returns, and what it returns has the form of a
    version-4 UUID: 36 characters, a dash at the positions 8, 13, 18 and 23
    and a lower-case hexadecimal digit at every other, the version digit [4]
    at position 14 and a variant digit [8], [9], [a] or [b] at
    position 19. *)
Theorem deterministicUUID_form (inputs : list string) (w : World) :
  exists id w',
    deterministicUUID inputs w = (Ok id, w')
    /\ String.length id = 36%nat
    /\ (forall i c, String.get i id = Some c ->
                    if bool_decide (i = 8 \/ i = 13 \/ i = 18 \/ i = 23)%nat
                    then c = "-"%char else In c hextable)
    /\ String.get 14 id = Some "4"%char
    /\ (exists c, String.get 19 id = Some c
                  /\ In c ["8"%char; "9"%char; "a"%char; "b"%char]).
Proof.
  unfold deterministicUUID. destruct (decide _) as [Hempty|Hfull].
  - unfold uuid_NewString. eexists _, _. split; [reflexivity|].
    apply uuid_String_v4. reflexivity.
  - eexists _, _. split; [reflexivity|].
    unfold hashedUUID, uuid_FromBytes.
    rewrite decide_True.
    + apply uuid_String_v4, seedBytes_length.
    + unfold setByte. rewrite !length_insert. apply seedBytes_length.
Qed.

Lemma deterministicUUID_form_witness :
  exists id w',
    deterministicUUID ["f"; "a.sql"] world_empty = (Ok id, w')
    /\ String.length id = 36%nat
    /\ (forall i c, String.get i id = Some c ->
                    if bool_decide (i = 8 \/ i = 13 \/ i = 18 \/ i = 23)%nat
                    then c = "-"%char else In c hextable)
    /\ String.get 14 id = Some "4"%char
    /\ (exists c, String.get 19 id = Some c
                  /\ In c ["8"%char; "9"%char; "a"%char; "b"%char]).
Proof. exact (deterministicUUID_form ["f"; "a.sql"] world_empty). Defined.

(** ** The range of the hash *)

Lemma fold_int32_range {A} (f : Z -> A -> Z) (l : list A) (h : Z) :
  (forall h r, -2147483648 <= f h r < 2147483648) ->
  -2147483648 <= h < 2147483648 ->
  -2147483648 <= fold_left f l h < 2147483648.
Proof.
  intros Hf. revert h. induction l as [|r l IH]; intros h Hh; simpl; [exact Hh|].
  apply IH, Hf.
Qed.

(** X15.  The range of the hash.  [simpleHash] returns a number from 0
    to 2^31 - 1, with one exception: where the sum is -2^31 its negation
    overflows and -2^31 itself is returned, and there are inputs for which
    this happens. *)
Theorem simpleHash_range :
  (forall input, 0 <= simpleHash input < 2147483648 \/ simpleHash input = -2147483648)
  /\ exists input, simpleHash input = -2147483648.
Proof.
  split.
  - intros input. unfold simpleHash.
    set (hash := fold_left _ (runes input) 0).
    assert (Hr : -2147483648 <= hash < 2147483648).
    { apply fold_int32_range; [intros; apply int32_range | lia]. }
    destruct (Z.ltb_spec hash 0) as [Hneg|Hpos]; [|left; lia].
    destruct (Z.eq_dec hash (-2147483648)) as [->|Hne]; [right; reflexivity|].
    left. unfold int32.
    rewrite Z.mod_small by lia. lia.
  - exists "kveqhxyr". vm_compute. reflexivity.
Qed.

(** ** Handlers that only read *)

Lemma handlerKeeps_writeJSON status p : handlerKeeps (writeJSON status p).
Proof. intros w. reflexivity. Qed.

Lemma handlerKeeps_writeMethodNotAllowed r allow : handlerKeeps (writeMethodNotAllowed r allow).
Proof. intros w. reflexivity. Qed.

Section HandlerFacts.

Variable ToLower : string -> string.
Variable formatRFC3339 : Z -> string.
Variable TrimSpace : string -> string.
Variable Atoi : string -> option Z.
Variable osErrorText : oserror -> string.

(** What [getSnippets] returns on an unconfigured repository, beyond the
    limit, and otherwise. *)
Lemma getSnippets_outcome api searchTerm limit cursor sortField sortOrder folderID w :
  exists w', fs w' = fs w
    /\ ((~ configured api
         /\ getSnippets ToLower formatRFC3339 api searchTerm limit cursor sortField sortOrder
              folderID w = (Err errSnippetsFolderEnvNotSet, w'))
        \/ (configured api /\ 1000 < limit
            /\ getSnippets ToLower formatRFC3339 api searchTerm limit cursor sortField sortOrder
                 folderID w = (Err errLimitExceedsMax, w'))
        \/ (configured api /\ limit <= 1000
            /\ exists nextCursor snippets,
                 getSnippets ToLower formatRFC3339 api searchTerm limit cursor sortField
                   sortOrder folderID w = (Ok (nextCursor, snippets), w'))).
Proof.
  pose proof (keeps_getSnippets ToLower formatRFC3339 api searchTerm limit cursor sortField
                sortOrder folderID w) as Hkeep.
  destruct (decide (SnippetsFolder (cfg api) = "")) as [Hu|Hc].
  - exists w. split; [reflexivity|]. left.
    assert (Hnc : ~ configured api) by (intros H; exact (H Hu)).
    split; [exact Hnc|].
    unfold getSnippets. rewrite run_bind, (getFilesystemEntries_unconfigured api w Hnc).
    reflexivity.
  - destruct (getSnippets ToLower formatRFC3339 api searchTerm limit cursor sortField sortOrder
                folderID w) as [res w'] eqn:Hrun.
    exists w'. split; [exact Hkeep|]. right.
    destruct (getFilesystemEntries_ok api w Hc) as (entries & w1 & Hscan & _).
    unfold getSnippets in Hrun. rewrite (run_bind_ok _ _ w w1 entries Hscan) in Hrun.
    destruct (Z.lt_ge_cases 1000 limit) as [Hover|Hin].
    + left. split; [exact Hc|]. split; [exact Hover|].
      rewrite pageOf_over in Hrun by exact Hover. unfold fail in Hrun.
      inversion Hrun; subst. reflexivity.
    + right. split; [exact Hc|]. split; [exact Hin|].
      destruct (pageOf_within cursor limit
                  (sortEntries ToLower sortField sortOrder
                     (filterFiles ToLower searchTerm folderID (List.filter isFile entries))) Hin)
        as [[nextCursor page] Hpage].
      rewrite Hpage in Hrun.
      assert (Hok : exists a, fst ((snippets ← loopMap
                       (fun entry => buildSnippet formatRFC3339 (Name entry) (Content entry)
                                       (FolderID entry) (CreatedAt entry)) page;
                     ret (nextCursor, snippets)) w1) = Ok a).
      { apply errs_none_ok. apply errs_bind; [|intros; apply errs_ret].
        apply errs_loopMap. intros. apply errs_buildSnippet. }
      destruct Hok as [[next snippets] Hok]. rewrite Hrun in Hok. simpl in Hok. subst res.
      exists next, snippets. reflexivity.
Qed.

(** X16.  The statuses of the listing.  [handleSnippetsGet] always
    answers and never changes the tree.  It answers 200 with an empty list,
    without looking at anything else, when the visibility asked for is
    [project]; otherwise 400 when the limit is not a number or is negative;
    otherwise 500 when the snippets folder is not configured or the limit
    exceeds 1000; and 200 in every other case.  Whenever the status is not
    200 the data is the empty list. *)
Theorem handleSnippetsGet_status (api : API) (r : Request) (w : World) :
  exists resp w',
    handleSnippetsGet ToLower formatRFC3339 Atoi api r w = (Responded resp, w')
    /\ fs w' = fs w
    /\ Status resp
       = (if bool_decide (Query_Get r "visibility" = "project") then 200
          else if parseLimit Atoi r <? 0 then 400
          else if bool_decide (SnippetsFolder (cfg api) = "") || (1000 <? parseLimit Atoi r)
          then 500 else 200)
    /\ (Status resp <> 200 \/ Query_Get r "visibility" = "project" ->
        Payload resp = pMap {[ "data" := pSlice [] ]}).
Proof.
  unfold handleSnippetsGet.
  destruct (bool_decide (Query_Get r "visibility" = "project")) eqn:Hv.
  { eexists _, _. split; [reflexivity|]. repeat split. }
  destruct (parseLimit Atoi r <? 0) eqn:Hneg.
  { eexists _, _. split; [reflexivity|]. repeat split. }
  set (sortOrder := if bool_decide (Query_Get r "sort_order" = "") then "desc"
                    else Query_Get r "sort_order").
  destruct (getSnippets_outcome api (Query_Get r "name") (parseLimit Atoi r)
              (Query_Get r "cursor") (Query_Get r "sort_by") sortOrder None w)
    as (w' & Hfs & [[Hnc Hrun]|[(Hc & Hover & Hrun)|(Hc & Hin & next & snippets & Hrun)]]);
    rewrite Hrun.
  - eexists _, _. split; [reflexivity|]. split; [exact Hfs|]. split; [|reflexivity].
    simpl. rewrite bool_decide_eq_true_2; [reflexivity|].
    destruct (decide (SnippetsFolder (cfg api) = "")) as [E|E]; [exact E|]. destruct (Hnc E).
  - eexists _, _. split; [reflexivity|]. split; [exact Hfs|]. split; [|reflexivity].
    simpl. rewrite (bool_decide_eq_false_2 _ Hc).
    destruct (Z.ltb_spec 1000 (parseLimit Atoi r)); [reflexivity | lia].
  - eexists _, _. split; [reflexivity|]. split; [exact Hfs|]. split.
    + simpl. rewrite (bool_decide_eq_false_2 _ Hc).
      destruct (Z.ltb_spec 1000 (parseLimit Atoi r)); [lia | reflexivity].
    + simpl. intros [H|H]; [destruct (H eq_refl)|].
      apply bool_decide_eq_false in Hv. destruct (Hv H).
Qed.

Lemma handlerKeeps_handleSnippetsGet api r :
  handlerKeeps (handleSnippetsGet ToLower formatRFC3339 Atoi api r).
Proof.
  unfold handleSnippetsGet.
  destruct (bool_decide _); [apply handlerKeeps_writeJSON|].
  destruct (_ <? _); [apply handlerKeeps_writeJSON|].
  intros w.
  pose proof (keeps_getSnippets ToLower formatRFC3339 api (Query_Get r "name")
                (parseLimit Atoi r) (Query_Get r "cursor") (Query_Get r "sort_by")
                (if bool_decide (Query_Get r "sort_order" = "") then "desc"
                 else Query_Get r "sort_order") None w) as Hkeep.
  destruct (getSnippets _ _ _ _ _ _ _ _ _ w) as [[[next snippets]|e] w']; exact Hkeep.
Qed.

Lemma handlerKeeps_handleSnippetCount api r :
  handlerKeeps (handleSnippetCount ToLower formatRFC3339 api r).
Proof.
  unfold handleSnippetCount. intros w.
  pose proof (keeps_getSnippets ToLower formatRFC3339 api (Query_Get r "name") 0 "" "" "desc"
                None w) as Hkeep.
  destruct (getSnippets _ _ _ _ _ _ _ _ _ w) as [[[next snippets]|e] w']; [|exact Hkeep].
  destruct (negb _); [exact Hkeep|].
  destruct (fold_left countSnippet snippets (0, 0, 0)) as [[shared favorites] private].
  exact Hkeep.
Qed.

Lemma handlerKeeps_folderListing api r folderID :
  handlerKeeps (folderListing ToLower formatRFC3339 Atoi osErrorText api r folderID).
Proof.
  unfold folderListing. intros w.
  pose proof (keeps_getFolders api folderID w) as Hf.
  destruct (getFolders api folderID w) as [[folders|e] w']; [|exact Hf].
  pose proof (keeps_getSnippets ToLower formatRFC3339 api (Query_Get r "name")
                (parseLimit Atoi r) (Query_Get r "cursor") (Query_Get r "sort_by")
                (Query_Get r "sort_order") folderID w') as Hs.
  destruct (getSnippets _ _ _ _ _ _ _ _ _ w') as [[[next snippets]|e] w''];
    simpl in *; congruence.
Qed.

Lemma handlerKeeps_handleSnippetFolderByID api r :
  handlerKeeps (handleSnippetFolderByID ToLower formatRFC3339 Atoi osErrorText api r).
Proof.
  unfold handleSnippetFolderByID.
  destruct (bool_decide _); [apply handlerKeeps_writeJSON|].
  destruct (negb _); [apply handlerKeeps_writeMethodNotAllowed | apply handlerKeeps_folderListing].
Qed.

Lemma handlerKeeps_handleSnippetItem api r :
  handlerKeeps (handleSnippetItem ToLower formatRFC3339 osErrorText api r).
Proof.
  unfold handleSnippetItem.
  destruct (negb _); [apply handlerKeeps_writeMethodNotAllowed|]. intros w.
  pose proof (keeps_getSnippet formatRFC3339 api (chiURLParam r "id") w) as Hkeep.
  destruct (getSnippet _ _ _ w) as [[snippet|e] w']; [exact Hkeep|].
  destruct (Contains _ _); exact Hkeep.
Qed.

(** X17.  Requests that only read.  The count, the route of one folder
    and the route of one snippet never change the directory tree, whatever
    the request; the routes of the snippets and of the folders do not change
    it for any method other than PUT, POST and DELETE. *)
Theorem reading_requests_keep_tree (api : API) (r : Request) (w : World) :
  fs (snd (handleSnippetCount ToLower formatRFC3339 api r w)) = fs w
  /\ fs (snd (handleSnippetFolderByID ToLower formatRFC3339 Atoi osErrorText api r w)) = fs w
  /\ fs (snd (handleSnippetItem ToLower formatRFC3339 osErrorText api r w)) = fs w
  /\ (Method r <> "PUT" -> Method r <> "DELETE" ->
      fs (snd (handleSnippets ToLower formatRFC3339 TrimSpace Atoi osErrorText api r w)) = fs w)
  /\ (Method r <> "POST" -> Method r <> "DELETE" ->
      fs (snd (handleSnippetFolders ToLower formatRFC3339 TrimSpace Atoi osErrorText api r w))
      = fs w).
Proof.
  split; [apply handlerKeeps_handleSnippetCount|].
  split; [apply handlerKeeps_handleSnippetFolderByID|].
  split; [apply handlerKeeps_handleSnippetItem|].
  split.
  - intros Hput Hdel. unfold handleSnippets.
    destruct (bool_decide (Method r = "GET")); [apply handlerKeeps_handleSnippetsGet|].
    rewrite (bool_decide_eq_false_2 _ Hput), (bool_decide_eq_false_2 _ Hdel). reflexivity.
  - intros Hpost Hdel. unfold handleSnippetFolders.
    destruct (bool_decide (Method r = "GET")); [apply handlerKeeps_folderListing|].
    rewrite (bool_decide_eq_false_2 _ Hpost), (bool_decide_eq_false_2 _ Hdel). reflexivity.
Qed.

(** ** The limit of a request *)

Lemma getSnippets_default_limit api searchTerm limit cursor sortField sortOrder folderID w :
  limit <= 0 ->
  getSnippets ToLower formatRFC3339 api searchTerm limit cursor sortField sortOrder folderID w
  = getSnippets ToLower formatRFC3339 api searchTerm 0 cursor sortField sortOrder folderID w.
Proof.
  intros Hle. unfold getSnippets. rewrite !run_bind.
  destruct (getFilesystemEntries api w) as [[entries|e] w1]; [|reflexivity].
  rewrite (pageOf_default cursor limit), (pageOf_default cursor 0) by lia. reflexivity.
Qed.

(** The request without its [limit]. *)
Lemma Query_Get_delete (r : Request) (key : string) :
  key <> "limit" ->
  Query_Get (mkRequest (Method r) (delete "limit" (Query r)) (URLParams r) (Body r)) key
  = Query_Get r key.
Proof. intros H. unfold Query_Get. simpl. rewrite lookup_delete_ne by congruence. reflexivity. Qed.

Lemma parseLimit_delete (r : Request) :
  parseLimit Atoi (mkRequest (Method r) (delete "limit" (Query r)) (URLParams r) (Body r)) = 0.
Proof. unfold parseLimit, Query_Get. simpl. rewrite lookup_delete_eq. reflexivity. Qed.

Lemma folderListing_limit api r folderID w :
  parseLimit Atoi r <= 0 ->
  folderListing ToLower formatRFC3339 Atoi osErrorText api r folderID w
  = folderListing ToLower formatRFC3339 Atoi osErrorText api
      (mkRequest (Method r) (delete "limit" (Query r)) (URLParams r) (Body r)) folderID w.
Proof.
  intros Hle. unfold folderListing.
  destruct (getFolders api folderID w) as [[folders|e] w']; [|reflexivity].
  rewrite parseLimit_delete, !Query_Get_delete by discriminate.
  rewrite (getSnippets_default_limit _ _ (parseLimit Atoi r)) by exact Hle. reflexivity.
Qed.

(** X18.  A limit that is no limit.  A [limit] that is not a number (for
    which [parseLimit] returns -1), or any limit that is not positive, makes
    [handleSnippetsGet] answer 400 when it is negative, while the two
    folder routes answer a GET with it exactly as they answer the same
    request without a limit. *)
Theorem limit_not_positive (api : API) (r : Request) (w : World) :
  Method r = "GET" -> parseLimit Atoi r <= 0 ->
  let r0 := mkRequest (Method r) (delete "limit" (Query r)) (URLParams r) (Body r) in
  handleSnippetFolders ToLower formatRFC3339 TrimSpace Atoi osErrorText api r w
  = handleSnippetFolders ToLower formatRFC3339 TrimSpace Atoi osErrorText api r0 w
  /\ handleSnippetFolderByID ToLower formatRFC3339 Atoi osErrorText api r w
     = handleSnippetFolderByID ToLower formatRFC3339 Atoi osErrorText api r0 w
  /\ (parseLimit Atoi r < 0 -> Query_Get r "visibility" <> "project" ->
      handleSnippetsGet ToLower formatRFC3339 Atoi api r w
      = (Responded (mkResponse 400 "" (pMap {[ "data" := pSlice [] ]})), w)).
Proof.
  intros Hget Hle r0. split; [|split].
  - unfold handleSnippetFolders. simpl. rewrite Hget. simpl.
    apply folderListing_limit, Hle.
  - unfold handleSnippetFolderByID. simpl. rewrite Hget. simpl.
    apply folderListing_limit, Hle.
  - intros Hneg Hv. unfold handleSnippetsGet.
    rewrite (bool_decide_eq_false_2 _ Hv).
    destruct (Z.ltb_spec (parseLimit Atoi r) 0); [reflexivity | lia].
Qed.

(** ** Counting snippets *)

Lemma buildSnippets_fixed (page : list filesystemEntry) :
  forall w snippets w',
    loopMap (fun entry => buildSnippet formatRFC3339 (Name entry) (Content entry)
                            (FolderID entry) (CreatedAt entry)) page w
    = (Ok snippets, w') ->
    Forall (fun s => Visibility s = "user" /\ Favorite s = false) snippets.
Proof.
  induction page as [|e page IH]; intros w snippets w' Hrun.
  - injection Hrun as <- _. constructor.
  - simpl in Hrun. rewrite run_bind in Hrun. unfold buildSnippet at 1 in Hrun.
    rewrite (run_bind_ok _ _ w w _ (deterministicUUID_idInputs _ _ w)) in Hrun.
    rewrite run_bind in Hrun. simpl in Hrun. rewrite run_bind in Hrun.
    destruct (loopMap _ page _) as [[ss|err] w2] eqn:Hrest; [|discriminate Hrun].
    injection Hrun as <- _. constructor; [split; reflexivity|].
    apply (IH _ _ _ Hrest).
Qed.

Lemma getSnippets_fixed api searchTerm limit cursor sortField sortOrder folderID w
    nextCursor snippets w' :
  getSnippets ToLower formatRFC3339 api searchTerm limit cursor sortField sortOrder folderID w
  = (Ok (nextCursor, snippets), w') ->
  Forall (fun s => Visibility s = "user" /\ Favorite s = false) snippets.
Proof.
  unfold getSnippets. rewrite run_bind.
  destruct (getFilesystemEntries api w) as [[entries|e] w1]; [|discriminate].
  destruct (pageOf _ _ _) as [[next page]|e]; [|discriminate].
  rewrite run_bind.
  destruct (loopMap _ page w1) as [[ss|e] w2] eqn:Hrun; [|discriminate].
  intros H. injection H as _ <- _. apply (buildSnippets_fixed _ _ _ _ Hrun).
Qed.

Lemma countSnippet_fixed (snippets : list snippet) :
  Forall (fun s => Visibility s = "user" /\ Favorite s = false) snippets ->
  forall shared favorites private,
    fold_left countSnippet snippets (shared, favorites, private)
    = (shared, favorites, private + Z.of_nat (length snippets)).
Proof.
  induction 1 as [|s snippets [Hv Hf] _ IH]; intros shared favorites private; simpl.
  - f_equal. lia.
  - rewrite Hv, Hf. simpl. rewrite IH. f_equal. lia.
Qed.

Lemma pageOf_start_length (l page : list filesystemEntry) (nextCursor : string) :
  pageOf "" 0 l = Ok (nextCursor, page) ->
  Z.of_nat (length page) = Z.min 100 (Z.of_nat (length l)).
Proof.
  unfold pageOf. simpl. change (drop 0 l) with l.
  destruct (Z.ltb_spec 100 (Z.of_nat (length l))) as [Hmore|Hall];
    intros H; injection H as _ <-.
  - rewrite length_take. lia.
  - lia.
Qed.

(** X19.  What the count counts.  On a configured repository
    [handleSnippetCount] answers 200 and leaves the tree as it is.  With a
    name it answers the number of snippets, of all folders, whose lower-cased
    name holds the lower-cased name asked for; without one it answers no
    shared and no favorite snippet and, as private, the number of snippets
    of the root; either number being 100 when there are more than 100. *)
Theorem handleSnippetCount_counts (api : API) (r : Request) (w : World) :
  configured api -> named (fs w) ->
  let name := Query_Get r "name" in
  let files := List.filter isFile (entriesOf (fs w)) in
  let matching :=
    List.filter (fun e => Contains (ToLower (Name e)) (ToLower name)) files in
  let atRoot := List.filter (fun e => bool_decide (FolderID e = None)) files in
  exists w',
    fs w' = fs w
    /\ handleSnippetCount ToLower formatRFC3339 api r w
       = (Responded
            (mkResponse 200 ""
               (if negb (bool_decide (name = ""))
                then pMap {[ "count" := pInt (Z.min 100 (Z.of_nat (length matching))) ]}
                else pMap {[ "shared" := pInt 0;
                             "favorites" := pInt 0;
                             "private" := pInt (Z.min 100 (Z.of_nat (length atRoot))) ]})),
          w').
Proof.
  intros Hc Hn name files matching atRoot. unfold handleSnippetCount. fold name.
  pose proof (getSnippets_page ToLower formatRFC3339 api name 0 "" "" "desc" None w Hc Hn)
    as Hpage.
  destruct (pageOf "" 0 (listed ToLower name "" "desc" None (fs w)))
    as [[nextCursor page]|e] eqn:Hp.
  2:{ unfold pageOf in Hp. simpl in Hp. destruct (_ <? _); discriminate Hp. }
  destruct Hpage as (snippets & w' & Hrun & Hfs & Hkeys).
  exists w'. split; [exact Hfs|]. rewrite Hrun.
  assert (Hlen : Z.of_nat (length snippets)
                 = Z.min 100 (Z.of_nat (length (filterFiles ToLower name None files)))).
  { rewrite <- (length_map snippetKey), Hkeys, length_map.
    rewrite (pageOf_start_length _ _ _ Hp). unfold listed.
    rewrite (Permutation_length (sortEntries_Permutation ToLower "" "desc" _)). reflexivity. }
  unfold filterFiles in Hlen.
  destruct (negb (bool_decide (name = ""))) eqn:Hname.
  - rewrite Hlen. reflexivity.
  - rewrite (countSnippet_fixed _ (getSnippets_fixed _ _ _ _ _ _ _ _ _ _ _ Hrun)).
    rewrite Hlen. simpl.
    rewrite (List.filter_ext (fun file => matchesFolder (FolderID file) None)
               (fun e => bool_decide (FolderID e = None))).
    + reflexivity.
    + intros e. destruct (FolderID e); reflexivity.
Qed.

(** ** One snippet *)

Lemma notFound_text :
  lowersASCII ToLower ->
  Contains (ToLower (Error osErrorText errSnippetNotFound)) "not found" = true
  /\ Contains (ToLower (Error osErrorText errFolderNotFound)) "not found" = true
  /\ Contains (ToLower (Error osErrorText errSnippetsFolderEnvNotSet)) "not found" = false.
Proof.
  intros H. unfold Error. rewrite !H by reflexivity. repeat split; vm_compute; reflexivity.
Qed.

(** X20.  The statuses of one snippet.  With a [strings.ToLower] that
    lowers the ASCII letters, [handleSnippetItem] answers a GET with 500 when
    the snippets folder is not configured; on a configured repository with
    404 when no snippet has the id of the route, and with 200 and the first
    snippet of the scan that has it otherwise.  Every other method is
    answered with 405 and the header [Allow: GET]. *)
Theorem handleSnippetItem_status (api : API) (r : Request) (w : World) :
  lowersASCII ToLower -> named (fs w) ->
  let id := chiURLParam r "id" in
  let answer := handleSnippetItem ToLower formatRFC3339 osErrorText api r w in
  (Method r <> "GET" -> exists p, answer = (Responded (mkResponse 405 "GET" p), w))
  /\ (Method r = "GET" -> ~ configured api ->
      exists p, answer = (Responded (mkResponse 500 "" p), w))
  /\ (Method r = "GET" -> configured api ->
      (forall e, In e (entriesOf (fs w)) -> Type_ e = "file" -> ID e <> id) ->
      answer
      = (Responded (mkResponse 404 "" (pMap {[ "message" := pString "Content not found." ]})),
         w))
  /\ (Method r = "GET" -> configured api ->
      forall e,
        List.find (fun entry => isFile entry && bool_decide (ID entry = id)) (entriesOf (fs w))
        = Some e ->
        exists s w',
          answer = (Responded (mkResponse 200 "" (pSnippet s)), w')
          /\ fs w' = fs w /\ snippetKey s = entryKey e).
Proof.
  intros Hlow Hn id answer. unfold answer, handleSnippetItem. fold id.
  destruct (notFound_text Hlow) as (Hnf & _ & Henv).
  split; [|split; [|split]].
  - intros Hm. rewrite (bool_decide_eq_false_2 _ Hm). eexists. reflexivity.
  - intros Hm Hnc. rewrite (bool_decide_eq_true_2 _ Hm). simpl.
    unfold getSnippet. rewrite run_bind, (getFilesystemEntries_unconfigured api w Hnc).
    rewrite Henv. eexists. reflexivity.
  - intros Hm Hc Hnone. rewrite (bool_decide_eq_true_2 _ Hm). simpl.
    rewrite (getSnippet_absent formatRFC3339 api id w Hc Hn Hnone), Hnf. reflexivity.
  - intros Hm Hc e Hfind. rewrite (bool_decide_eq_true_2 _ Hm). simpl.
    destruct (getSnippet_of_find formatRFC3339 api id w e Hc Hn Hfind)
      as (s & w' & Hrun & Hkey & _).
    pose proof (keeps_getSnippet formatRFC3339 api id w) as Hkeep.
    rewrite Hrun in *. exists s, w'. auto.
Qed.

(** ** Deleting several snippets *)

Lemma deleteSnippet_root_file api (n c : string) (t : Z) (w : World) :
  configured api -> plainTree (fs w) -> List.NoDup (map ID (entriesOf (fs w))) ->
  fs w !! (n +:+ ".sql") = Some (File c t) ->
  deleteSnippet api (identify [n +:+ ".sql"]) w
  = (Ok tt, mkWorld (delete (n +:+ ".sql") (fs w)) (now w) (entropy w) (drawn w)).
Proof.
  intros Hc Hp Hnd Hk.
  pose proof (plainTree_named _ Hp) as Hn.
  set (k := n +:+ ".sql") in *.
  pose proof (fileEntry_sql None n c t) as Hfound. fold k in Hfound.
  assert (Hin : In (fileEntry None k c t) (entriesOf (fs w))).
  { apply elem_entriesOf. right. left. exists k, c, t.
    split; [exact Hk|]. split; [apply isSnippetFile_sql | reflexivity]. }
  destruct (find_first (fun entry => bool_decide (ID entry = identify [k]) && isFile entry)
              (entriesOf (fs w)) _ Hin) as [t0 Ht0].
  { rewrite Hfound. apply andb_true_iff. split; apply bool_decide_eq_true; reflexivity. }
  assert (t0 = fileEntry None k c t) as ->.
  { apply find_some in Ht0 as [Hin0 Hb]. apply andb_true_iff in Hb as [Hb _].
    apply bool_decide_eq_true in Hb.
    apply (NoDup_map_eq ID (entriesOf (fs w))); [assumption..|]. rewrite Hfound. exact Hb. }
  rewrite (deleteSnippet_found api _ w _ Hc Hn Ht0).
  rewrite deletePath_root by (rewrite Hfound; reflexivity).
  replace (Name (fileEntry None k c t) +:+ ".sql") with k by (rewrite Hfound; reflexivity).
  rewrite (filepath_Join_plain1 k (plainTree_root _ _ _ Hp Hk)).
  apply run_remove. simpl. rewrite Hk. reflexivity.
Qed.

Lemma deleteSnippets_blank api (idsList : list string) (deleted : list payload) (w : World) :
  (forall id, In id idsList -> TrimSpace id = "") ->
  deleteSnippets TrimSpace api idsList deleted w
  = (Responded (mkResponse 200 "" (sliceOrNil deleted)), w).
Proof.
  induction idsList as [|id rest IH]; intros Hblank; [reflexivity|]. simpl.
  rewrite (Hblank id) by (left; reflexivity). simpl.
  apply IH. intros; apply Hblank; right; assumption.
Qed.

(** X21.  Deleting several snippets.  [handleSnippetsDelete] removes the
    snippets in the order of the list and stops at the first it cannot
    remove: on a configured repository whose tree has plain names and
    distinct ids, for a list that starts with the id of the snippet [n.sql]
    of the root followed by an id no snippet has, it answers 500 after it
    has removed [n.sql].  For a list of which nothing is left once the
    blanks are trimmed it removes nothing and answers 200 with [nil]. *)
Theorem handleSnippetsDelete_stops (api : API) (r : Request) (w : World) :
  Query_Get r "ids" <> "" ->
  let idsList := Split (Query_Get r "ids") ","%char in
  let answer := handleSnippetsDelete TrimSpace api r w in
  (forall n c t first second rest,
      configured api -> plainTree (fs w) -> List.NoDup (map ID (entriesOf (fs w))) ->
      fs w !! (n +:+ ".sql") = Some (File c t) ->
      idsList = first :: second :: rest ->
      TrimSpace first = identify [n +:+ ".sql"] ->
      TrimSpace second <> "" ->
      (forall e, In e (entriesOf (fs w)) -> Type_ e = "file" -> ID e <> TrimSpace second) ->
      exists w',
        answer
        = (Responded
             (mkResponse 500 "" (pMap {[ "error" := pString "Failed to delete snippets" ]})),
           w')
        /\ fs w' = delete (n +:+ ".sql") (fs w))
  /\ ((forall id, In id idsList -> TrimSpace id = "") ->
      answer = (Responded (mkResponse 200 "" pNil), w)).
Proof.
  intros Hids idsList answer. unfold answer, handleSnippetsDelete.
  rewrite (bool_decide_eq_false_2 _ Hids). fold idsList. split.
  - intros n c t first second rest Hc Hp Hnd Hk -> Hfirst Hsecond Hnone.
    cbn [deleteSnippets]. rewrite Hfirst.
    rewrite (bool_decide_eq_false_2 _ (identify_nonempty _)).
    rewrite (deleteSnippet_root_file api n c t w Hc Hp Hnd Hk).
    rewrite (bool_decide_eq_false_2 _ Hsecond).
    set (w1 := mkWorld (delete (n +:+ ".sql") (fs w)) (now w) (entropy w) (drawn w)).
    assert (Hn1 : named (fs w1)).
    { unfold named. simpl. rewrite lookup_delete_ne; [apply plainTree_named, Hp|].
      intros E. assert (Hl : String.length (n +:+ ".sql") = String.length "")
        by (f_equal; exact E).
      rewrite append_length in Hl. simpl in Hl. lia. }
    rewrite (deleteSnippet_absent api (TrimSpace second) w1 Hc Hn1).
    + exists w1. split; reflexivity.
    + intros e He Hf.
      apply (entriesOf_delete_file (fs w) _ c t e Hk (isSnippetFile_sql n)) in He as [He _].
      exact (Hnone e He Hf).
  - intros Hblank. apply (deleteSnippets_blank api idsList [] w Hblank).
Qed.

(** ** Saving through the route *)

Lemma updateSnippet_absent api (id : string) (updates : gmap string any) (w : World) :
  configured api -> named (fs w) ->
  (forall e, In e (entriesOf (fs w)) -> Type_ e = "file" -> ID e <> id) ->
  updateSnippet formatRFC3339 api id updates w = (Err errSnippetNotFound, w).
Proof.
  intros Hc Hn Hnone. unfold updateSnippet.
  rewrite (run_bind_ok _ _ w w _ (getFilesystemEntries_entriesOf api w Hc Hn)).
  rewrite find_nothing; [reflexivity|].
  intros e He. apply not_true_is_false. intros Hb.
  apply andb_true_iff in Hb as [H1 H2].
  apply bool_decide_eq_true in H1. apply bool_decide_eq_true in H2. exact (Hnone e He H2 H1).
Qed.

(** X22.  A PUT without id.  With a [strings.ToLower] that lowers the
    ASCII letters, on a configured repository, [handleSnippetsPut] panics on
    every body that decodes but holds no string under [id]: the update of
    the id [""] finds no snippet, and the snippet to create is then built
    with an unchecked type assertion on [id].  Nothing is written, neither to
    the tree nor to the response. *)
Theorem handleSnippetsPut_without_id (api : API) (r : Request) (payload : gmap string any)
    (w : World) :
  lowersASCII ToLower -> configured api -> named (fs w) ->
  Body r = Some payload ->
  (forall s, payload !! "id" <> Some (anyString s)) ->
  handleSnippetsPut ToLower formatRFC3339 osErrorText api r w = (Panicked, w).
Proof.
  intros Hlow Hc Hn Hbody Hid. unfold handleSnippetsPut. rewrite Hbody.
  assert (Hempty : stringOr (payload !! "id") = "").
  { destruct (payload !! "id") as [[|s| |]|]; try reflexivity. destruct (Hid s eq_refl). }
  rewrite Hempty.
  rewrite (updateSnippet_absent api "" payload w Hc Hn).
  2:{ intros e He _. apply (entriesOf_ID_nonempty (fs w) e He). }
  destruct (notFound_text Hlow) as (-> & _ & _). simpl.
  destruct (payload !! "id") as [[|s| |]|]; try reflexivity. destruct (Hid s eq_refl).
Qed.

(** X23.  A PUT that creates.  With a [strings.ToLower] that lowers the
    ASCII letters, on a configured repository, [handleSnippetsPut] with an
    id no snippet has, a name the sanitizer leaves as it is and is not the
    root path [/], and no [folder_id], where no directory stands at
    [name.sql] in the root, writes the [sql] of the content (nothing when
    there is none) to [name.sql] at the root and answers 200 with the
    snippet, whose id is the id of [[name.sql]] and not the id of the
    request. *)
Theorem handleSnippetsPut_creates (api : API) (r : Request) (payload : gmap string any)
    (id name : string) (w : World) :
  lowersASCII ToLower -> configured api -> named (fs w) ->
  Body r = Some payload ->
  payload !! "id" = Some (anyString id) ->
  payload !! "name" = Some (anyString name) ->
  payload !! "folder_id" = None ->
  (forall e, In e (entriesOf (fs w)) -> Type_ e = "file" -> ID e <> id) ->
  sanitizeName name = name -> name <> "/" ->
  (forall mt ch, fs w !! (name +:+ ".sql") <> Some (Dir mt ch)) ->
  let sql := stringOr (mapOr (payload !! "content") !! "sql") in
  exists saved w',
    handleSnippetsPut ToLower formatRFC3339 osErrorText api r w
    = (Responded (mkResponse 200 "" (pSnippet saved)), w')
    /\ fs w' = <[name +:+ ".sql" := File sql (now w)]> (fs w)
    /\ snippetKey saved = (identify [name +:+ ".sql"], name, sql, None).
Proof.
  intros Hlow Hc Hn Hbody Hid Hname Hfolder Hnone Hs Hroot Hdir sql.
  unfold handleSnippetsPut. rewrite Hbody, Hid. simpl stringOr.
  rewrite (updateSnippet_absent api id payload w Hc Hn Hnone).
  destruct (notFound_text Hlow) as (-> & _ & _). simpl negb. cbv iota.
  rewrite Hname, Hfolder. simpl stringOr. fold sql.
  destruct (saveSnippet_at_root formatRFC3339 api (requestSnippet id name sql None) w
              Hc Hn Hs Hroot eq_refl Hnone Hdir)
    as (saved & w' & Hsave & Hfs & _ & Hkey & _).
  rewrite Hsave. exists saved, w'. split; [reflexivity|]. split; assumption.
Qed.

End HandlerFacts.

Lemma asciiToLower_lowersASCII : lowersASCII asciiToLower.
Proof. intros s _. reflexivity. Qed.

Lemma handleSnippetsGet_status_witness :
  let r := mkRequest "GET" {[ "limit" := ["abc"] ]} ∅ None in
  exists resp w',
    handleSnippetsGet asciiToLower noFormat atoiDigits api_snippets r (world_of tree_five)
    = (Responded resp, w')
    /\ fs w' = tree_five
    /\ Status resp = 400
    /\ Payload resp = pMap {[ "data" := pSlice [] ]}.
Proof.
  intros r.
  destruct (handleSnippetsGet_status asciiToLower noFormat atoiDigits api_snippets r
              (world_of tree_five)) as (resp & w' & Hrun & Hfs & Hstatus & Hdata).
  exists resp, w'. split; [exact Hrun|]. split; [exact Hfs|].
  assert (H400 : Status resp = 400) by (rewrite Hstatus; reflexivity).
  split; [exact H400|]. apply Hdata. left. rewrite H400. discriminate.
Defined.

Lemma reading_requests_keep_tree_witness :
  let r := mkRequest "GET" ∅ {[ "id" := "x" ]} None in
  fs (snd (handleSnippets asciiToLower noFormat trimBlanks atoiDigits noText api_snippets r
             (world_of tree_folder))) = tree_folder
  /\ fs (snd (handleSnippetFolders asciiToLower noFormat trimBlanks atoiDigits noText
                api_snippets r (world_of tree_folder))) = tree_folder
  /\ fs (snd (handleSnippetItem asciiToLower noFormat noText api_snippets r
                (world_of tree_folder))) = tree_folder.
Proof.
  intros r.
  destruct (reading_requests_keep_tree asciiToLower noFormat trimBlanks atoiDigits noText
              api_snippets r (world_of tree_folder)) as (_ & _ & Hitem & Hsnippets & Hfolders).
  split; [apply Hsnippets; discriminate|]. split; [apply Hfolders; discriminate | exact Hitem].
Defined.

Lemma limit_not_positive_witness :
  let r := mkRequest "GET" {[ "limit" := ["abc"] ]} ∅ None in
  let r0 := mkRequest "GET" ∅ ∅ None in
  handleSnippetFolders asciiToLower noFormat trimBlanks atoiDigits noText api_snippets r
    (world_of tree_folder)
  = handleSnippetFolders asciiToLower noFormat trimBlanks atoiDigits noText api_snippets r0
      (world_of tree_folder)
  /\ handleSnippetsGet asciiToLower noFormat atoiDigits api_snippets r (world_of tree_folder)
     = (Responded (mkResponse 400 "" (pMap {[ "data" := pSlice [] ]})), world_of tree_folder).
Proof.
  intros r r0.
  destruct (limit_not_positive asciiToLower noFormat trimBlanks atoiDigits noText api_snippets
              r (world_of tree_folder) eq_refl) as (Hfolders & _ & Hget).
  { vm_compute. discriminate. }
  split.
  - exact Hfolders.
  - apply Hget; [reflexivity | discriminate].
Defined.

Lemma handleSnippetCount_counts_witness :
  exists w',
    fs w' = tree_folder
    /\ handleSnippetCount asciiToLower noFormat api_snippets (mkRequest "GET" ∅ ∅ None)
         (world_of tree_folder)
       = (Responded (mkResponse 200 ""
                       (pMap {[ "shared" := pInt 0; "favorites" := pInt 0;
                                "private" := pInt 1 ]})), w').
Proof.
  destruct (handleSnippetCount_counts asciiToLower noFormat api_snippets
              (mkRequest "GET" ∅ ∅ None) (world_of tree_folder))
    as (w' & Hfs & Hrun).
  - vm_compute. discriminate.
  - vm_compute. reflexivity.
  - exists w'. split; [exact Hfs|]. rewrite Hrun. reflexivity.
Defined.

Lemma handleSnippetItem_status_witness :
  handleSnippetItem asciiToLower noFormat noText api_snippets
    (mkRequest "GET" ∅ {[ "id" := "nothing" ]} None) (world_of tree_folder)
  = (Responded (mkResponse 404 "" (pMap {[ "message" := pString "Content not found." ]})),
     world_of tree_folder)
  /\ exists p,
       handleSnippetItem asciiToLower noFormat noText api_unconfigured
         (mkRequest "GET" ∅ {[ "id" := "nothing" ]} None) (world_of tree_folder)
       = (Responded (mkResponse 500 "" p), world_of tree_folder).
Proof.
  assert (Hn : named (fs (world_of tree_folder))) by (vm_compute; reflexivity).
  destruct (handleSnippetItem_status asciiToLower noFormat noText api_snippets
              (mkRequest "GET" ∅ {[ "id" := "nothing" ]} None) (world_of tree_folder)
              asciiToLower_lowersASCII Hn) as (_ & _ & H404 & _).
  destruct (handleSnippetItem_status asciiToLower noFormat noText api_unconfigured
              (mkRequest "GET" ∅ {[ "id" := "nothing" ]} None) (world_of tree_folder)
              asciiToLower_lowersASCII Hn) as (_ & H500 & _).
  split.
  - apply H404; [reflexivity | vm_compute; discriminate|].
    intros e He _. vm_compute in He.
    destruct He as [<-|[<-|[<-|[]]]]; vm_compute; discriminate.
  - apply H500; [reflexivity|]. intros H. apply H. reflexivity.
Defined.

Lemma handleSnippetsDelete_stops_witness :
  let ids := identify ["b" +:+ ".sql"] +:+ ", nothing" in
  exists w',
    handleSnippetsDelete trimBlanks api_snippets (mkRequest "DELETE" {[ "ids" := [ids] ]} ∅ None)
      (world_of tree_folder)
    = (Responded
         (mkResponse 500 "" (pMap {[ "error" := pString "Failed to delete snippets" ]})), w')
    /\ fs w' = delete ("b" +:+ ".sql") tree_folder.
Proof.
  intros ids.
  assert (Hids : Query_Get (mkRequest "DELETE" {[ "ids" := [ids] ]} ∅ None) "ids" <> "").
  { vm_compute. discriminate. }
  destruct (handleSnippetsDelete_stops trimBlanks api_snippets
              (mkRequest "DELETE" {[ "ids" := [ids] ]} ∅ None) (world_of tree_folder) Hids)
    as [Hstops _].
  apply (Hstops "b" "select 2" 5 (identify ["b" +:+ ".sql"]) " nothing" []).
  - vm_compute. discriminate.
  - refine (bool_decide_unpack _ _). vm_compute. exact I.
  - vm_compute.
    repeat (apply List.NoDup_cons; [intros H; simpl in H; intuition discriminate|]).
    apply List.NoDup_nil.
  - vm_compute. reflexivity.
  - vm_compute. reflexivity.
  - vm_compute. reflexivity.
  - vm_compute. discriminate.
  - intros e He _. vm_compute in He.
    destruct He as [<-|[<-|[<-|[]]]]; vm_compute; discriminate.
Defined.

Lemma handleSnippetsPut_without_id_witness :
  handleSnippetsPut asciiToLower noFormat noText api_snippets
    (mkRequest "PUT" ∅ ∅ (Some {[ "name" := anyString "c" ]})) (world_of tree_folder)
  = (Panicked, world_of tree_folder).
Proof.
  apply (handleSnippetsPut_without_id asciiToLower noFormat noText api_snippets
           (mkRequest "PUT" ∅ ∅ (Some {[ "name" := anyString "c" ]}))
           {[ "name" := anyString "c" ]}).
  - exact asciiToLower_lowersASCII.
  - vm_compute. discriminate.
  - vm_compute. reflexivity.
  - reflexivity.
  - intros s. vm_compute. discriminate.
Defined.

Lemma handleSnippetsPut_creates_witness :
  let payload : gmap string any :=
    {[ "id" := anyString "new"; "name" := anyString "c";
       "content" := anyMap {[ "sql" := anyString "select 3" ]} ]} in
  exists saved w',
    handleSnippetsPut asciiToLower noFormat noText api_snippets
      (mkRequest "PUT" ∅ ∅ (Some payload)) (world_of tree_folder)
    = (Responded (mkResponse 200 "" (pSnippet saved)), w')
    /\ fs w' = <["c" +:+ ".sql" := File "select 3" 1000]> tree_folder
    /\ snippetKey saved = (identify ["c" +:+ ".sql"], "c", "select 3", None).
Proof.
  intros payload.
  apply (handleSnippetsPut_creates asciiToLower noFormat noText api_snippets
           (mkRequest "PUT" ∅ ∅ (Some payload)) payload "new" "c" (world_of tree_folder)).
  - exact asciiToLower_lowersASCII.
  - vm_compute. discriminate.
  - vm_compute. reflexivity.
  - reflexivity.
  - vm_compute. reflexivity.
  - vm_compute. reflexivity.
  - vm_compute. reflexivity.
  - intros e He _. vm_compute in He.
    destruct He as [<-|[<-|[<-|[]]]]; vm_compute; discriminate.
  - vm_compute. reflexivity.
  - discriminate.
  - intros mt ch. vm_compute. discriminate.
Defined.

(** ** Creating a folder through the route *)

Lemma createFolder_new (api : API) (name : string) (w : World) :
  configured api -> named (fs w) -> sanitizeName name = name ->
  name <> "" -> name <> "." -> name <> ".." -> name <> "/" ->
  fs w !! name = None ->
  createFolder api name w
  = (Ok (mkFolder (identify [name]) name 1 None 1),
     mkWorld (<[name := Dir (now w) ∅]> (fs w)) (now w) (entropy w) (drawn w)).
Proof.
  intros Hc Hn Hs H1 H2 H3 H4 Hnew.
  rewrite (createFolder_run api name w Hc Hn Hs H1).
  rewrite folder_with_Name.
  2:{ intros e He Hf Hname. apply elem_entriesOf in He
        as [(d & mt & ch & Hd & ->)|[(n & c & mt & _ & _ & ->)|
            (d & dmt & ch & n & c & mt & _ & _ & _ & ->)]]; try discriminate Hf.
      simpl in Hname. subst d. congruence. }
  rewrite (filepath_Join_plain1 name (sanitized_plain name Hs H1 H2 H3 H4)).
  rewrite run_bind. unfold os_MkdirAll, onTree. simpl. rewrite Hnew.
  rewrite run_bind, (deterministicUUID_single name _ H1). reflexivity.
Qed.

Lemma createFolder_existing (api : API) (name : string) (mt : Z) (ch : gmap string node)
    (w : World) :
  configured api -> named (fs w) -> sanitizeName name = name ->
  fs w !! name = Some (Dir mt ch) ->
  createFolder api name w = (Err errFolderAlreadyExists, w).
Proof.
  intros Hc Hn Hs Hd.
  assert (Hne : name <> "") by (intros ->; unfold named in Hn; congruence).
  rewrite (createFolder_run api name w Hc Hn Hs Hne).
  assert (Hex : existsb (fun entry => isFolder entry && bool_decide (Name entry = name))
                  (entriesOf (fs w)) = true).
  { apply existsb_exists. exists (folderEntry name mt). split.
    - apply elem_entriesOf. left. exists name, mt, ch. auto.
    - apply andb_true_iff. split; apply bool_decide_eq_true; reflexivity. }
  rewrite Hex. reflexivity.
Qed.

(** The names [.], [..] and the root path pass the sanitizer and name a
    directory that is there already: the root or its parent. *)
Lemma createFolder_special (api : API) (name : string) (w : World) :
  configured api -> named (fs w) ->
  name = "." \/ name = ".." \/ name = "/" ->
  (forall mt ch, fs w !! name <> Some (Dir mt ch)) ->
  exists w',
    createFolder api name w = (Ok (mkFolder (identify [name]) name 1 None 1), w')
    /\ fs w' = fs w.
Proof.
  intros Hc Hn Hname Hdir.
  assert (Hs : sanitizeName name = name) by (destruct Hname as [->|[->| ->]]; reflexivity).
  assert (Hne : name <> "") by (destruct Hname as [->|[->| ->]]; discriminate).
  rewrite (createFolder_run api name w Hc Hn Hs Hne).
  rewrite folder_with_Name.
  2:{ intros e He Hf Heq. apply elem_entriesOf in He
        as [(d & mt & ch & Hd & ->)|[(n & c & mt & _ & _ & ->)|
            (d & dmt & ch & n & c & mt & _ & _ & _ & ->)]]; try discriminate Hf.
      simpl in Heq. subst d. exact (Hdir mt ch Hd). }
  rewrite run_bind.
  assert (Hmk : exists w1, os_MkdirAll (filepath_Join [name]) w = (Ok tt, w1) /\ fs w1 = fs w).
  { destruct Hname as [->|[->| ->]].
    - eexists. split; reflexivity.
    - exists w. split; reflexivity.
    - eexists. split; reflexivity. }
  destruct Hmk as (w1 & -> & Hfs).
  rewrite run_bind, (deterministicUUID_single name w1 Hne).
  exists w1. split; [reflexivity | exact Hfs].
Qed.

Section RouteFacts.

Variable ToLower : string -> string.
Variable formatRFC3339 : Z -> string.
Variable TrimSpace : string -> string.
Variable Atoi : string -> option Z.
Variable osErrorText : oserror -> string.

(** X12.  Creating a folder through the route.  On a configured
    repository [handleSnippetFolders] answers a POST with 400 when the body
    does not decode; with 500 and [folder name is required] when the body has
    no string under [name] or one the sanitizer rejects; with 500 and
    [folder already exists] when the root has a directory of that name; with
    201 and the folder, after making the directory, when the name is not
    empty, is one the sanitizer leaves as it is, other than [.], [..] and
    the root path, and the root has no entry of that name; and for the names
    [.], [..] and the root path (no directory of the root having that name)
    with 201 and a folder of that name although no directory is made.  The
    tree changes only where the directory is made. *)
Theorem handleSnippetFolders_post (api : API) (r : Request) (w : World) :
  Method r = "POST" -> configured api -> named (fs w) ->
  let answer :=
    handleSnippetFolders ToLower formatRFC3339 TrimSpace Atoi osErrorText api r w in
  (Body r = None ->
   answer
   = (Responded (mkResponse 400 "" (pMap {[ "error" := pString "Invalid request body" ]})), w))
  /\ (forall payload,
        Body r = Some payload -> sanitizeName (stringOr (payload !! "name")) = "" ->
        answer
        = (Responded (mkResponse 500 "" (pMap {[ "error" := pString "folder name is required" ]})),
           w))
  /\ (forall payload name mt ch,
        Body r = Some payload -> payload !! "name" = Some (anyString name) ->
        sanitizeName name = name -> fs w !! name = Some (Dir mt ch) ->
        answer
        = (Responded (mkResponse 500 "" (pMap {[ "error" := pString "folder already exists" ]})),
           w))
  /\ (forall payload name,
        Body r = Some payload -> payload !! "name" = Some (anyString name) ->
        sanitizeName name = name ->
        name <> "" -> name <> "." -> name <> ".." -> name <> "/" ->
        fs w !! name = None ->
        exists w',
          answer
          = (Responded (mkResponse 201 "" (pFolder (mkFolder (identify [name]) name 1 None 1))),
             w')
          /\ fs w' = <[name := Dir (now w) ∅]> (fs w))
  /\ (forall payload name,
        Body r = Some payload -> payload !! "name" = Some (anyString name) ->
        name = "." \/ name = ".." \/ name = "/" ->
        (forall mt ch, fs w !! name <> Some (Dir mt ch)) ->
        exists w',
          answer
          = (Responded (mkResponse 201 "" (pFolder (mkFolder (identify [name]) name 1 None 1))),
             w')
          /\ fs w' = fs w).
Proof.
  intros Hm Hc Hn answer. unfold answer, handleSnippetFolders. rewrite Hm. simpl.
  split; [|split; [|split; [|split]]].
  - intros ->. reflexivity.
  - intros payload -> Hs. rewrite (createFolder_rejects api _ w Hc Hs). reflexivity.
  - intros payload name mt ch -> Hname Hs Hd. rewrite Hname. simpl.
    rewrite (createFolder_existing api name mt ch w Hc Hn Hs Hd). reflexivity.
  - intros payload name -> Hname Hs H1 H2 H3 H4 Hnew. rewrite Hname. simpl.
    rewrite (createFolder_new api name w Hc Hn Hs H1 H2 H3 H4 Hnew).
    eexists. split; reflexivity.
  - intros payload name -> Hname Hspecial Hdir. rewrite Hname. simpl.
    destruct (createFolder_special api name w Hc Hn Hspecial Hdir) as (w' & -> & Hfs).
    exists w'. split; [reflexivity | exact Hfs].
Qed.

(** ** An update that fails through the route *)

Lemma saveSnippet_missing_folder (api : API) (newSnippet : snippet) (f : string) (w : World) :
  configured api -> named (fs w) ->
  snippet_FolderID newSnippet = Some f ->
  (forall e, In e (entriesOf (fs w)) -> Type_ e = "file" -> ID e <> snippet_ID newSnippet) ->
  (forall e, In e (entriesOf (fs w)) -> Type_ e = "folder" -> ID e <> f) ->
  saveSnippet formatRFC3339 api newSnippet w = (Err errFolderNotFound, w).
Proof.
  intros Hc Hn Hf Hid Hnone. unfold saveSnippet.
  rewrite (run_bind_ok _ _ w w _ (getFilesystemEntries_entriesOf api w Hc Hn)).
  rewrite (no_file_with_ID _ _ Hid), Hf.
  rewrite existsb_none; [reflexivity|].
  intros e He. apply not_true_is_false. intros Hb.
  apply andb_true_iff in Hb as [H1 H2].
  apply bool_decide_eq_true in H1. apply bool_decide_eq_true in H2.
  exact (Hnone e He H2 H1).
Qed.

(** X24.  A PUT that loses the snippet.  With a [strings.ToLower] that
    lowers the ASCII letters, on a configured repository whose tree has
    plain names and distinct ids, [handleSnippetsPut] that moves the snippet
    [n.sql] of the root to a folder id no folder has (the target id being no
    other snippet's) removes the file, takes the [folder not found] of the
    update for a missing snippet, fails to create it for the same reason,
    and answers 500 with [Failed to create snippet]: the snippet is gone. *)
Theorem handleSnippetsPut_loses_snippet (api : API) (r : Request)
    (payload : gmap string any) (n c : string) (t : Z) (f : string) (w : World) :
  lowersASCII ToLower ->
  configured api -> plainTree (fs w) -> List.NoDup (map ID (entriesOf (fs w))) ->
  fs w !! (n +:+ ".sql") = Some (File c t) ->
  Body r = Some payload ->
  payload !! "id" = Some (anyString (identify [n +:+ ".sql"])) ->
  payload !! "name" = None ->
  payload !! "folder_id" = Some (anyString f) ->
  (forall e, In e (entriesOf (fs w)) -> Type_ e = "folder" -> ID e <> f) ->
  (forall e, In e (entriesOf (fs w)) -> Type_ e = "file" ->
             ID e <> identify [n +:+ ".sql"] -> ID e <> identify [f; n +:+ ".sql"]) ->
  exists w',
    handleSnippetsPut ToLower formatRFC3339 osErrorText api r w
    = (Responded (mkResponse 500 "" (pMap {[ "error" := pString "Failed to create snippet" ]})),
       w')
    /\ fs w' = delete (n +:+ ".sql") (fs w).
Proof.
  intros Hlow Hc Hp Hnd Hk Hbody Hid Hname Hfolder Hnone Hfree.
  destruct (updateSnippet_removes formatRFC3339 api n c t payload n (Some f) w Hc Hp Hnd Hk)
    as (w2 & contentID & Hfs2 & _ & Hgone & Hrun).
  { rewrite Hname. reflexivity. }
  { rewrite Hfolder. reflexivity. }
  { exact Hfree. }
  assert (Hn2 : named (fs w2)).
  { rewrite Hfs2. unfold named. rewrite lookup_delete_ne; [apply plainTree_named, Hp|].
    intros E. assert (Hl : String.length (n +:+ ".sql") = String.length "") by (f_equal; exact E).
    rewrite append_length in Hl. simpl in Hl. lia. }
  assert (Hfolders2 : forall e, In e (entriesOf (fs w2)) -> Type_ e = "folder" -> ID e <> f).
  { intros e He Hf. rewrite Hfs2 in He.
    apply (entriesOf_delete_file (fs w) _ c t e Hk (isSnippetFile_sql n)) in He as [He _].
    exact (Hnone e He Hf). }
  unfold handleSnippetsPut. rewrite Hbody, Hid. simpl stringOr. rewrite Hrun.
  rewrite (saveSnippet_missing_folder api _ f w2 Hc Hn2);
    [| reflexivity | intros e He Hf; apply (Hgone e He Hf) | exact Hfolders2].
  destruct (notFound_text ToLower osErrorText Hlow) as (_ & -> & _). simpl negb. cbv iota.
  rewrite Hfolder.
  rewrite (saveSnippet_missing_folder api _ f w2 Hc Hn2);
    [| reflexivity | intros e He Hf; apply (Hgone e He Hf) | exact Hfolders2].
  exists w2. split; [reflexivity | exact Hfs2].
Qed.

End RouteFacts.

Lemma handleSnippetFolders_post_witness :
  let post := fun name =>
    handleSnippetFolders asciiToLower noFormat trimBlanks atoiDigits noText api_snippets
      (mkRequest "POST" ∅ ∅ (Some {[ "name" := anyString name ]})) (world_of tree_folder) in
  post "f"
  = (Responded (mkResponse 500 "" (pMap {[ "error" := pString "folder already exists" ]})),
     world_of tree_folder)
  /\ post "a/b"
     = (Responded (mkResponse 500 "" (pMap {[ "error" := pString "folder name is required" ]})),
        world_of tree_folder)
  /\ (exists w',
        post "reports"
        = (Responded (mkResponse 201 ""
                        (pFolder (mkFolder (identify ["reports"]) "reports" 1 None 1))), w')
        /\ fs w' = <["reports" := Dir 1000 ∅]> tree_folder)
  /\ exists w',
       post ".."
       = (Responded (mkResponse 201 "" (pFolder (mkFolder (identify [".."]) ".." 1 None 1))), w')
       /\ fs w' = tree_folder.
Proof.
  intros post.
  assert (Hc : configured api_snippets) by (vm_compute; discriminate).
  assert (Hn : named (fs (world_of tree_folder))) by (vm_compute; reflexivity).
  assert (Hf := handleSnippetFolders_post asciiToLower noFormat trimBlanks atoiDigits noText
                  api_snippets (mkRequest "POST" ∅ ∅ (Some {[ "name" := anyString "f" ]}))
                  (world_of tree_folder) eq_refl Hc Hn).
  assert (Hab := handleSnippetFolders_post asciiToLower noFormat trimBlanks atoiDigits noText
                   api_snippets (mkRequest "POST" ∅ ∅ (Some {[ "name" := anyString "a/b" ]}))
                   (world_of tree_folder) eq_refl Hc Hn).
  assert (Hr := handleSnippetFolders_post asciiToLower noFormat trimBlanks atoiDigits noText
                  api_snippets (mkRequest "POST" ∅ ∅ (Some {[ "name" := anyString "reports" ]}))
                  (world_of tree_folder) eq_refl Hc Hn).
  assert (Hp := handleSnippetFolders_post asciiToLower noFormat trimBlanks atoiDigits noText
                  api_snippets (mkRequest "POST" ∅ ∅ (Some {[ "name" := anyString ".." ]}))
                  (world_of tree_folder) eq_refl Hc Hn).
  destruct Hf as (_ & _ & Hf & _). destruct Hab as (_ & Hab & _).
  destruct Hr as (_ & _ & _ & Hr & _). destruct Hp as (_ & _ & _ & _ & Hp).
  split; [|split; [|split]].
  - apply (Hf {[ "name" := anyString "f" ]} "f" 1 (<["a.sql" := File "select 1" 3]> ∅));
      reflexivity.
  - apply (Hab {[ "name" := anyString "a/b" ]}); reflexivity.
  - apply (Hr {[ "name" := anyString "reports" ]} "reports");
      [reflexivity | reflexivity | reflexivity | discriminate.. | reflexivity].
  - apply (Hp {[ "name" := anyString ".." ]} "..");
      [reflexivity | reflexivity | right; left; reflexivity|].
    intros mt ch. vm_compute. discriminate.
Defined.

Lemma handleSnippetsPut_loses_snippet_witness :
  let payload : gmap string any :=
    {[ "id" := anyString (identify ["b" +:+ ".sql"]); "folder_id" := anyString "nowhere" ]} in
  exists w',
    handleSnippetsPut asciiToLower noFormat noText api_snippets
      (mkRequest "PUT" ∅ ∅ (Some payload)) (world_of tree_folder)
    = (Responded (mkResponse 500 "" (pMap {[ "error" := pString "Failed to create snippet" ]})),
       w')
    /\ fs w' = delete ("b" +:+ ".sql") tree_folder.
Proof.
  intros payload.
  apply (handleSnippetsPut_loses_snippet asciiToLower noFormat noText api_snippets
           (mkRequest "PUT" ∅ ∅ (Some payload)) payload "b" "select 2" 5 "nowhere"
           (world_of tree_folder)).
  - exact asciiToLower_lowersASCII.
  - vm_compute. discriminate.
  - refine (bool_decide_unpack _ _). vm_compute. exact I.
  - vm_compute.
    repeat (apply List.NoDup_cons; [intros H; simpl in H; intuition discriminate|]).
    apply List.NoDup_nil.
  - vm_compute. reflexivity.
  - reflexivity.
  - vm_compute. reflexivity.
  - vm_compute. reflexivity.
  - vm_compute. reflexivity.
  - intros e He _. vm_compute in He.
    destruct He as [<-|[<-|[<-|[]]]]; vm_compute; discriminate.
  - intros e He _ _. vm_compute in He.
    destruct He as [<-|[<-|[<-|[]]]]; vm_compute; discriminate.
Defined.

(** ** Deleting several folders *)

Lemma deleteFolder_dir (api : API) (d : string) (mt : Z) (ch : gmap string node) (w : World) :
  configured api -> plainTree (fs w) -> List.NoDup (map ID (entriesOf (fs w))) ->
  fs w !! d = Some (Dir mt ch) ->
  deleteFolder api (identify [d]) w
  = (Ok tt, mkWorld (delete d (fs w)) (now w) (entropy w) (drawn w)).
Proof.
  intros Hc Hp Hnd Hd.
  pose proof (plainTree_named _ Hp) as Hn.
  assert (Hfolder : In (folderEntry d mt) (entriesOf (fs w))).
  { apply elem_entriesOf. left. exists d, mt, ch. auto. }
  destruct (find_first (fun entry => isFolder entry && bool_decide (ID entry = identify [d]))
              (entriesOf (fs w)) _ Hfolder) as [t Ht].
  { apply andb_true_iff. split; apply bool_decide_eq_true; reflexivity. }
  assert (t = folderEntry d mt) as ->.
  { apply find_some in Ht as [Hin Hb]. apply andb_true_iff in Hb as [_ Hb].
    apply bool_decide_eq_true in Hb.
    apply (NoDup_map_eq ID (entriesOf (fs w))); assumption. }
  rewrite (deleteFolder_found api _ w _ Hc Hn Ht).
  change (Name (folderEntry d mt)) with d.
  rewrite (filepath_Join_plain1 d (plainTree_root _ _ _ Hp Hd)).
  reflexivity.
Qed.

Section FolderRouteFacts.

Variable ToLower : string -> string.
Variable formatRFC3339 : Z -> string.
Variable TrimSpace : string -> string.
Variable Atoi : string -> option Z.
Variable osErrorText : oserror -> string.

Lemma deleteFolders_blank api (idsList : list string) (w : World) :
  (forall id, In id idsList -> TrimSpace id = "") ->
  deleteFolders TrimSpace osErrorText api idsList w
  = (Responded (mkResponse 200 "" (pMap ∅)), w).
Proof.
  induction idsList as [|id rest IH]; intros Hblank; [reflexivity|]. simpl.
  rewrite (Hblank id) by (left; reflexivity). simpl.
  apply IH. intros; apply Hblank; right; assumption.
Qed.

(** X25.  Deleting folders through the route.  [handleSnippetFolders]
    answers a DELETE without ids with 400.  On a configured repository whose
    tree has plain names and distinct ids, for the id of a directory of the
    root alone it removes the directory with all it holds and answers 200;
    for that id followed by an id no folder has it answers 500 with
    [folder not found] after it has removed the directory. *)
Theorem handleSnippetFolders_delete (api : API) (r : Request) (w : World) :
  Method r = "DELETE" ->
  let idsList := Split (Query_Get r "ids") ","%char in
  let answer :=
    handleSnippetFolders ToLower formatRFC3339 TrimSpace Atoi osErrorText api r w in
  (Query_Get r "ids" = "" ->
   answer
   = (Responded (mkResponse 400 "" (pMap {[ "error" := pString "Folder IDs are required" ]})),
      w))
  /\ (forall d mt ch first rest,
        Query_Get r "ids" <> "" ->
        configured api -> plainTree (fs w) -> List.NoDup (map ID (entriesOf (fs w))) ->
        fs w !! d = Some (Dir mt ch) ->
        idsList = first :: rest ->
        TrimSpace first = identify [d] ->
        ((forall id, In id rest -> TrimSpace id = "") ->
         answer = (Responded (mkResponse 200 "" (pMap ∅)),
                   mkWorld (delete d (fs w)) (now w) (entropy w) (drawn w)))
        /\ (forall second rest',
                rest = second :: rest' -> TrimSpace second <> "" ->
                (forall e, In e (entriesOf (fs w)) -> Type_ e = "folder" ->
                           ID e <> TrimSpace second) ->
              answer
              = (Responded
                   (mkResponse 500 "" (pMap {[ "error" := pString "folder not found" ]})),
                 mkWorld (delete d (fs w)) (now w) (entropy w) (drawn w)))).
Proof.
  intros Hm idsList answer. unfold answer, handleSnippetFolders. rewrite Hm. simpl.
  fold idsList. split.
  - intros ->. reflexivity.
  - intros d mt ch first rest Hids Hc Hp Hnd Hd Hl Hfirst.
    rewrite (bool_decide_eq_false_2 _ Hids), Hl.
    cbn [deleteFolders]. rewrite Hfirst.
    rewrite (bool_decide_eq_false_2 _ (identify_nonempty _)).
    rewrite (deleteFolder_dir api d mt ch w Hc Hp Hnd Hd).
    set (w1 := mkWorld (delete d (fs w)) (now w) (entropy w) (drawn w)). split.
    + intros Hblank. apply (deleteFolders_blank api rest w1 Hblank).
    + intros second rest' -> Hsecond Hnone. cbn [deleteFolders].
      rewrite (bool_decide_eq_false_2 _ Hsecond).
      assert (Hn1 : named (fs w1)).
      { unfold named. simpl. rewrite lookup_delete_ne; [apply plainTree_named, Hp|].
        intros E. rewrite E in Hd. pose proof (plainTree_named _ Hp) as Hn.
        unfold named in Hn. congruence. }
      rewrite (deleteFolder_absent api (TrimSpace second) w1 Hc Hn1); [reflexivity|].
      intros e He Hf.
      apply (entriesOf_delete_dir (fs w) ch d mt e Hd Hnd) in He as [He _].
      exact (Hnone e He Hf).
Qed.

End FolderRouteFacts.

Lemma handleSnippetFolders_delete_witness :
  let delete_ids := fun ids =>
    handleSnippetFolders asciiToLower noFormat trimBlanks atoiDigits noText api_snippets
      (mkRequest "DELETE" {[ "ids" := [ids] ]} ∅ None) (world_of tree_folder) in
  let w' := mkWorld (delete "f" tree_folder) 1000 counting 0 in
  delete_ids (identify ["f"]) = (Responded (mkResponse 200 "" (pMap ∅)), w')
  /\ delete_ids (identify ["f"] +:+ ",nothing")
     = (Responded (mkResponse 500 "" (pMap {[ "error" := pString "folder not found" ]})), w').
Proof.
  intros delete_ids w'.
  assert (Hc : configured api_snippets) by (vm_compute; discriminate).
  assert (Hp : plainTree (fs (world_of tree_folder))).
  { refine (bool_decide_unpack _ _). vm_compute. exact I. }
  assert (Hnd : List.NoDup (map ID (entriesOf (fs (world_of tree_folder))))).
  { vm_compute.
    repeat (apply List.NoDup_cons; [intros H; simpl in H; intuition discriminate|]).
    apply List.NoDup_nil. }
  destruct (handleSnippetFolders_delete asciiToLower noFormat trimBlanks atoiDigits noText
              api_snippets (mkRequest "DELETE" {[ "ids" := [identify ["f"]] ]} ∅ None)
              (world_of tree_folder) eq_refl) as [_ Hone].
  destruct (handleSnippetFolders_delete asciiToLower noFormat trimBlanks atoiDigits noText
              api_snippets
              (mkRequest "DELETE" {[ "ids" := [identify ["f"] +:+ ",nothing"] ]} ∅ None)
              (world_of tree_folder) eq_refl) as [_ Htwo].
  destruct (Hone "f" 1 (<["a.sql" := File "select 1" 3]> ∅) (identify ["f"]) [])
    as [Hok _];
    [vm_compute; discriminate | exact Hc | exact Hp | exact Hnd | reflexivity
    | vm_compute; reflexivity | vm_compute; reflexivity |].
  destruct (Htwo "f" 1 (<["a.sql" := File "select 1" 3]> ∅) (identify ["f"]) ["nothing"])
    as [_ Hfail];
    [vm_compute; discriminate | exact Hc | exact Hp | exact Hnd | reflexivity
    | vm_compute; reflexivity | vm_compute; reflexivity |].
  split.
  - apply Hok. intros id [].
  - apply (Hfail "nothing" []); [reflexivity | vm_compute; discriminate|].
    intros e He _. vm_compute in He.
    destruct He as [<-|[<-|[<-|[]]]]; vm_compute; discriminate.
Defined.
